(** * RAG query service: cache, rate limiter, metrics tracker, orchestrator

    Shallow embedding of
      - [utils/cache.py]            ([SimpleCache]),
      - [utils/rate_limit.py]       ([RateLimiter]),
      - [utils/response_quality.py] ([ResponseQualityMetrics]),
      - [models/query.py]           ([Citation], [QueryRequest], [QueryResponse]),
      - [services/rag_service.py]   ([RAGService]).

    Conventions.
      - A Python [str] is a [string]; one [ascii] stands for one character.
      - A reading of [time.time()] is a rational number ([Q]); the code only
        adds, subtracts, divides and compares such readings.
      - A Python [int] is a [Z].
      - Library calls whose result the code treats as opaque ([hashlib.md5],
        [uuid.uuid4], [datetime.utcnow], the embedding / search / generation
        clients) are Section variables. *)

From Stdlib Require Import ZArith QArith Lqa Ascii String DecimalString Sorted.
From stdpp Require Import base option list strings gmap.

Local Open Scope string_scope.

(** ** Python basics *)

Module Py.

(** A parameter with a default value: the caller may leave it out. *)
Inductive arg (A : Type) : Type :=
| Omitted : arg A
| Passed (a : A) : arg A.
Arguments Omitted {A}.
Arguments Passed {A} a.

Definition or_default {A : Type} (d : A) (x : arg A) : A :=
  match x with Omitted => d | Passed a => a end.

(** [f"{x}"] for a value that is a [str] or [None]. *)
Definition fmt (x : option string) : string :=
  match x with None => "None" | Some s => s end.

(** Truth value of a [str] or [None]. *)
Definition truthy_str (x : option string) : bool :=
  match x with None => false | Some "" => false | Some _ => true end.

(** [a > b] and [a < b] on clock readings. *)
Definition Qgtb (a b : Q) : bool := negb (Qle_bool a b).
Definition Qltb (a b : Q) : bool := negb (Qle_bool b a).

(** [s[:n]] *)
Definition slice_to (n : nat) (s : string) : string := String.substring 0 n s.

(** [s.startswith(p)] *)
Definition startswith (s p : string) : bool := String.prefix p s.

(** Characters removed by [str.strip()] (the ASCII ones). *)
Definition is_whitespace (c : ascii) : bool :=
  let n := nat_of_ascii c in
  ((9 <=? n)%nat && (n <=? 13)%nat) || ((28 <=? n)%nat && (n <=? 32)%nat).

Fixpoint lstrip (s : string) : string :=
  match s with
  | String c s' => if is_whitespace c then lstrip s' else s
  | EmptyString => EmptyString
  end.

(** Drop the trailing whitespace: a character is kept when it is not
    whitespace or when something is kept after it. *)
Fixpoint rstrip (s : string) : string :=
  match s with
  | String c s' =>
      match rstrip s' with
      | EmptyString => if is_whitespace c then EmptyString
                       else String c EmptyString
      | r => String c r
      end
  | EmptyString => EmptyString
  end.

(** [s.strip()] *)
Definition strip (s : string) : string := rstrip (lstrip s).

(** The exceptions the modelled code raises or receives. *)
Inductive exn : Type :=
| Exception (msg : string)
| KeyError (key : string)
| ValidationError (model : string) (detail : string)
| ZeroDivisionError.

(** [str(e)].  The text pydantic prints for a [ValidationError] is
    abbreviated to its first line and the offending field. *)
Definition str_exn (e : exn) : string :=
  match e with
  | Exception msg => msg
  | KeyError key => "'" +:+ key +:+ "'"
  | ValidationError model detail =>
      "1 validation error for " +:+ model +:+ ": " +:+ detail
  | ZeroDivisionError => "division by zero"
  end.

(** The outcome of an expression that may raise. *)
Inductive result (A : Type) : Type :=
| Ok (a : A) : result A
| Raise (e : exn) : result A.
Arguments Ok {A} a.
Arguments Raise {A} e.

(** [a / b] on numbers read as rationals. *)
Definition truediv (a b : Q) : result Q :=
  if Qeq_bool b 0 then Raise ZeroDivisionError else Ok (a / b)%Q.

(** A [dict] with string keys and string values, in insertion order. *)
Definition pydict : Type := list (string * string).

End Py.
Import Py.

(** ** utils/cache.py *)

Module SimpleCache.
Section WithHash.

(** [hashlib.md5(s.encode()).hexdigest()] *)
Variable md5_hexdigest : string -> string.
(** The payload type, [Dict[str, Any]] in the source. *)
Variable V : Type.

Record CacheEntry : Type := { value : V; expiry : Q }.

Record t : Type := { cache : gmap string CacheEntry; default_ttl : Z }.

(** [SimpleCache.__init__] *)
Definition init (default_ttl : arg Z) : t :=
  {| cache := ∅; default_ttl := or_default 3600%Z default_ttl |}.

(** [SimpleCache._generate_key] *)
Definition _generate_key (query : string) (selected_text : arg (option string))
  : string :=
  let selected_text := or_default (Some "") selected_text in
  let cache_input := query +:+ "::" +:+ fmt selected_text in
  md5_hexdigest cache_input.

(** [SimpleCache.get]; [now] is the reading of [time.time()] taken when an
    entry is found.  Returns the result and the cache after the call. *)
Definition get (now : Q) (self : t) (query : string)
           (selected_text : arg (option string)) : option V * t :=
  let selected_text := or_default (Some "") selected_text in
  let key := _generate_key query (Passed selected_text) in
  match cache self !! key with
  | Some cached_item =>
      if Qgtb now (expiry cached_item)
      then (None, {| cache := delete key (cache self);
                     default_ttl := default_ttl self |})
      else (Some (value cached_item), self)
  | None => (None, self)
  end.

(** [SimpleCache.set]; [now] is the reading of [time.time()]. *)
Definition set (now : Q) (self : t) (query : string) (v : V)
           (selected_text : arg (option string)) (ttl : arg (option Z)) : t :=
  let selected_text := or_default (Some "") selected_text in
  let key := _generate_key query (Passed selected_text) in
  let ttl := match or_default None ttl with
             | None => default_ttl self
             | Some n => n
             end in
  let expiry_time := (now + inject_Z ttl)%Q in
  {| cache := <[key := {| value := v; expiry := expiry_time |}]> (cache self);
     default_ttl := default_ttl self |}.

(** [SimpleCache.delete] *)
Definition delete (self : t) (query : string)
           (selected_text : arg (option string)) : bool * t :=
  let selected_text := or_default (Some "") selected_text in
  let key := _generate_key query (Passed selected_text) in
  match cache self !! key with
  | Some _ => (true, {| cache := base.delete key (cache self);
                        default_ttl := default_ttl self |})
  | None => (false, self)
  end.

(** [SimpleCache.size] *)
Definition size (self : t) : nat := base.size (cache self).

(** [SimpleCache.clear] *)
Definition clear (self : t) : t :=
  {| cache := ∅; default_ttl := default_ttl self |}.

(** [SimpleCache.cleanup_expired]; [current_time] is the reading of
    [time.time()].  The expired keys are collected first and deleted one by
    one; the result is the drop in the number of entries. *)
Definition cleanup_expired (current_time : Q) (self : t) : Z * t :=
  let initial_count := Z.of_nat (base.size (cache self)) in
  let expired_keys :=
    map fst (List.filter (fun entry => Qgtb current_time (expiry (snd entry)))
                         (map_to_list (cache self))) in
  let cache' :=
    fold_left (fun m key => base.delete key m) expired_keys (cache self) in
  let removed_count := (initial_count - Z.of_nat (base.size cache'))%Z in
  (removed_count, {| cache := cache'; default_ttl := default_ttl self |}).

End WithHash.

Arguments value {V} _.
Arguments expiry {V} _.
Arguments cache {V} _.
Arguments default_ttl {V} _.
Arguments Build_CacheEntry {V} _ _.
Arguments Build_t {V} _ _.
Arguments init {V} _.
Arguments get md5_hexdigest {V} now self query selected_text.
Arguments set md5_hexdigest {V} now self query v selected_text ttl.
Arguments delete md5_hexdigest {V} self query selected_text.
Arguments size {V} self.
Arguments clear {V} self.
Arguments cleanup_expired {V} current_time self.

End SimpleCache.

(** ** utils/rate_limit.py *)

Module RateLimiter.

Record t : Type := {
  requests_per_minute : Z;
  requests : gmap string (list Q)   (* API key -> request timestamps *)
}.

(** [RateLimiter.__init__] *)
Definition init (requests_per_minute : Z) : t :=
  {| requests_per_minute := requests_per_minute; requests := ∅ |}.

(** Reading [self.requests[api_key]] of the [defaultdict(list)]. *)
Definition requests_of (self : t) (api_key : string) : list Q :=
  default [] (requests self !! api_key).

(** [RateLimiter.is_allowed]; the body runs under [self.lock], so a call is
    one atomic step.  [current_time] is the reading of [time.time()]. *)
Definition is_allowed (current_time : Q) (self : t) (api_key : string)
  : bool * t :=
  let kept :=
    List.filter (fun timestamp => Qltb (current_time - timestamp) 60)
                (requests_of self api_key) in
  let self := {| requests_per_minute := requests_per_minute self;
                 requests := <[api_key := kept]> (requests self) |} in
  if (Z.of_nat (length (requests_of self api_key)) <? requests_per_minute self)%Z
  then (true,
        {| requests_per_minute := requests_per_minute self;
           requests := <[api_key := (requests_of self api_key ++ [current_time])%list]>
                         (requests self) |})
  else (false, self).

(** A run of calls for one API key, one clock reading per call. *)
Fixpoint calls (self : t) (api_key : string) (times : list Q)
  : list bool * t :=
  match times with
  | [] => ([], self)
  | current_time :: times' =>
      let '(b, self') := is_allowed current_time self api_key in
      let '(bs, self'') := calls self' api_key times' in
      (b :: bs, self'')
  end.

(** The timestamps of the calls of a run that were allowed. *)
Fixpoint allowed_times (results : list bool) (times : list Q) : list Q :=
  match results, times with
  | b :: results', t :: times' =>
      if b then t :: allowed_times results' times'
      else allowed_times results' times'
  | _, _ => []
  end.

(** [within now t]: the timestamp [t] is less than 60 seconds before [now]. *)
Definition within (now t : Q) : bool := Qltb (now - t) 60.

End RateLimiter.

(** ** models/query.py *)

Module Models.

(** *** Citation *)

Record Citation : Type := {
  document_id : string;
  title : string;
  url : string;
  text_snippet : string;
  relevance_score : Q
}.

(** The keyword arguments of [Citation(...)], also the [dict] that
    [model_dump()] produces for a citation. *)
Record CitationDict : Type := {
  cd_document_id : string;
  cd_title : string;
  cd_url : string;
  cd_text_snippet : string;
  cd_relevance_score : Q
}.

Definition no_newline (s : string) : bool :=
  forallb (fun c => negb (Ascii.eqb c "010"%char)) (list_ascii_of_string s).

(** [strip_prefix p s] is the rest of [s] after its prefix [p]. *)
Fixpoint strip_prefix (p s : string) : option string :=
  match p, s with
  | EmptyString, _ => Some s
  | String a p', String b s' =>
      if Ascii.eqb a b then strip_prefix p' s' else None
  | String _ _, EmptyString => None
  end.

(** The field pattern [^https?://.+$|^/.*$]: [.] is any character but a
    newline and [$] is the end of the text. *)
Definition url_pattern (s : string) : bool :=
  let rest_ok (rest : string) := negb (String.eqb rest "") && no_newline rest in
  match strip_prefix "http://" s, strip_prefix "https://" s with
  | Some rest, _ => rest_ok rest
  | None, Some rest => rest_ok rest
  | None, None =>
      match strip_prefix "/" s with
      | Some rest => no_newline rest
      | None => false
      end
  end.

(** [len(s)] *)
Definition len (s : string) : Z := Z.of_nat (String.length s).

Definition len_between (lo hi : Z) (s : string) : bool :=
  (lo <=? len s)%Z && (len s <=? hi)%Z.

(** The field constraints of [Citation]. *)
Definition Citation_ok (c : Citation) : bool :=
  url_pattern (url c)
  && len_between 10 1000 (text_snippet c)
  && Qle_bool 0 (relevance_score c) && Qle_bool (relevance_score c) 1.

(** [Citation(document_id=..., title=..., url=..., text_snippet=...,
    relevance_score=...)]: pydantic validates the fields and raises
    [ValidationError] when one fails. *)
Definition Citation_new (document_id title url text_snippet : string)
           (relevance_score : Q) : result Citation :=
  if negb (url_pattern url) then Raise (ValidationError "Citation" "url")
  else if negb (len_between 10 1000 text_snippet)
  then Raise (ValidationError "Citation" "text_snippet")
  else if negb (Qle_bool 0 relevance_score && Qle_bool relevance_score 1)
  then Raise (ValidationError "Citation" "relevance_score")
  else Ok {| document_id := document_id; title := title; url := url;
             text_snippet := text_snippet;
             relevance_score := relevance_score |}.

Definition Citation_of_dict (d : CitationDict) : result Citation :=
  Citation_new (cd_document_id d) (cd_title d) (cd_url d) (cd_text_snippet d)
               (cd_relevance_score d).

Definition Citation_dump (c : Citation) : CitationDict :=
  {| cd_document_id := document_id c; cd_title := title c; cd_url := url c;
     cd_text_snippet := text_snippet c;
     cd_relevance_score := relevance_score c |}.

(** *** QueryRequest *)

Record QueryRequest : Type := {
  query : string;
  selected_text : option string;
  session_id : option string;
  rq_metadata : option pydict
}.

Definition QueryRequest_ok (r : QueryRequest) : bool :=
  len_between 1 2000 (query r)
  && match selected_text r with
     | Some s => (len s <=? 5000)%Z
     | None => true
     end.

(** [QueryRequest(query=..., ...)]: the optional fields have defaults,
    [selected_text] the empty string and the others [None]. *)
Definition QueryRequest_new (query : string)
           (selected_text session_id : arg (option string))
           (metadata : arg (option pydict)) : result QueryRequest :=
  let r := {| query := query;
              selected_text := or_default (Some "") selected_text;
              session_id := or_default None session_id;
              rq_metadata := or_default None metadata |} in
  if QueryRequest_ok r then Ok r
  else Raise (ValidationError "QueryRequest" "query or selected_text").

(** *** QueryResponse *)

Record QueryResponse : Type := {
  answer : string;
  citations : list Citation;
  query_id : string;
  timestamp : string;
  metadata : option pydict
}.

(** [QueryResponse.model_dump()], the payload kept in the cache. *)
Record Payload : Type := {
  p_answer : string;
  p_citations : list CitationDict;
  p_query_id : string;
  p_timestamp : string;
  p_metadata : option pydict
}.

Definition QueryResponse_ok (r : QueryResponse) : bool :=
  len_between 1 10000 (answer r)
  && (length (citations r) <=? 20)%nat
  && forallb Citation_ok (citations r).

(** [QueryResponse(answer=..., citations=..., query_id=..., timestamp=...,
    metadata=...)] with [citations] a list of [Citation] instances, which
    pydantic takes as they are. *)
Definition QueryResponse_new (answer : string) (citations : list Citation)
           (query_id timestamp : string) (metadata : arg (option pydict))
  : result QueryResponse :=
  if negb (len_between 1 10000 answer)
  then Raise (ValidationError "QueryResponse" "answer")
  else if negb (length citations <=? 20)%nat
  then Raise (ValidationError "QueryResponse" "citations")
  else Ok {| answer := answer; citations := citations; query_id := query_id;
             timestamp := timestamp; metadata := or_default None metadata |}.

(** Building every citation of a list of dicts; the first failure is the
    one reported. *)
Fixpoint Citations_of_dicts (ds : list CitationDict) : result (list Citation) :=
  match ds with
  | [] => Ok []
  | d :: ds' =>
      match Citation_of_dict d with
      | Raise e => Raise e
      | Ok c =>
          match Citations_of_dicts ds' with
          | Raise e => Raise e
          | Ok cs => Ok (c :: cs)
          end
      end
  end.

(** [QueryResponse] built from the unpacked payload [dict]: the citations
    are dicts and are validated. *)
Definition QueryResponse_of_payload (p : Payload) : result QueryResponse :=
  match Citations_of_dicts (p_citations p) with
  | Raise (ValidationError _ detail) =>
      Raise (ValidationError "QueryResponse" ("citations." +:+ detail))
  | Raise e => Raise e
  | Ok cs =>
      QueryResponse_new (p_answer p) cs (p_query_id p) (p_timestamp p)
                        (Passed (p_metadata p))
  end.

Definition model_dump (r : QueryResponse) : Payload :=
  {| p_answer := answer r;
     p_citations := map Citation_dump (citations r);
     p_query_id := query_id r;
     p_timestamp := timestamp r;
     p_metadata := metadata r |}.

(** *** Retrieved documents *)

(** A retrieved document, a [Dict[str, Any]] in the source: each key may be
    missing. *)
Record Doc : Type := {
  d_document_id : option string;
  d_content : option string;
  d_title : option string;
  d_url : option string;
  d_text_snippet : option string;
  d_relevance_score : option Q
}.

(** [doc.get(key, dflt)] *)
Definition dict_get {A : Type} (field : option A) (dflt : A) : A :=
  default dflt field.

End Models.

(** ** utils/response_quality.py *)

Module ResponseQualityMetrics.
Import Models.

Record Metrics : Type := {
  total_queries : Z;
  successful_queries : Z;
  failed_queries : Z;
  avg_response_time : Q;
  total_response_time : Q;
  avg_citations_per_response : Q;
  total_citations : Z
}.

Record t : Type := { metrics : Metrics; response_times : list Q }.

Definition zero_metrics : Metrics :=
  {| total_queries := 0; successful_queries := 0; failed_queries := 0;
     avg_response_time := 0; total_response_time := 0;
     avg_citations_per_response := 0; total_citations := 0 |}.

(** [ResponseQualityMetrics.__init__] *)
Definition init : t := {| metrics := zero_metrics; response_times := [] |}.

(** [ResponseQualityMetrics.reset_metrics] *)
Definition reset_metrics (self : t) : t :=
  {| metrics := zero_metrics; response_times := [] |}.

(** [ResponseQualityMetrics.get_metrics] *)
Definition get_metrics (self : t) : Metrics := metrics self.

(** [a / n if n > 0 else 0]: the division is evaluated only under the guard. *)
Definition guarded_avg (a : Q) (n : Z) : result Q :=
  if (0 <? n)%Z then truediv a (inject_Z n) else Ok 0%Q.

(** [ResponseQualityMetrics.log_query_end]; [end_time] is the reading of
    [time.time()].  A division by zero would raise. *)
Definition log_query_end (end_time : Q) (self : t) (start_time : Q)
           (success : bool) (response : option QueryResponse) : result t :=
  let response_time := (end_time - start_time)%Q in
  let m := metrics self in
  let total_queries' := (total_queries m + 1)%Z in
  let response_times' := (response_times self ++ [response_time])%list in
  let total_response_time' := (total_response_time m + response_time)%Q in
  let successful' :=
    if success then (successful_queries m + 1)%Z else successful_queries m in
  let total_citations' :=
    if success
    then match response with
         | Some r => (total_citations m + Z.of_nat (length (citations r)))%Z
         | None => total_citations m
         end
    else total_citations m in
  let failed' :=
    if success then failed_queries m else (failed_queries m + 1)%Z in
  match guarded_avg total_response_time' successful' with
  | Raise e => Raise e
  | Ok avg_time =>
      match guarded_avg (inject_Z total_citations') successful' with
      | Raise e => Raise e
      | Ok avg_cit =>
          Ok {| metrics :=
                  {| total_queries := total_queries';
                     successful_queries := successful';
                     failed_queries := failed';
                     avg_response_time := avg_time;
                     total_response_time := total_response_time';
                     avg_citations_per_response := avg_cit;
                     total_citations := total_citations' |};
                response_times := response_times' |}
      end
  end.

(** One call of [log_query_end]: the start token, the clock reading taken at
    the end, and the two arguments. *)
Record EndCall : Type := {
  ec_start : Q;
  ec_end : Q;
  ec_success : bool;
  ec_response : option QueryResponse
}.

(** A run of [log_query_end] calls on the tracker. *)
Fixpoint log_all (self : t) (calls : list EndCall) : result t :=
  match calls with
  | [] => Ok self
  | c :: calls' =>
      match log_query_end (ec_end c) self (ec_start c) (ec_success c)
                          (ec_response c) with
      | Ok self' => log_all self' calls'
      | Raise e => Raise e
      end
  end.

(** A successful call that carries a response. *)
Definition success_call (c : Q * Q * QueryResponse) : EndCall :=
  {| ec_start := fst (fst c); ec_end := snd (fst c); ec_success := true;
     ec_response := Some (snd c) |}.

(** Its duration and its citation count. *)
Definition duration (c : Q * Q * QueryResponse) : Q :=
  (snd (fst c) - fst (fst c))%Q.

Definition citation_count (c : Q * Q * QueryResponse) : Z :=
  Z.of_nat (length (citations (snd c))).

(** [d1 + ... + dk] and [c1 + ... + ck], summed from zero in the order of
    the calls. *)
Definition sumQ (l : list Q) : Q := fold_left Qplus l 0%Q.
Definition sumZ (l : list Z) : Z := fold_left Z.add l 0%Z.

(** The states the tracker can be in: the initial one, and those that
    [log_query_end] and [reset_metrics] lead to. *)
Inductive reachable : t -> Prop :=
| reach_init : reachable init
| reach_reset (self : t) : reachable self -> reachable (reset_metrics self)
| reach_log (self self' : t) (end_time start_time : Q) (success : bool)
            (response : option QueryResponse) :
    reachable self ->
    log_query_end end_time self start_time success response = Ok self' ->
    reachable self'.

(** The report of [validate_response_accuracy]; [sources_used] is built
    from a set, whose order Python leaves open. *)
Record ValidationResult : Type := {
  is_accurate : bool;
  confidence_score : Q;
  citations_validated : bool;
  sources_used : gset string;
  validation_notes : list string
}.

(** [ResponseQualityMetrics.validate_response_accuracy] *)
Definition validate_response_accuracy (response : QueryResponse)
           (source_context : list Doc) : ValidationResult :=
  let has_citations := match citations response with [] => false | _ => true end in
  let has_context := match source_context with [] => false | _ => true end in
  let r0 := {| is_accurate := true; confidence_score := 1;
               citations_validated := true; sources_used := ∅;
               validation_notes := [] |} in
  let r1 :=
    if has_citations && has_context then
      let cited_sources : gset string :=
        list_to_set (map document_id (citations response)) in
      let available_sources : gset string :=
        list_to_set
          (omap (fun doc => if truthy_str (d_document_id doc)
                            then d_document_id doc else None)
                source_context) in
      if decide (cited_sources ⊆ available_sources)
      then {| is_accurate := is_accurate r0;
              confidence_score := confidence_score r0;
              citations_validated := citations_validated r0;
              sources_used := cited_sources ∩ available_sources;
              validation_notes := validation_notes r0 |}
      else {| is_accurate := false;
              confidence_score := 1 # 2;
              citations_validated := citations_validated r0;
              sources_used := sources_used r0;
              validation_notes :=
                (validation_notes r0
                 ++ ["Some citations reference sources not in context"])%list |}
    else r0 in
  if has_citations && String.eqb (strip (answer response)) ""
  then {| is_accurate := false;
          confidence_score := 0;
          citations_validated := citations_validated r1;
          sources_used := sources_used r1;
          validation_notes :=
            (validation_notes r1
             ++ ["Response has citations but no content"])%list |}
  else r1.

End ResponseQualityMetrics.

(** ** services/rag_service.py *)

Module RAGService.
Import Models.

(** What [generate_response] returns, a [Dict[str, Any]]: the keys the
    orchestrator reads. *)
Record AgentResponse : Type := {
  a_answer : option string;
  a_metadata : option pydict
}.

(** An embedding as [generate_embedding] types it: [Optional[List[float]]]. *)
Definition Embedding : Type := option (list Q).

(** [not query_embedding] is false exactly for a non-empty list. *)
Definition truthy_embedding (e : Embedding) : bool :=
  match e with Some (_ :: _) => true | _ => false end.

(** A call that left the service, kept in order (ghost state). *)
Inductive Call : Type :=
| CallCohere (text : string)
| CallOpenAI (text : string)
| CallSearch (query_vector : list Q) (limit : Z)
| CallGenerate (query : string) (context : list Doc) (selected_text : option string).

(** The process-wide objects the service works on, and how many readings of
    each external source have been taken. *)
Record World : Type := {
  w_cache : SimpleCache.t Payload;            (* utils.cache.cache *)
  w_quality : ResponseQualityMetrics.t;       (* response_quality_metrics *)
  w_clock : nat;                              (* readings of time.time() *)
  w_uuid : nat;                               (* draws of uuid.uuid4() *)
  w_utcnow : nat;                             (* readings of datetime.utcnow() *)
  w_calls : list Call
}.

Definition set_cache (c : SimpleCache.t Payload) (w : World) : World :=
  {| w_cache := c; w_quality := w_quality w; w_clock := w_clock w;
     w_uuid := w_uuid w; w_utcnow := w_utcnow w; w_calls := w_calls w |}.

Definition set_quality (q : ResponseQualityMetrics.t) (w : World) : World :=
  {| w_cache := w_cache w; w_quality := q; w_clock := w_clock w;
     w_uuid := w_uuid w; w_utcnow := w_utcnow w; w_calls := w_calls w |}.

Definition tick_clock (w : World) : World :=
  {| w_cache := w_cache w; w_quality := w_quality w; w_clock := S (w_clock w);
     w_uuid := w_uuid w; w_utcnow := w_utcnow w; w_calls := w_calls w |}.

Definition tick_uuid (w : World) : World :=
  {| w_cache := w_cache w; w_quality := w_quality w; w_clock := w_clock w;
     w_uuid := S (w_uuid w); w_utcnow := w_utcnow w; w_calls := w_calls w |}.

Definition tick_utcnow (w : World) : World :=
  {| w_cache := w_cache w; w_quality := w_quality w; w_clock := w_clock w;
     w_uuid := w_uuid w; w_utcnow := S (w_utcnow w); w_calls := w_calls w |}.

Definition record_call (c : Call) (w : World) : World :=
  {| w_cache := w_cache w; w_quality := w_quality w; w_clock := w_clock w;
     w_uuid := w_uuid w; w_utcnow := w_utcnow w;
     w_calls := (w_calls w ++ [c])%list |}.

(** A computation on the world that returns or raises; the world it leaves
    is kept in both cases. *)
Definition M (A : Type) : Type := World -> result A * World.

Definition ret {A : Type} (a : A) : M A := fun w => (Ok a, w).

Definition raise {A : Type} (e : exn) : M A := fun w => (Raise e, w).

Definition bind {A B : Type} (c : M A) (k : A -> M B) : M B :=
  fun w =>
    match c w with
    | (Ok a, w') => k a w'
    | (Raise e, w') => (Raise e, w')
    end.

Definition lift {A : Type} (r : result A) : M A := fun w => (r, w).

(** [try: body except Exception as e: handler(e)] *)
Definition try_except {A : Type} (body : M A) (handler : exn -> M A) : M A :=
  fun w =>
    match body w with
    | (Ok a, w') => (Ok a, w')
    | (Raise e, w') => handler e w'
    end.

Notation "x <- c ;; k" := (bind c (fun x => k))
  (at level 100, c at next level, right associativity).
Notation "c ;;; k" := (bind c (fun _ => k))
  (at level 100, right associativity).

Section Service.

(** The external sources and the collaborators. *)
Variable md5_hexdigest : string -> string.
Variable time_time : nat -> Q.              (* the n-th reading of the clock *)
Variable uuid4 : nat -> string.             (* str of the n-th uuid drawn *)
Variable utcnow_isoformat : nat -> string.  (* n-th datetime.utcnow().isoformat() *)
Variable cohere_client : option (string -> result Embedding).
Variable openai_client : option (string -> result Embedding).
Variable search_documents : list Q -> Z -> result (list Doc).
Variable generate_response :
  string -> list Doc -> option string -> result AgentResponse.

Definition read_clock : M Q :=
  fun w => (Ok (time_time (w_clock w)), tick_clock w).

Definition new_uuid : M string :=
  fun w => (Ok (uuid4 (w_uuid w)), tick_uuid w).

(** [datetime.utcnow().isoformat() + "Z"] *)
Definition now_stamp : M string :=
  fun w => (Ok (utcnow_isoformat (w_utcnow w) +:+ "Z"), tick_utcnow w).

(** [response_quality_metrics.log_query_start()] *)
Definition log_query_start : M Q := read_clock.

(** [response_quality_metrics.log_query_end(start_time, success, response)] *)
Definition log_query_end (start_time : Q) (success : bool)
           (response : option QueryResponse) : M unit :=
  end_time <- read_clock ;;
  fun w =>
    match ResponseQualityMetrics.log_query_end
            end_time (w_quality w) start_time success response with
    | Ok q => (Ok tt, set_quality q w)
    | Raise e => (Raise e, w)
    end.

(** [cache.get(query, selected_text)]: the clock is read when an entry is
    found. *)
Definition cache_get (query : string) (selected_text : option string)
  : M (option Payload) :=
  fun w =>
    let key := SimpleCache._generate_key md5_hexdigest query (Passed selected_text) in
    let found := SimpleCache.cache (w_cache w) !! key in
    let '(r, c) := SimpleCache.get md5_hexdigest (time_time (w_clock w))
                     (w_cache w) query (Passed selected_text) in
    let w := set_cache c w in
    (Ok r, match found with
           | Some _ => tick_clock w
           | None => w
           end).

(** [cache.set(query, value, selected_text, ttl=7200)] *)
Definition cache_set (query : string) (v : Payload)
           (selected_text : option string) (ttl : Z) : M unit :=
  now <- read_clock ;;
  fun w =>
    (Ok tt, set_cache (SimpleCache.set md5_hexdigest now (w_cache w) query v
                         (Passed selected_text) (Passed (Some ttl))) w).

(** An assignment to a key of the dict that [cache.get] returned: the dict
    is the one the cache entry holds, so the entry changes with it. *)
Definition update_cached (query : string) (selected_text : option string)
           (f : Payload -> Payload) : M unit :=
  fun w =>
    let key := SimpleCache._generate_key md5_hexdigest query (Passed selected_text) in
    let c := w_cache w in
    (Ok tt,
     set_cache
       {| SimpleCache.cache :=
            alter (fun e => {| SimpleCache.value := f (SimpleCache.value e);
                               SimpleCache.expiry := SimpleCache.expiry e |})
                  key (SimpleCache.cache c);
          SimpleCache.default_ttl := SimpleCache.default_ttl c |} w).

Definition set_query_id (v : string) (p : Payload) : Payload :=
  {| p_answer := p_answer p; p_citations := p_citations p; p_query_id := v;
     p_timestamp := p_timestamp p; p_metadata := p_metadata p |}.

Definition set_timestamp (v : string) (p : Payload) : Payload :=
  {| p_answer := p_answer p; p_citations := p_citations p;
     p_query_id := p_query_id p; p_timestamp := v;
     p_metadata := p_metadata p |}.

(** The mock embedding [[0.0] * 1024]. *)
Definition mock_embedding : Embedding := Some (repeat 0%Q 1024).

(** [RAGService.generate_embedding]: Cohere first, then the
    OpenAI-compatible endpoint, then the mock embedding; an exception of a
    client is logged and the next method is tried. *)
Definition generate_embedding (text : string) : M Embedding :=
  fun w =>
    let '(from_cohere, w) :=
      match cohere_client with
      | Some embed =>
          (match embed text with Ok v => Some v | Raise _ => None end,
           record_call (CallCohere text) w)
      | None => (None, w)
      end in
    match from_cohere with
    | Some v => (Ok v, w)
    | None =>
        match openai_client with
        | Some create =>
            (match create text with
             | Ok v => Ok v
             | Raise _ => Ok mock_embedding
             end,
             record_call (CallOpenAI text) w)
        | None => (Ok mock_embedding, w)
        end
    end.

(** [RAGService.validate_citation_links] *)
Definition validate_citation_links (citations : list Citation) : list Citation :=
  List.filter
    (fun citation =>
       truthy_str (Some (url citation))
       && (startswith (url citation) "http" || startswith (url citation) "/"))
    citations.

(** [RAGService.enhance_citation_relevance] *)
Definition enhance_citation_relevance (citations : list Citation)
           (query : string) : list Citation := citations.

(** The citation built from one retrieved document. *)
Definition citation_of_doc (doc : Doc) : result Citation :=
  Citation_new (dict_get (d_document_id doc) "")
               (dict_get (d_title doc) "")
               (dict_get (d_url doc) "")
               (slice_to 500 (dict_get (d_text_snippet doc) ""))
               (dict_get (d_relevance_score doc) 0%Q).

(** The loop that fills [raw_citations]; it stops at the first document
    whose citation cannot be built. *)
Fixpoint raw_citations_of (relevant_docs : list Doc) : result (list Citation) :=
  match relevant_docs with
  | [] => Ok []
  | doc :: docs =>
      match citation_of_doc doc with
      | Raise e => Raise e
      | Ok citation =>
          match raw_citations_of docs with
          | Raise e => Raise e
          | Ok rest => Ok (citation :: rest)
          end
      end
  end.

(** [d[key]] on the agent's answer dict. *)
Definition getitem_answer (agent_response : AgentResponse) : result string :=
  match a_answer agent_response with
  | Some s => Ok s
  | None => Raise (KeyError "answer")
  end.

Definition no_docs_answer : string :=
  "I couldn't find any relevant documents to answer your question.".

Definition error_answer : string :=
  "Sorry, I encountered an error while processing your request.".

(** The text that is embedded: the selected text, when there is one,
    before the query. *)
Definition query_text_of (query_request : QueryRequest) : string :=
  if truthy_str (selected_text query_request)
  then fmt (selected_text query_request) +:+ " " +:+ query query_request
  else query query_request.

(** The body of the [try] of [query_documentation].  A cached payload is a
    dict with the five keys of a response, so [if cached_response] holds
    whenever [cache.get] returns one. *)
Definition query_body (query_request : QueryRequest) (start_time : Q)
  : M QueryResponse :=
  let q := query query_request in
  let sel := selected_text query_request in
  cached_response <- cache_get q sel ;;
  match cached_response with
  | Some cached_response =>
      qid <- new_uuid ;;
      update_cached q sel (set_query_id qid) ;;;
      ts <- now_stamp ;;
      update_cached q sel (set_timestamp ts) ;;;
      response <- lift (QueryResponse_of_payload
                          (set_timestamp ts (set_query_id qid cached_response))) ;;
      log_query_end start_time true (Some response) ;;;
      ret response
  | None =>
      let query_text := query_text_of query_request in
      query_embedding <- generate_embedding query_text ;;
      match query_embedding with
      | Some ((_ :: _) as vector) =>
          relevant_docs <-
            (fun w => (search_documents vector 5,
                       record_call (CallSearch vector 5) w)) ;;
          match relevant_docs with
          | [] =>
              qid <- new_uuid ;;
              ts <- now_stamp ;;
              response <- lift (QueryResponse_new no_docs_answer [] qid ts Omitted) ;;
              log_query_end start_time false (Some response) ;;;
              ret response
          | _ :: _ =>
              agent_response <-
                (fun w => (generate_response q relevant_docs sel,
                           record_call (CallGenerate q relevant_docs sel) w)) ;;
              raw_citations <- lift (raw_citations_of relevant_docs) ;;
              let enhanced_citations := enhance_citation_relevance raw_citations q in
              let validated_citations := validate_citation_links enhanced_citations in
              qid <- new_uuid ;;
              ans <- lift (getitem_answer agent_response) ;;
              ts <- now_stamp ;;
              response <- lift (QueryResponse_new ans validated_citations qid ts
                                  (Passed (Some (dict_get (a_metadata agent_response) [])))) ;;
              let validation_result :=
                ResponseQualityMetrics.validate_response_accuracy
                  response relevant_docs in
              (if negb (String.eqb (answer response) "")
                  && (0 <? len (strip (answer response)))%Z
               then cache_set q (model_dump response) sel 7200
               else ret tt) ;;;
              log_query_end start_time true (Some response) ;;;
              ret response
          end
      | _ => raise (Exception "Failed to generate query embedding")
      end
  end.

(** The [except Exception as e] branch of [query_documentation]. *)
Definition query_handler (start_time : Q) (e : exn) : M QueryResponse :=
  qid <- new_uuid ;;
  ts <- now_stamp ;;
  error_response <- lift (QueryResponse_new error_answer [] qid ts
                            (Passed (Some [("error", str_exn e)]))) ;;
  log_query_end start_time false (Some error_response) ;;;
  ret error_response.

(** [RAGService.query_documentation] *)
Definition query_documentation (query_request : QueryRequest) : M QueryResponse :=
  start_time <- log_query_start ;;
  try_except (query_body query_request start_time) (query_handler start_time).

End Service.

End RAGService.

(** ** services/agent_service.py: the query check *)

Module AgentService.

(** [AgentService.validate_query] *)
Definition validate_query (query : string) : bool :=
  if negb (truthy_str (Some query)) || (Models.len (strip query) =? 0)%Z
  then false
  else if (2000 <? Models.len query)%Z then false
  else true.

End AgentService.

(** ** Ingestion: [RAGService.add_document_to_index] *)

Module Ingestion.
Import Models RAGService.

Section Ingest.

Variable uuid4 : nat -> string.
Variable cohere_client : option (string -> result Embedding).
Variable openai_client : option (string -> result Embedding).
(** [qdrant_service.add_document(document_id, content, title, url,
    embedding, metadata)] *)
Variable add_document :
  string -> string -> string -> string -> Embedding -> option pydict ->
  result bool.

(** [RAGService.add_document_to_index] *)
Definition add_document_to_index (content title url : string)
           (metadata : arg (option pydict)) : M bool :=
  let metadata := or_default None metadata in
  try_except
    (embedding <- generate_embedding cohere_client openai_client content ;;
     if negb (truthy_embedding embedding) then ret false
     else
       doc_id <- new_uuid uuid4 ;;
       success <- lift (add_document doc_id content title url embedding
                                     metadata) ;;
       ret success)
    (fun e => ret false).

End Ingest.

End Ingestion.

(** ** HTTP outcomes *)

Module Http.

(** [fastapi.HTTPException(status_code, detail)] *)
Record HTTPException : Type := { status_code : Z; detail : string }.

(** What a route or dependency does: it returns a value or raises an
    [HTTPException]. *)
Inductive outcome (A : Type) : Type :=
| Returned (a : A) : outcome A
| Rejected (e : HTTPException) : outcome A.
Arguments Returned {A} a.
Arguments Rejected {A} e.

End Http.

(** ** api/v1/endpoints/query.py *)

Module QueryEndpoint.
Import Models RAGService Http.

Section Endpoint.

Variable md5_hexdigest : string -> string.
Variable time_time : nat -> Q.
Variable uuid4 : nat -> string.
Variable utcnow_isoformat : nat -> string.
Variable cohere_client : option (string -> result Embedding).
Variable openai_client : option (string -> result Embedding).
Variable search_documents : list Q -> Z -> result (list Doc).
Variable generate_response :
  string -> list Doc -> option string -> result AgentResponse.

(** The route [query_documentation(request)]: the two checks raise an
    [HTTPException] that the route lets through; any other exception of
    the service becomes a 500. *)
Definition query_documentation (request : QueryRequest)
  : World -> outcome QueryResponse * World :=
  fun w =>
    if negb (truthy_str (Some (query request)))
       || (len (strip (query request)) =? 0)%Z
    then (Rejected {| status_code := 400;
                      detail := "Query cannot be empty" |}, w)
    else if (2000 <? len (query request))%Z
    then (Rejected
            {| status_code := 400;
               detail := "Query exceeds maximum length of 2000 characters" |},
          w)
    else
      match RAGService.query_documentation
              md5_hexdigest time_time uuid4 utcnow_isoformat cohere_client
              openai_client search_documents generate_response request w with
      | (Ok response, w') => (Returned response, w')
      | (Raise e, w') =>
          (Rejected {| status_code := 500;
                       detail := "Internal server error: " +:+ str_exn e |},
           w')
      end.

End Endpoint.

End QueryEndpoint.

(** ** utils/auth.py and [check_rate_limit] *)

Module Auth.
Import Http.

(** [rate_limit.check_rate_limit], on the global limiter. *)
Definition check_rate_limit (current_time : Q) (rate_limiter : RateLimiter.t)
           (api_key : string) : bool * RateLimiter.t :=
  RateLimiter.is_allowed current_time rate_limiter api_key.

(** [verify_api_key(auth)]: [auth] is [None] or the credentials of the
    bearer header; [settings_api_key] is [settings.api_key].  The clock is
    read by the rate limiter only. *)
Definition verify_api_key (settings_api_key : string) (current_time : Q)
           (rate_limiter : RateLimiter.t) (auth : option string)
  : outcome string * RateLimiter.t :=
  match auth with
  | None =>
      (Rejected {| status_code := 401; detail := "API key is missing" |},
       rate_limiter)
  | Some credentials =>
      if negb (truthy_str (Some credentials))
      then (Rejected {| status_code := 401; detail := "API key is missing" |},
            rate_limiter)
      else if negb (String.eqb credentials settings_api_key)
      then (Rejected {| status_code := 401; detail := "Invalid API key" |},
            rate_limiter)
      else
        let '(allowed, rate_limiter') :=
          check_rate_limit current_time rate_limiter credentials in
        if negb allowed
        then (Rejected {| status_code := 429;
                          detail := "Rate limit exceeded" |}, rate_limiter')
        else (Returned credentials, rate_limiter')
  end.

(** [validate_api_key_in_header] *)
Definition validate_api_key_in_header (settings_api_key : string)
           (api_key_header : string) : bool :=
  String.eqb api_key_header settings_api_key.

(** Whether the bearer credentials are the configured key. *)
Definition carries_key (settings_api_key : string) (auth : option string)
  : bool :=
  match auth with
  | Some credentials => String.eqb credentials settings_api_key
  | None => false
  end.

(** A run of [verify_api_key] calls, one clock reading per call. *)
Fixpoint requests (settings_api_key : string) (rate_limiter : RateLimiter.t)
         (calls : list (Q * option string))
  : list (outcome string) * RateLimiter.t :=
  match calls with
  | [] => ([], rate_limiter)
  | (current_time, auth) :: calls' =>
      let '(o, rate_limiter') :=
        verify_api_key settings_api_key current_time rate_limiter auth in
      let '(os, rate_limiter'') :=
        requests settings_api_key rate_limiter' calls' in
      (o :: os, rate_limiter'')
  end.

End Auth.

(** ** utils/monitoring.py *)

Module MonitoringService.

Record t : Type := {
  request_count : Z;
  error_count : Z;
  start_time : Q
}.

(** [MonitoringService.__init__]; [now] is the reading of [time.time()]. *)
Definition init (now : Q) : t :=
  {| request_count := 0; error_count := 0; start_time := now |}.

(** [MonitoringService.log_request]: what it keeps of the request and the
    response is the status code; the rest goes to the log. *)
Definition log_request (self : t) (status_code : Z) (process_time : Q) : t :=
  let request_count' := (request_count self + 1)%Z in
  if (200 <=? status_code)%Z && (status_code <? 400)%Z
  then {| request_count := request_count';
          error_count := error_count self;
          start_time := start_time self |}
  else {| request_count := request_count';
          error_count := (error_count self + 1)%Z;
          start_time := start_time self |}.

(** The dict of [get_system_metrics]. *)
Record SystemMetrics : Type := {
  uptime_seconds : Q;
  total_requests : Z;
  total_errors : Z;
  error_rate : Q;
  response_quality : ResponseQualityMetrics.Metrics;
  api_status : string
}.

(** [MonitoringService.get_system_metrics]; [now] is the reading of
    [time.time()], [quality] the global tracker. *)
Definition get_system_metrics (now : Q) (self : t)
           (quality : ResponseQualityMetrics.t) : result SystemMetrics :=
  let uptime := (now - start_time self)%Q in
  let quality_metrics := ResponseQualityMetrics.get_metrics quality in
  match ResponseQualityMetrics.guarded_avg (inject_Z (error_count self))
                                           (request_count self) with
  | Raise e => Raise e
  | Ok rate =>
      Ok {| uptime_seconds := uptime;
            total_requests := request_count self;
            total_errors := error_count self;
            error_rate := rate;
            response_quality := quality_metrics;
            api_status := "healthy" |}
  end.

(** A run of [log_request] calls, by the status codes of the responses. *)
Definition log_requests (self : t) (status_codes : list Z) : t :=
  fold_left (fun s code => log_request s code 0%Q) status_codes self.

End MonitoringService.

(** ** Sample inputs *)

Module Examples.
Import Models RAGService.

(** A stand-in for the hash, a clock that advances by one second per
    reading, and numbered identifiers and timestamps. *)
Definition hash (s : string) : string := s.
Definition clock (n : nat) : Q := inject_Z (Z.of_nat n).
Definition uuid (n : nat) : string :=
  "uuid-" +:+ NilEmpty.string_of_uint (Nat.to_uint n).
Definition utcnow (n : nat) : string :=
  "2025-12-15T10:30:0" +:+ NilEmpty.string_of_uint (Nat.to_uint n).

(** The process at start: empty cache, zeroed tracker. *)
Definition world : World :=
  {| w_cache := SimpleCache.init Omitted;
     w_quality := ResponseQualityMetrics.init;
     w_clock := 0; w_uuid := 0; w_utcnow := 0; w_calls := [] |}.

Definition request : QueryRequest :=
  {| query := "What is ROS 2?"; selected_text := Some "";
     session_id := None; rq_metadata := None |}.

(** A retrieved document, well-formed but for the [url] it is given. *)
Definition doc (id : string) (url : option string) : Doc :=
  {| d_document_id := Some id;
     d_content := Some "ROS 2 is a set of software libraries and tools.";
     d_title := Some "ROS 2 overview";
     d_url := url;
     d_text_snippet := Some "ROS 2 is a set of software libraries and tools.";
     d_relevance_score := Some (9 # 10) |}.

(** The same document without a [text_snippet]. *)
Definition doc_without_snippet : Doc :=
  {| d_document_id := Some "doc1";
     d_content := None;
     d_title := Some "ROS 2 overview";
     d_url := Some "/docs/ros2";
     d_text_snippet := None;
     d_relevance_score := Some (9 # 10) |}.

(** Collaborators: an embedding client that answers, one that raises, a
    search that returns the given documents, a generation that answers. *)
Definition embed_ok (text : string) : result Embedding := Ok (Some [1%Q; 0%Q]).
Definition embed_none (text : string) : result Embedding := Ok None.
Definition embed_down (text : string) : result Embedding :=
  Raise (Exception "503 Service Unavailable").
Definition search (docs : list Doc) (query_vector : list Q) (limit : Z)
  : result (list Doc) := Ok docs.
Definition generate (query : string) (context : list Doc)
           (selected_text : option string) : result AgentResponse :=
  Ok {| a_answer := Some "ROS 2 is a robotics middleware.";
        a_metadata := None |}.

(** One request on the fresh process. *)
Definition run (cohere_client : option (string -> result Embedding))
           (docs : list Doc) : result QueryResponse * World :=
  query_documentation hash clock uuid utcnow cohere_client None
                      (search docs) generate request world.

(** Citations as [validate_citation_links] would receive them if they
    could be built. *)
Definition citation (url : string) : Citation :=
  {| document_id := "doc"; title := "ROS 2 overview"; url := url;
     text_snippet := "ROS 2 is a set of software libraries and tools.";
     relevance_score := 9 # 10 |}.

(** A cache with one entry, written at time 0 with a ttl of one second. *)
Definition example_cache : SimpleCache.t string :=
  SimpleCache.set (fun x => x) 0 (SimpleCache.init Omitted) "q" "v" Omitted
                  (Passed (Some 1%Z)).

End Examples.
Import Examples.

(** ** Further sample inputs *)

Module Samples.
Import Models RAGService.

(** The one document of the end-to-end scenario and its citation. *)
Definition ros_doc : Doc := Examples.doc "doc1" (Some "/docs/ros2").

Definition ros_citation : Citation :=
  {| document_id := "doc1"; title := "ROS 2 overview"; url := "/docs/ros2";
     text_snippet := "ROS 2 is a set of software libraries and tools.";
     relevance_score := 9 # 10 |}.

Definition ros_agent : AgentResponse :=
  {| a_answer := Some "ROS 2 is a robotics middleware."; a_metadata := None |}.

(** The response to the first request on the fresh process. *)
Definition first_response : QueryResponse :=
  {| answer := "ROS 2 is a robotics middleware.";
     citations := [ros_citation];
     query_id := Examples.uuid 0;
     timestamp := Examples.utcnow 0 +:+ "Z";
     metadata := Some [] |}.

(** The process after that request, and the entry it left in the cache. *)
Definition world_after_first : World :=
  snd (Examples.run (Some Examples.embed_ok) [ros_doc]).

Definition first_entry : SimpleCache.CacheEntry Payload :=
  {| SimpleCache.value := model_dump first_response;
     SimpleCache.expiry := (Examples.clock 1 + inject_Z 7200)%Q |}.

(** The response to the same request made again. *)
Definition second_response : QueryResponse :=
  {| answer := "ROS 2 is a robotics middleware.";
     citations := [ros_citation];
     query_id := Examples.uuid 1;
     timestamp := Examples.utcnow 1 +:+ "Z";
     metadata := Some [] |}.

Definition the_key : string :=
  SimpleCache._generate_key Examples.hash "What is ROS 2?" (Passed (Some "")).

(** A store that accepts every document. *)
Definition store_ok (document_id content title url : string)
           (embedding : Embedding) (metadata : option pydict) : result bool :=
  Ok true.

(** A request whose query is blank. *)
Definition blank_request : QueryRequest :=
  {| query := "   "; selected_text := Some ""; session_id := None;
     rq_metadata := None |}.

(** A failed query of one second followed by a successful one of two. *)
Definition mixed_calls : list ResponseQualityMetrics.EndCall :=
  [ {| ResponseQualityMetrics.ec_start := 0;
       ResponseQualityMetrics.ec_end := 1;
       ResponseQualityMetrics.ec_success := false;
       ResponseQualityMetrics.ec_response := None |};
    {| ResponseQualityMetrics.ec_start := 1;
       ResponseQualityMetrics.ec_end := 3;
       ResponseQualityMetrics.ec_success := true;
       ResponseQualityMetrics.ec_response := Some first_response |} ].

End Samples.

(** * Properties *)

(** ** Clock comparisons *)

Lemma Qgtb_true_iff (a b : Q) : Qgtb a b = true <-> (b < a)%Q.
Proof.
  unfold Qgtb. rewrite negb_true_iff, <- not_true_iff_false, Qle_bool_iff.
  split; [apply Qnot_le_lt | apply Qlt_not_le].
Qed.

Lemma Qgtb_false_iff (a b : Q) : Qgtb a b = false <-> (a <= b)%Q.
Proof. unfold Qgtb. rewrite negb_false_iff. apply Qle_bool_iff. Qed.

Lemma Qltb_true_iff (a b : Q) : Qltb a b = true <-> (a < b)%Q.
Proof. unfold Qltb. apply (Qgtb_true_iff b a). Qed.

Lemma Qltb_false_iff (a b : Q) : Qltb a b = false <-> (b <= a)%Q.
Proof. unfold Qltb. apply (Qgtb_false_iff b a). Qed.

Lemma inject_Z_nonneg (z : Z) : (0 <= z)%Z -> (0 <= inject_Z z)%Q.
Proof. intros H. unfold Qle. simpl. lia. Qed.

(** ** The cache *)

Section CacheFacts.

Variable md5_hexdigest : string -> string.
Variable V : Type.

Abbreviation key := (SimpleCache._generate_key md5_hexdigest).
Abbreviation get := (SimpleCache.get md5_hexdigest).
Abbreviation set := (SimpleCache.set md5_hexdigest).

Lemma key_default (q : string) (s : arg (option string)) :
  key q (Passed (or_default (Some "") s)) = key q s.
Proof. destruct s; reflexivity. Qed.

(** What [get] does, by cases on the entry under the fingerprint. *)
Lemma get_missing (now : Q) (c : SimpleCache.t V) q s :
  SimpleCache.cache c !! key q s = None -> get now c q s = (None, c).
Proof.
  intros H. unfold SimpleCache.get. rewrite key_default, H. reflexivity.
Qed.

Lemma get_live (now : Q) (c : SimpleCache.t V) q s e :
  SimpleCache.cache c !! key q s = Some e ->
  (now <= SimpleCache.expiry e)%Q ->
  get now c q s = (Some (SimpleCache.value e), c).
Proof.
  intros H Hle. unfold SimpleCache.get. rewrite key_default, H.
  apply Qgtb_false_iff in Hle. rewrite Hle. reflexivity.
Qed.

Lemma get_expired (now : Q) (c : SimpleCache.t V) q s e :
  SimpleCache.cache c !! key q s = Some e ->
  (SimpleCache.expiry e < now)%Q ->
  get now c q s
  = (None, {| SimpleCache.cache := delete (key q s) (SimpleCache.cache c);
              SimpleCache.default_ttl := SimpleCache.default_ttl c |}).
Proof.
  intros H Hlt. unfold SimpleCache.get. rewrite key_default, H.
  apply Qgtb_true_iff in Hlt. rewrite Hlt. reflexivity.
Qed.

Lemma set_lookup (t : Q) (c : SimpleCache.t V) q v s ttl :
  SimpleCache.cache (set t c q v s (Passed (Some ttl))) !! key q s
  = Some {| SimpleCache.value := v;
            SimpleCache.expiry := (t + inject_Z ttl)%Q |}.
Proof.
  unfold SimpleCache.set. simpl. rewrite key_default. apply lookup_insert_eq.
Qed.

Lemma get_set_before_expiry (t t' : Q) (c : SimpleCache.t V) q v s ttl :
  (t' <= t + inject_Z ttl)%Q ->
  get t' (set t c q v s (Passed (Some ttl))) q s
  = (Some v, set t c q v s (Passed (Some ttl))).
Proof.
  intros Hle.
  apply (get_live t' _ q s _ (set_lookup t c q v s ttl)). exact Hle.
Qed.

(** C4.  A [get] for the pair a [set] has just written, made at the same
    clock reading or at any reading up to the expiry time [t + ttl], returns
    the payload written and leaves the cache as it is.  A [get] that finds
    an entry whose expiry lies strictly in the past deletes the entry and
    reports [None].  An entry is visible to [get] exactly when the current
    time is at most its expiry. *)
Theorem get_after_set_and_lazy_expiry (q : string) (s : arg (option string)) :
  (forall (c : SimpleCache.t V) (v : V) (ttl : Z) (t : Q),
      (0 < ttl)%Z ->
      get t (set t c q v s (Passed (Some ttl))) q s
      = (Some v, set t c q v s (Passed (Some ttl))))
  /\ (forall (c : SimpleCache.t V) (v : V) (ttl : Z) (t t' : Q),
      (0 < ttl)%Z -> (t' <= t + inject_Z ttl)%Q ->
      get t' (set t c q v s (Passed (Some ttl))) q s
      = (Some v, set t c q v s (Passed (Some ttl))))
  /\ (forall (c : SimpleCache.t V) (e : SimpleCache.CacheEntry V) (now : Q),
      SimpleCache.cache c !! key q s = Some e ->
      (SimpleCache.expiry e < now)%Q ->
      fst (get now c q s) = None
      /\ SimpleCache.cache (snd (get now c q s))
         = delete (key q s) (SimpleCache.cache c)
      /\ SimpleCache.cache (snd (get now c q s)) !! key q s = None)
  /\ (forall (c : SimpleCache.t V) (e : SimpleCache.CacheEntry V) (now : Q),
      SimpleCache.cache c !! key q s = Some e ->
      (fst (get now c q s) = Some (SimpleCache.value e)
       <-> (now <= SimpleCache.expiry e)%Q)
      /\ (fst (get now c q s) = None <-> (SimpleCache.expiry e < now)%Q)).
Proof.
  split; [| split; [| split]].
  - intros c v ttl t Httl. apply get_set_before_expiry.
    pose proof (inject_Z_nonneg ttl ltac:(lia)). lra.
  - intros c v ttl t t' _ Hle. apply get_set_before_expiry. exact Hle.
  - intros c e now He Hlt. rewrite (get_expired now c q s e He Hlt). simpl.
    split; [reflexivity | split; [reflexivity | apply lookup_delete_eq]].
  - intros c e now He.
    destruct (Qlt_le_dec (SimpleCache.expiry e) now) as [Hlt | Hle].
    + rewrite (get_expired now c q s e He Hlt). simpl. split; split.
      * discriminate.
      * intros Hle. exfalso. lra.
      * intros _. exact Hlt.
      * reflexivity.
    + rewrite (get_live now c q s e He Hle). simpl. split; split.
      * intros _. exact Hle.
      * reflexivity.
      * discriminate.
      * intros Hlt. exfalso. lra.
Qed.

(** C10.  The pairs [("a::b", "c")] and [("a", "b::c")] differ and have the
    same fingerprint, as do any two pairs whose joined texts agree; a [set]
    under the first pair replaces the entry of the second and a [get] under
    the second returns what was written under the first. *)
Theorem key_not_injective :
  ("a::b", Some "c") <> ("a", Some "b::c")
  /\ key "a::b" (Passed (Some "c")) = key "a" (Passed (Some "b::c"))
  /\ (forall (c : SimpleCache.t V) (v1 v2 : V) (t1 t2 : Q) (ttl1 ttl2 : Z),
      SimpleCache.cache
        (set t2 (set t1 c "a" v1 (Passed (Some "b::c")) (Passed (Some ttl1)))
             "a::b" v2 (Passed (Some "c")) (Passed (Some ttl2)))
        !! key "a" (Passed (Some "b::c"))
      = Some {| SimpleCache.value := v2;
                SimpleCache.expiry := (t2 + inject_Z ttl2)%Q |})
  /\ (forall (c : SimpleCache.t V) (v : V) (t t' : Q) (ttl : Z),
      (t' <= t + inject_Z ttl)%Q ->
      fst (get t' (set t c "a::b" v (Passed (Some "c")) (Passed (Some ttl)))
               "a" (Passed (Some "b::c")))
      = Some v).
Proof.
  split; [discriminate | split; [reflexivity | split]].
  - intros c v1 v2 t1 t2 ttl1 ttl2.
    apply (set_lookup t2 _ "a::b" v2 (Passed (Some "c")) ttl2).
  - intros c v t t' ttl Hle.
    change (get t' ?c "a" (Passed (Some "b::c")))
      with (get t' c "a::b" (Passed (Some "c"))).
    rewrite get_set_before_expiry by exact Hle. reflexivity.
Qed.

End CacheFacts.

Lemma get_after_set_and_lazy_expiry_witness :
  SimpleCache.get (fun x => x) 0 example_cache "q" Omitted
  = (Some "v", example_cache)
  /\ SimpleCache.get (fun x => x) 1 example_cache "q" Omitted
     = (Some "v", example_cache)
  /\ fst (SimpleCache.get (fun x => x) 5 example_cache "q" Omitted) = None
  /\ (fst (SimpleCache.get (fun x => x) 1 example_cache "q" Omitted) = Some "v"
      <-> (1 <= 0 + inject_Z 1)%Q).
Proof.
  pose proof (get_after_set_and_lazy_expiry (fun x => x) string "q" Omitted)
    as (Hsame & Hbefore & Hexpired & Hvisible).
  split; [| split; [| split]].
  - apply (Hsame (SimpleCache.init Omitted) "v" 1%Z 0%Q). lia.
  - apply (Hbefore (SimpleCache.init Omitted) "v" 1%Z 0%Q 1%Q); [lia |].
    unfold Qle. simpl. lia.
  - apply (Hexpired example_cache
             {| SimpleCache.value := "v";
                SimpleCache.expiry := (0 + inject_Z 1)%Q |} 5%Q).
    + reflexivity.
    + unfold Qlt. simpl. lia.
  - apply (Hvisible example_cache
             {| SimpleCache.value := "v";
                SimpleCache.expiry := (0 + inject_Z 1)%Q |} 1%Q).
    reflexivity.
Defined.

Lemma key_not_injective_witness :
  fst (SimpleCache.get (fun x => x) 1
         (SimpleCache.set (fun x => x) 0 (SimpleCache.init Omitted) "a::b" "v"
                          (Passed (Some "c")) (Passed (Some 1%Z)))
         "a" (Passed (Some "b::c")))
  = Some "v".
Proof.
  apply (proj2 (proj2 (proj2 (key_not_injective (fun x => x) string)))).
  unfold Qle. simpl. lia.
Defined.

(** ** The rate limiter *)

Section RateLimiterFacts.
Import RateLimiter.

Variable api_key : string.

Lemma filter_keeps_all {A : Type} (f : A -> bool) (l : list A) :
  (forall x, In x l -> f x = true) -> List.filter f l = l.
Proof.
  induction l as [| a l IH]; intros H; simpl; [reflexivity |].
  rewrite (H a (or_introl eq_refl)). f_equal. apply IH.
  intros x Hx. apply H. right. exact Hx.
Qed.

Lemma filter_drops_all {A : Type} (f : A -> bool) (l : list A) :
  (forall x, In x l -> f x = false) -> List.filter f l = [].
Proof.
  induction l as [| a l IH]; intros H; simpl; [reflexivity |].
  rewrite (H a (or_introl eq_refl)). apply IH.
  intros x Hx. apply H. right. exact Hx.
Qed.

Lemma requests_of_insert (n : Z) (m : gmap string (list Q)) (l : list Q) :
  requests_of {| requests_per_minute := n; requests := <[api_key := l]> m |}
              api_key = l.
Proof. unfold requests_of. simpl. rewrite lookup_insert_eq. reflexivity. Qed.

Lemma requests_of_insert_ne (n : Z) (m : gmap string (list Q)) (l : list Q)
      (other : string) :
  api_key <> other ->
  requests_of {| requests_per_minute := n; requests := <[api_key := l]> m |}
              other
  = default [] (m !! other).
Proof.
  intros Hne. unfold requests_of. simpl. rewrite lookup_insert_ne by exact Hne.
  reflexivity.
Qed.

(** One call, in terms of the timestamps that survive the pruning. *)
Lemma is_allowed_spec (now : Q) (self : t) :
  let kept := List.filter (fun timestamp => Qltb (now - timestamp) 60)
                          (requests_of self api_key) in
  (Z.of_nat (length kept) < requests_per_minute self)%Z
  /\ fst (is_allowed now self api_key) = true
  /\ requests_of (snd (is_allowed now self api_key)) api_key
     = (kept ++ [now])%list
  /\ requests_per_minute (snd (is_allowed now self api_key))
     = requests_per_minute self
  \/
  (requests_per_minute self <= Z.of_nat (length kept))%Z
  /\ fst (is_allowed now self api_key) = false
  /\ requests_of (snd (is_allowed now self api_key)) api_key = kept
  /\ requests_per_minute (snd (is_allowed now self api_key))
     = requests_per_minute self.
Proof.
  intros kept. unfold is_allowed. fold kept. cbn zeta.
  rewrite requests_of_insert. simpl requests_per_minute.
  destruct (Z.ltb_spec (Z.of_nat (length kept)) (requests_per_minute self))
    as [Hlt | Hge].
  - left. simpl. rewrite requests_of_insert. auto.
  - right. simpl. rewrite requests_of_insert. auto.
Qed.

(** A call for one key leaves the timestamps of every other key alone. *)
Lemma is_allowed_other_key (now : Q) (self : t) (other : string) :
  api_key <> other ->
  requests_of (snd (is_allowed now self api_key)) other
  = requests_of self other.
Proof.
  intros Hne. unfold is_allowed. cbn zeta.
  rewrite requests_of_insert. simpl requests_per_minute.
  destruct (Z.ltb_spec
              (Z.of_nat (length (List.filter
                                   (fun timestamp => Qltb (now - timestamp) 60)
                                   (requests_of self api_key))))
              (requests_per_minute self)); simpl;
    unfold requests_of; simpl; rewrite !lookup_insert_ne by exact Hne;
    reflexivity.
Qed.

Lemma calls_cons (self : t) (now : Q) (times : list Q) :
  calls self api_key (now :: times)
  = (fst (is_allowed now self api_key)
       :: fst (calls (snd (is_allowed now self api_key)) api_key times),
     snd (calls (snd (is_allowed now self api_key)) api_key times)).
Proof.
  simpl. destruct (is_allowed now self api_key) as [b s1]. simpl.
  destruct (calls s1 api_key times) as [bs s2]. reflexivity.
Qed.

(** While the recorded timestamps and the calls lie in one window and the
    limit is not reached, every call is allowed and recorded. *)
Lemma calls_under_limit (times : list Q) :
  forall (self : t) (recorded : list Q),
    requests_of self api_key = recorded ->
    (Z.of_nat (length recorded + length times) <= requests_per_minute self)%Z ->
    (forall a b, In a (recorded ++ times)%list -> In b (recorded ++ times)%list ->
                 (b - a < 60)%Q) ->
    fst (calls self api_key times) = repeat true (length times)
    /\ requests_of (snd (calls self api_key times)) api_key
       = (recorded ++ times)%list
    /\ requests_per_minute (snd (calls self api_key times))
       = requests_per_minute self.
Proof.
  induction times as [| now times IH]; intros self recorded Hrec Hlen Hwin.
  - simpl. rewrite app_nil_r. auto.
  - rewrite calls_cons. simpl fst. simpl snd.
    assert (Hkept : List.filter (fun timestamp => Qltb (now - timestamp) 60)
                                (requests_of self api_key) = recorded).
    { rewrite Hrec. apply filter_keeps_all. intros x Hx.
      apply Qltb_true_iff. apply Hwin; apply in_or_app.
      - left. exact Hx.
      - right. left. reflexivity. }
    pose proof (is_allowed_spec now self) as Hspec. cbn zeta in Hspec.
    rewrite Hkept in Hspec.
    destruct Hspec as [(_ & Hb & Hreq & Hlim) | (Hfull & _)].
    + destruct (IH (snd (is_allowed now self api_key))
                   (recorded ++ [now])%list Hreq) as (Hbs & Hreq' & Hlim').
      * rewrite Hlim, length_app. simpl in *. lia.
      * intros a b Ha Hb'. rewrite <- app_assoc in Ha, Hb'.
        apply Hwin; assumption.
      * rewrite Hb, Hbs, Hreq', Hlim', <- app_assoc, Hlim. auto.
    + exfalso. simpl in Hlen. lia.
Qed.

End RateLimiterFacts.

Lemma In_take {A : Type} (x : A) (i : nat) (l : list A) :
  In x (take i l) -> In x l.
Proof.
  rewrite <- !list_elem_of_In. apply (subseteq_take i l).
Qed.

(** C5.  On a limiter with limit [N] and no timestamps recorded for the
    key, [N] calls that lie with the next call in one window of less than
    60 seconds are all allowed, and after each the recorded timestamps are
    those of the calls made so far; the next call in the window is denied
    and leaves the recorded timestamps as they are; once every recorded
    timestamp is at least 60 seconds old, a call is allowed again (for a
    limit of at least one), since the pruning has emptied the window and
    only the new timestamp remains.  A call for another key leaves the
    timestamps of this key as they are. *)
Theorem sliding_window_limit (N : nat) (api_key : string)
        (self : RateLimiter.t) (times : list Q) (t_next : Q) :
  RateLimiter.requests_per_minute self = Z.of_nat N ->
  RateLimiter.requests_of self api_key = [] ->
  length times = N ->
  (forall a b, In a (times ++ [t_next])%list -> In b (times ++ [t_next])%list ->
               (b - a < 60)%Q) ->
  let after := snd (RateLimiter.calls self api_key times) in
  let denied := RateLimiter.is_allowed t_next after api_key in
  fst (RateLimiter.calls self api_key times) = repeat true N
  /\ (forall i, (i <= N)%nat ->
        RateLimiter.requests_of
          (snd (RateLimiter.calls self api_key (take i times))) api_key
        = take i times)
  /\ fst denied = false
  /\ RateLimiter.requests_of (snd denied) api_key = times
  /\ RateLimiter.requests_of after api_key = times
  /\ (forall t_later : Q,
        (0 < N)%nat ->
        (forall a, In a times -> (60 <= t_later - a)%Q) ->
        fst (RateLimiter.is_allowed t_later (snd denied) api_key) = true
        /\ RateLimiter.requests_of
             (snd (RateLimiter.is_allowed t_later (snd denied) api_key)) api_key
           = [t_later])
  /\ (forall (other : string) (now : Q) (s : RateLimiter.t),
        other <> api_key ->
        RateLimiter.requests_of (snd (RateLimiter.is_allowed now s other)) api_key
        = RateLimiter.requests_of s api_key).
Proof.
  intros Hlim Hempty Hlen Hwin after denied.
  assert (Hwin' : forall a b, In a times -> In b times -> (b - a < 60)%Q).
  { intros a b Ha Hb. apply Hwin; apply in_or_app; left; assumption. }
  destruct (calls_under_limit api_key times self [] Hempty) as (Hbs & Hreq & Hl).
  { simpl. lia. }
  { exact Hwin'. }
  simpl in Hreq. fold after in Hreq, Hl.
  assert (Hkept : List.filter (fun timestamp => Qltb (t_next - timestamp) 60)
                              (RateLimiter.requests_of after api_key) = times).
  { rewrite Hreq. apply filter_keeps_all. intros x Hx. apply Qltb_true_iff.
    apply Hwin; apply in_or_app; [left; exact Hx | right; left; reflexivity]. }
  pose proof (is_allowed_spec api_key t_next after) as Hspec.
  cbn zeta in Hspec. rewrite Hkept in Hspec. fold denied in Hspec.
  destruct Hspec as [(Hlt & _) | (_ & Hb & Hrec & Hl')]; [lia |].
  split; [rewrite Hbs, Hlen; reflexivity |].
  split.
  { intros i Hi.
    destruct (calls_under_limit api_key (take i times) self [] Hempty)
      as (_ & Hreq_i & _).
    - simpl. rewrite length_take. lia.
    - intros a b Ha Hb'. apply Hwin'; eapply In_take; eassumption.
    - exact Hreq_i. }
  split; [exact Hb |]. split; [exact Hrec |]. split; [exact Hreq |].
  split; [| intros other now s Hne; apply is_allowed_other_key; exact Hne].
  intros t_later HN Hold.
  assert (Hnone : List.filter (fun timestamp => Qltb (t_later - timestamp) 60)
                              (RateLimiter.requests_of (snd denied) api_key)
                  = []).
  { rewrite Hrec. apply filter_drops_all. intros x Hx. apply Qltb_false_iff.
    apply Hold. exact Hx. }
  pose proof (is_allowed_spec api_key t_later (snd denied)) as Hspec.
  cbn zeta in Hspec. rewrite Hnone in Hspec.
  destruct Hspec as [(_ & Hok & Hrec' & _) | (Hfull & _)].
  - split; [exact Hok | exact Hrec'].
  - simpl in Hfull. lia.
Qed.

Lemma sliding_window_limit_witness :
  fst (RateLimiter.calls (RateLimiter.init 2) "k" [0%Q; 10%Q]) = [true; true]
  /\ fst (RateLimiter.is_allowed
            20 (snd (RateLimiter.calls (RateLimiter.init 2) "k" [0%Q; 10%Q])) "k")
     = false
  /\ fst (RateLimiter.is_allowed
            70 (snd (RateLimiter.is_allowed
                       20 (snd (RateLimiter.calls (RateLimiter.init 2) "k"
                                                  [0%Q; 10%Q])) "k")) "k")
     = true.
Proof.
  assert (Hwin : forall a b : Q,
             In a ([0%Q; 10%Q] ++ [20%Q])%list ->
             In b ([0%Q; 10%Q] ++ [20%Q])%list -> (b - a < 60)%Q).
  { intros a b Ha Hb. simpl in Ha, Hb.
    destruct Ha as [<- | [<- | [<- | []]]];
      destruct Hb as [<- | [<- | [<- | []]]]; reflexivity. }
  pose proof (sliding_window_limit 2 "k" (RateLimiter.init 2) [0%Q; 10%Q] 20%Q
                eq_refl eq_refl eq_refl Hwin) as H.
  cbn zeta in H. destruct H as (Hall & _ & Hdenied & _ & _ & Hlater & _).
  split; [exact Hall |]. split; [exact Hdenied |].
  apply (Hlater 70%Q).
  - lia.
  - intros a Ha. simpl in Ha.
    destruct Ha as [<- | [<- | []]]; unfold Qle; simpl; lia.
Defined.

(** ** The metrics tracker *)

Section MetricsFacts.
Import Models ResponseQualityMetrics.

Lemma guarded_avg_ok (a : Q) (n : Z) :
  guarded_avg a n = Ok (if (0 <? n)%Z then (a / inject_Z n)%Q else 0%Q).
Proof.
  unfold guarded_avg, truediv. destruct (Z.ltb_spec 0 n) as [Hpos | Hle].
  - assert (Hne : Qeq_bool (inject_Z n) 0 = false).
    { apply not_true_iff_false. rewrite Qeq_bool_iff. unfold Qeq. simpl. lia. }
    rewrite Hne. reflexivity.
  - reflexivity.
Qed.

(** [log_query_end] always returns, with these counters and averages. *)
Lemma log_query_end_ok (end_time : Q) (self : t) (start_time : Q)
      (success : bool) (response : option QueryResponse) :
  exists self',
    log_query_end end_time self start_time success response = Ok self'
    /\ total_queries (metrics self') = (total_queries (metrics self) + 1)%Z
    /\ successful_queries (metrics self')
       = (if success then successful_queries (metrics self) + 1
          else successful_queries (metrics self))%Z
    /\ failed_queries (metrics self')
       = (if success then failed_queries (metrics self)
          else failed_queries (metrics self) + 1)%Z
    /\ total_response_time (metrics self')
       = (total_response_time (metrics self) + (end_time - start_time))%Q
    /\ total_citations (metrics self')
       = (if success
          then match response with
               | Some r => total_citations (metrics self)
                           + Z.of_nat (length (citations r))
               | None => total_citations (metrics self)
               end
          else total_citations (metrics self))%Z
    /\ avg_response_time (metrics self')
       = (if (0 <? successful_queries (metrics self'))%Z
          then (total_response_time (metrics self')
                / inject_Z (successful_queries (metrics self')))%Q
          else 0%Q)
    /\ avg_citations_per_response (metrics self')
       = (if (0 <? successful_queries (metrics self'))%Z
          then (inject_Z (total_citations (metrics self'))
                / inject_Z (successful_queries (metrics self')))%Q
          else 0%Q).
Proof.
  unfold log_query_end. rewrite !guarded_avg_ok.
  eexists. split; [reflexivity |]. simpl. repeat split.
Qed.

Lemma fold_left_Qplus_snoc (l : list Q) (a x : Q) :
  fold_left Qplus (l ++ [x])%list a = (fold_left Qplus l a + x)%Q.
Proof. rewrite fold_left_app. reflexivity. Qed.

Lemma fold_left_Zadd_snoc (l : list Z) (a x : Z) :
  fold_left Z.add (l ++ [x])%list a = (fold_left Z.add l a + x)%Z.
Proof. rewrite fold_left_app. reflexivity. Qed.

Lemma log_all_app (l1 l2 : list EndCall) :
  forall self : t,
    log_all self (l1 ++ l2)%list
    = match log_all self l1 with
      | Ok self' => log_all self' l2
      | Raise e => Raise e
      end.
Proof.
  induction l1 as [| c l1 IH]; intros self; simpl; [reflexivity |].
  destruct (log_query_end (ec_end c) self (ec_start c) (ec_success c)
                          (ec_response c)) as [s' | e]; [apply IH | reflexivity].
Qed.

(** The counters after a run of successful calls. *)
Lemma log_all_successes (calls : list (Q * Q * QueryResponse)) :
  forall self : t,
  exists self',
    log_all self (map success_call calls) = Ok self'
    /\ successful_queries (metrics self')
       = (successful_queries (metrics self) + Z.of_nat (length calls))%Z
    /\ total_response_time (metrics self')
       = fold_left Qplus (map duration calls) (total_response_time (metrics self))
    /\ total_citations (metrics self')
       = fold_left Z.add (map citation_count calls)
                   (total_citations (metrics self))
    /\ (calls <> [] ->
        avg_response_time (metrics self')
        = (if (0 <? successful_queries (metrics self'))%Z
           then (total_response_time (metrics self')
                 / inject_Z (successful_queries (metrics self')))%Q
           else 0%Q)
        /\ avg_citations_per_response (metrics self')
           = (if (0 <? successful_queries (metrics self'))%Z
              then (inject_Z (total_citations (metrics self'))
                    / inject_Z (successful_queries (metrics self')))%Q
              else 0%Q)).
Proof.
  induction calls as [| c calls IH] using rev_ind; intros self.
  - exists self. simpl. split; [reflexivity |]. split; [lia |].
    split; [reflexivity |]. split; [reflexivity |]. intros Hnil. contradiction.
  - destruct (IH self) as (s1 & Hrun & Hsucc & Htime & Hcit & _).
    destruct (log_query_end_ok (snd (fst c)) s1 (fst (fst c)) true (Some (snd c)))
      as (s2 & Hlog & _ & Hsucc2 & _ & Htime2 & Hcit2 & Havg & Havgc).
    exists s2. split.
    { rewrite map_app, log_all_app, Hrun. simpl. rewrite Hlog. reflexivity. }
    rewrite !map_app. cbn [map].
    rewrite fold_left_Qplus_snoc, fold_left_Zadd_snoc, length_app.
    cbn [length]. rewrite Hsucc2, Htime2, Hcit2, Hsucc, Htime, Hcit.
    split; [lia |]. split; [reflexivity |]. split; [reflexivity |].
    intros _. rewrite Havg, Havgc, Hsucc2, Htime2, Hcit2, Hsucc, Htime, Hcit.
    split; reflexivity.
Qed.

End MetricsFacts.

(** C6.  From the initial tracker, after [k >= 1] successful calls of
    [log_query_end] (and no failed one) with durations [d1..dk] and
    responses carrying [c1..ck] citations, [avg_response_time] is
    [(d1+...+dk)/k] and [avg_citations_per_response] is [(c1+...+ck)/k];
    in every state the tracker can reach in which [successful_queries] is 0
    both averages are 0; and [log_query_end] returns in every state, so no
    division by zero occurs. *)
Theorem averages_after_successes
        (c : Q * Q * Models.QueryResponse)
        (calls : list (Q * Q * Models.QueryResponse)) :
  let all := c :: calls in
  let k := Z.of_nat (length all) in
  (exists self',
      ResponseQualityMetrics.log_all
        ResponseQualityMetrics.init
        (map ResponseQualityMetrics.success_call all) = Ok self'
      /\ ResponseQualityMetrics.successful_queries
           (ResponseQualityMetrics.metrics self') = k
      /\ ResponseQualityMetrics.avg_response_time
           (ResponseQualityMetrics.metrics self')
         = (ResponseQualityMetrics.sumQ
              (map ResponseQualityMetrics.duration all) / inject_Z k)%Q
      /\ ResponseQualityMetrics.avg_citations_per_response
           (ResponseQualityMetrics.metrics self')
         = (inject_Z (ResponseQualityMetrics.sumZ
                        (map ResponseQualityMetrics.citation_count all))
            / inject_Z k)%Q)
  /\ (forall self : ResponseQualityMetrics.t,
        ResponseQualityMetrics.reachable self ->
        ResponseQualityMetrics.successful_queries
          (ResponseQualityMetrics.metrics self) = 0%Z ->
        ResponseQualityMetrics.avg_response_time
          (ResponseQualityMetrics.metrics self) = 0%Q
        /\ ResponseQualityMetrics.avg_citations_per_response
             (ResponseQualityMetrics.metrics self) = 0%Q)
  /\ (forall (self : ResponseQualityMetrics.t) (end_time start_time : Q)
             (success : bool) (response : option Models.QueryResponse),
        exists self',
          ResponseQualityMetrics.log_query_end
            end_time self start_time success response = Ok self').
Proof.
  intros all k. split; [| split].
  - destruct (log_all_successes all ResponseQualityMetrics.init)
      as (s & Hrun & Hsucc & Htime & Hcit & Havg).
    destruct Havg as (Hat & Hac); [discriminate |].
    exists s. split; [exact Hrun |].
    assert (Hk : ResponseQualityMetrics.successful_queries
                   (ResponseQualityMetrics.metrics s) = k).
    { rewrite Hsucc. reflexivity. }
    assert (Hpos : (0 <? k)%Z = true).
    { apply Z.ltb_lt. unfold k, all. simpl length. lia. }
    split; [exact Hk |].
    rewrite Hat, Hac, Hk, Hpos, Htime, Hcit. split; reflexivity.
  - intros self Hreach. induction Hreach as [| s _ _ | s s' e st b r _ _ Hlog].
    + intros _. split; reflexivity.
    + intros _. split; reflexivity.
    + intros Hzero.
      destruct (log_query_end_ok e s st b r)
        as (s'' & Hlog' & _ & _ & _ & _ & _ & Hat & Hac).
      rewrite Hlog in Hlog'. injection Hlog' as <-.
      rewrite Hat, Hac, Hzero. split; reflexivity.
  - intros self end_time start_time success response.
    destruct (log_query_end_ok end_time self start_time success response)
      as (s & Hlog & _).
    exists s. exact Hlog.
Qed.

(** ** The data models *)

Section ModelFacts.
Import Models.

Lemma Citation_new_ok (i t u s : string) (r : Q) (c : Citation) :
  Citation_new i t u s r = Ok c ->
  Citation_ok c = true
  /\ c = {| document_id := i; title := t; url := u; text_snippet := s;
            relevance_score := r |}.
Proof.
  unfold Citation_new, Citation_ok.
  destruct (url_pattern u) eqn:Hu; simpl; [| discriminate].
  destruct (len_between 10 1000 s) eqn:Hs; simpl; [| discriminate].
  destruct (Qle_bool 0 r) eqn:H0; simpl; [| discriminate].
  destruct (Qle_bool r 1) eqn:H1; simpl; [| discriminate].
  intros [= <-]. simpl. rewrite Hu, Hs, H0, H1. auto.
Qed.

Lemma Citation_new_fails (i t u s : string) (r : Q) :
  url_pattern u = false ->
  Citation_new i t u s r = Raise (ValidationError "Citation" "url").
Proof. intros H. unfold Citation_new. rewrite H. reflexivity. Qed.

Lemma Citations_of_dicts_ok (ds : list CitationDict) :
  forall cs, Citations_of_dicts ds = Ok cs -> forallb Citation_ok cs = true.
Proof.
  induction ds as [| d ds IH]; simpl; intros cs H.
  - injection H as <-. reflexivity.
  - unfold Citation_of_dict in H.
    destruct (Citation_new _ _ _ _ _) as [c | e] eqn:Hc; [| discriminate].
    destruct (Citations_of_dicts ds) as [cs' | e]; [| discriminate].
    injection H as <-. simpl.
    rewrite (proj1 (Citation_new_ok _ _ _ _ _ _ Hc)). apply IH. reflexivity.
Qed.

Lemma QueryResponse_new_ok (a : string) (cs : list Citation) (i t : string)
      (m : arg (option pydict)) (r : QueryResponse) :
  QueryResponse_new a cs i t m = Ok r ->
  r = {| answer := a; citations := cs; query_id := i; timestamp := t;
         metadata := or_default None m |}
  /\ (forallb Citation_ok cs = true -> QueryResponse_ok r = true).
Proof.
  unfold QueryResponse_new, QueryResponse_ok.
  destruct (len_between 1 10000 a) eqn:Ha; simpl; [| discriminate].
  destruct (length cs <=? 20)%nat eqn:Hn; simpl; [| discriminate].
  intros [= <-]. simpl. split; [reflexivity |]. intros Hcs.
  rewrite Ha, Hn, Hcs. reflexivity.
Qed.

Lemma QueryResponse_of_payload_ok (p : Payload) (r : QueryResponse) :
  QueryResponse_of_payload p = Ok r -> QueryResponse_ok r = true.
Proof.
  unfold QueryResponse_of_payload.
  destruct (Citations_of_dicts (p_citations p)) as [cs | e] eqn:Hcs.
  - intros H. destruct (QueryResponse_new_ok _ _ _ _ _ _ H) as (-> & Hok).
    apply Hok. apply (Citations_of_dicts_ok _ _ Hcs).
  - destruct e; discriminate.
Qed.

(** The two fixed answers pass the constructor whatever the identifier, the
    timestamp and the metadata are. *)
Lemma QueryResponse_new_fixed (a : string) (i t : string)
      (m : arg (option pydict)) :
  len_between 1 10000 a = true ->
  QueryResponse_new a [] i t m
  = Ok {| answer := a; citations := []; query_id := i; timestamp := t;
          metadata := or_default None m |}.
Proof. intros Ha. unfold QueryResponse_new. rewrite Ha. reflexivity. Qed.

End ModelFacts.

(** ** The orchestrator *)

Section ServiceFacts.
Import Models RAGService.

Variable md5_hexdigest : string -> string.
Variable time_time : nat -> Q.
Variable uuid4 : nat -> string.
Variable utcnow_isoformat : nat -> string.
Variable cohere_client : option (string -> result Embedding).
Variable openai_client : option (string -> result Embedding).
Variable search_documents : list Q -> Z -> result (list Doc).
Variable generate_response :
  string -> list Doc -> option string -> result AgentResponse.

Abbreviation run_query :=
  (query_documentation md5_hexdigest time_time uuid4 utcnow_isoformat
                       cohere_client openai_client search_documents
                       generate_response).
Abbreviation run_body :=
  (query_body md5_hexdigest time_time uuid4 utcnow_isoformat
              cohere_client openai_client search_documents generate_response).
Abbreviation run_handler := (query_handler time_time uuid4 utcnow_isoformat).
Abbreviation run_embedding := (generate_embedding cohere_client openai_client).
Abbreviation run_cache_get := (cache_get md5_hexdigest time_time).

Lemma raw_citations_of_ok (docs : list Doc) :
  forall cs, raw_citations_of docs = Ok cs -> forallb Citation_ok cs = true.
Proof.
  induction docs as [| d docs IH]; simpl; intros cs H.
  - injection H as <-. reflexivity.
  - unfold citation_of_doc in H.
    destruct (Citation_new _ _ _ _ _) as [c | e] eqn:Hc; [| discriminate].
    destruct (raw_citations_of docs) as [cs' | e]; [| discriminate].
    injection H as <-. simpl.
    rewrite (proj1 (Citation_new_ok _ _ _ _ _ _ Hc)). apply IH. reflexivity.
Qed.

Lemma validate_citation_links_ok (cs : list Citation) :
  forallb Citation_ok cs = true ->
  forallb Citation_ok (validate_citation_links cs) = true.
Proof.
  unfold validate_citation_links. induction cs as [| c cs IH]; simpl; [auto |].
  intros H. apply andb_prop in H as (Hc & Hcs).
  destruct (_ && _); simpl; [rewrite Hc |]; apply IH; exact Hcs.
Qed.

(** [log_query_end] reads the clock once, returns, and changes the tracker
    only. *)
Lemma log_query_end_run (start_time : Q) (success : bool)
      (response : option QueryResponse) (w : World) :
  exists q,
    log_query_end time_time start_time success response w
    = (Ok tt, set_quality q (tick_clock w))
    /\ ResponseQualityMetrics.log_query_end
         (time_time (w_clock w)) (w_quality w) start_time success response
       = Ok q.
Proof.
  destruct (log_query_end_ok (time_time (w_clock w)) (w_quality w)
                             start_time success response) as (q & Hq & _).
  exists q. split; [| exact Hq].
  unfold log_query_end, bind, read_clock. simpl. rewrite Hq. reflexivity.
Qed.

(** [cache.get] returns, and changes the cache and the clock only. *)
Lemma cache_get_run (q : string) (sel : option string) (w : World) :
  exists w',
    run_cache_get q sel w
    = (Ok (fst (SimpleCache.get md5_hexdigest (time_time (w_clock w))
                                (w_cache w) q (Passed sel))), w')
    /\ w_cache w' = snd (SimpleCache.get md5_hexdigest (time_time (w_clock w))
                                         (w_cache w) q (Passed sel))
    /\ w_quality w' = w_quality w
    /\ w_calls w' = w_calls w
    /\ w_uuid w' = w_uuid w
    /\ w_utcnow w' = w_utcnow w.
Proof.
  unfold cache_get.
  destruct (SimpleCache.get md5_hexdigest (time_time (w_clock w)) (w_cache w)
                            q (Passed sel)) as [r c].
  destruct (SimpleCache.cache (w_cache w) !! _); eexists;
    (split; [reflexivity |]); simpl; auto.
Qed.

(** [generate_embedding] returns, whatever its clients do, and changes the
    record of calls only, adding calls to the embedding clients. *)
Lemma generate_embedding_run (text : string) (w : World) :
  exists v w' cs,
    run_embedding text w = (Ok v, w')
    /\ w_cache w' = w_cache w
    /\ w_quality w' = w_quality w
    /\ w_clock w' = w_clock w
    /\ w_uuid w' = w_uuid w
    /\ w_utcnow w' = w_utcnow w
    /\ w_calls w' = (w_calls w ++ cs)%list
    /\ Forall (fun c => c = CallCohere text \/ c = CallOpenAI text) cs.
Proof.
  unfold generate_embedding.
  destruct cohere_client as [embed |]; [destruct (embed text) as [v | e] |];
    try (destruct openai_client as [create |];
         [destruct (create text) as [v' | e'] |]);
    simpl; eexists _, _, _;
    (split; [reflexivity |]); do 5 (split; [reflexivity |]); simpl;
    (split;
     [ first [ reflexivity
             | rewrite <- app_assoc; reflexivity
             | symmetry; apply app_nil_r ]
     | simpl;
       repeat first [ apply List.Forall_nil
                    | apply List.Forall_cons;
                      [first [left; reflexivity | right; reflexivity] |] ] ]).
Qed.

(** The response of the [except] branch for the exception [e], built in the
    world [w]. *)
Lemma query_handler_run (start_time : Q) (e : exn) (w : World) :
  let error_response :=
    {| answer := error_answer; citations := [];
       query_id := uuid4 (w_uuid w);
       timestamp := utcnow_isoformat (w_utcnow w) +:+ "Z";
       metadata := Some [("error", str_exn e)] |} in
  exists q,
    run_handler start_time e w
    = (Ok error_response,
       set_quality q (tick_clock (tick_utcnow (tick_uuid w))))
    /\ ResponseQualityMetrics.log_query_end
         (time_time (w_clock w)) (w_quality w) start_time false
         (Some error_response)
       = Ok q.
Proof.
  intros error_response.
  destruct (log_query_end_run start_time false (Some error_response)
                              (tick_utcnow (tick_uuid w))) as (q & Hrun & Hq).
  exists q. split; [| exact Hq].
  unfold query_handler, bind, new_uuid, now_stamp, lift, ret. cbv beta iota.
  rewrite QueryResponse_new_fixed by reflexivity. cbv beta iota.
  change (or_default None (Passed (Some [("error", str_exn e)])))
    with (Some [("error", str_exn e)]).
  cbn [w_utcnow w_uuid tick_uuid tick_utcnow].
  fold error_response. rewrite Hrun. reflexivity.
Qed.

(** Every way out of the [try] body: a returned response satisfies the
    constraints of [QueryResponse]; when the body raises, the tracker is
    still as it was. *)
Lemma query_body_post (query_request : QueryRequest) (start_time : Q)
      (w : World) :
  match run_body query_request start_time w with
  | (Ok response, _) => QueryResponse_ok response = true
  | (Raise _, w') => w_quality w' = w_quality w
  end.
Proof.
  unfold query_body.
  set (q := query query_request). set (sel := selected_text query_request).
  unfold bind at 1.
  destruct (cache_get_run q sel w) as (w1 & Hget & _ & Hq1 & _).
  rewrite Hget. clear Hget.
  destruct (fst (SimpleCache.get _ _ _ _ _)) as [cached |].
  - unfold bind, new_uuid, update_cached, now_stamp, lift, ret. simpl.
    destruct (QueryResponse_of_payload _) as [response | e] eqn:Hresp.
    + match goal with
      | |- context [log_query_end ?t ?s ?b ?r ?w0] =>
          destruct (log_query_end_run s b r w0) as (q' & Hrun & _);
          rewrite Hrun
      end.
      apply (QueryResponse_of_payload_ok _ _ Hresp).
    + simpl. exact Hq1.
  - unfold bind at 1.
    match goal with
    | |- context [generate_embedding _ _ ?text w1] =>
        destruct (generate_embedding_run text w1)
          as (v & w2 & cs & Hgen & _ & Hq2 & _);
        rewrite Hgen; clear Hgen
    end.
    assert (Hq : w_quality w2 = w_quality w) by congruence.
    destruct v as [[| x v] |]; try exact Hq.
    unfold bind at 1.
    destruct (search_documents (x :: v) 5) as [[| doc docs] | e];
      [| | exact Hq].
    + unfold bind, new_uuid, now_stamp, lift, ret. cbv beta iota.
      rewrite QueryResponse_new_fixed by reflexivity. cbv beta iota.
      match goal with
      | |- context [log_query_end ?t ?s ?b ?r ?w0] =>
          destruct (log_query_end_run s b r w0) as (q' & Hrun & _);
          rewrite Hrun
      end.
      reflexivity.
    + unfold bind at 1.
      destruct (generate_response q (doc :: docs) sel) as [agent | e];
        [| exact Hq].
      unfold bind at 1. unfold lift at 1.
      destruct (raw_citations_of (doc :: docs)) as [raw | e] eqn:Hraw;
        [| exact Hq].
      unfold bind at 1. unfold new_uuid at 1.
      unfold bind at 1. unfold lift at 1.
      destruct (getitem_answer agent) as [ans | e]; [| exact Hq].
      unfold bind at 1. unfold now_stamp at 1.
      unfold bind at 1. unfold lift at 1.
      destruct (QueryResponse_new _ _ _ _ _) as [response | e] eqn:Hresp;
        [| exact Hq].
      destruct (QueryResponse_new_ok _ _ _ _ _ _ Hresp) as (_ & Hok).
      assert (Hvalid : QueryResponse_ok response = true).
      { apply Hok. apply validate_citation_links_ok.
        apply (raw_citations_of_ok _ _ Hraw). }
      cbv zeta. unfold bind at 1.
      destruct (negb (String.eqb (answer response) "")
                && (0 <? len (strip (answer response)))%Z).
      * unfold cache_set, bind, read_clock, ret.
        match goal with
        | |- context [log_query_end ?t ?s ?b ?r ?w0] =>
            destruct (log_query_end_run s b r w0) as (q' & Hrun & _);
            rewrite Hrun
        end.
        exact Hvalid.
      * unfold bind, ret.
        match goal with
        | |- context [log_query_end ?t ?s ?b ?r ?w0] =>
            destruct (log_query_end_run s b r w0) as (q' & Hrun & _);
            rewrite Hrun
        end.
        exact Hvalid.
Qed.

Lemma get_writes_nothing {V : Type} (now : Q) (c : SimpleCache.t V)
      (q : string) (s : arg (option string)) (k : string)
      (e : SimpleCache.CacheEntry V) :
  SimpleCache.cache (snd (SimpleCache.get md5_hexdigest now c q s)) !! k = Some e ->
  SimpleCache.cache c !! k = Some e.
Proof.
  unfold SimpleCache.get.
  destruct (SimpleCache.cache c !! _) as [item |]; [| auto].
  destruct (Qgtb now (SimpleCache.expiry item)); simpl; [| auto].
  intros H. apply lookup_delete_Some in H. tauto.
Qed.

(** What one call of [log_query_end] for a failed query does to the
    counters. *)
Lemma log_failed_counters (end_time start_time : Q)
      (response : option QueryResponse) (s s' : ResponseQualityMetrics.t) :
  ResponseQualityMetrics.log_query_end end_time s start_time false response
  = Ok s' ->
  ResponseQualityMetrics.total_queries (ResponseQualityMetrics.metrics s')
  = (ResponseQualityMetrics.total_queries (ResponseQualityMetrics.metrics s) + 1)%Z
  /\ ResponseQualityMetrics.failed_queries (ResponseQualityMetrics.metrics s')
     = (ResponseQualityMetrics.failed_queries (ResponseQualityMetrics.metrics s) + 1)%Z
  /\ ResponseQualityMetrics.successful_queries (ResponseQualityMetrics.metrics s')
     = ResponseQualityMetrics.successful_queries (ResponseQualityMetrics.metrics s)
  /\ ResponseQualityMetrics.total_citations (ResponseQualityMetrics.metrics s')
     = ResponseQualityMetrics.total_citations (ResponseQualityMetrics.metrics s).
Proof.
  intros H.
  destruct (log_query_end_ok end_time s start_time false response)
    as (s'' & H' & Ht & Hs & Hf & _ & Hc & _).
  rewrite H in H'. injection H' as <-. auto.
Qed.

(** C1.  For every request, every world and every behaviour of the
    embedding clients, the search and the generation (raising included),
    [query_documentation] returns a response that satisfies the constraints
    of [QueryResponse] and raises nothing.  When its [try] body raises [e],
    the response is the apology with no citations, a newly drawn identifier
    and timestamp and the note [{"error": str(e)}] as metadata, and the
    tracker has counted one more query, as failed. *)
Theorem query_documentation_never_raises (query_request : QueryRequest)
        (w : World) :
  exists response w',
    run_query query_request w = (Ok response, w')
    /\ QueryResponse_ok response = true
    /\ (forall (e : exn) (w1 : World),
          run_body query_request (time_time (w_clock w)) (tick_clock w)
          = (Raise e, w1) ->
          response
          = {| answer := error_answer; citations := [];
               query_id := uuid4 (w_uuid w1);
               timestamp := utcnow_isoformat (w_utcnow w1) +:+ "Z";
               metadata := Some [("error", str_exn e)] |}
          /\ w_uuid w' = S (w_uuid w1)
          /\ w_utcnow w' = S (w_utcnow w1)
          /\ ResponseQualityMetrics.total_queries
               (ResponseQualityMetrics.metrics (w_quality w'))
             = (ResponseQualityMetrics.total_queries
                  (ResponseQualityMetrics.metrics (w_quality w)) + 1)%Z
          /\ ResponseQualityMetrics.failed_queries
               (ResponseQualityMetrics.metrics (w_quality w'))
             = (ResponseQualityMetrics.failed_queries
                  (ResponseQualityMetrics.metrics (w_quality w)) + 1)%Z
          /\ ResponseQualityMetrics.successful_queries
               (ResponseQualityMetrics.metrics (w_quality w'))
             = ResponseQualityMetrics.successful_queries
                 (ResponseQualityMetrics.metrics (w_quality w))).
Proof.
  unfold query_documentation, bind, log_query_start, read_clock, try_except.
  cbv beta iota.
  pose proof (query_body_post query_request (time_time (w_clock w))
                              (tick_clock w)) as Hpost.
  destruct (run_body query_request (time_time (w_clock w)) (tick_clock w))
    as [[response | e] w1].
  - exists response, w1. split; [reflexivity |]. split; [exact Hpost |].
    intros e w1' H. discriminate.
  - destruct (query_handler_run (time_time (w_clock w)) e w1) as (q & Hh & Hq).
    rewrite Hh. eexists _, _. split; [reflexivity |]. split; [reflexivity |].
    intros e' w1' H. injection H as <- <-.
    split; [reflexivity |]. split; [reflexivity |]. split; [reflexivity |].
    cbn [w_quality set_quality]. rewrite Hpost in Hq.
    destruct (log_failed_counters _ _ _ _ _ Hq) as (Ht & Hf & Hs & _).
    cbn [w_quality tick_clock] in Ht, Hf, Hs. auto.
Qed.

(** The world in which the body goes on after a cache miss and the
    embedding: only the lazy eviction of [cache.get] and the calls to the
    embedding clients have happened. *)
Lemma body_reaches_embedding (query_request : QueryRequest) (w : World) :
  fst (run_cache_get (query query_request) (selected_text query_request) w)
  = Ok None ->
  exists w1 v w2 cs,
    run_cache_get (query query_request) (selected_text query_request) w
    = (Ok None, w1)
    /\ run_embedding (query_text_of query_request) w1 = (Ok v, w2)
    /\ w_cache w2
       = snd (SimpleCache.get md5_hexdigest (time_time (w_clock w)) (w_cache w)
                              (query query_request)
                              (Passed (selected_text query_request)))
    /\ w_quality w2 = w_quality w
    /\ w_uuid w2 = w_uuid w
    /\ w_utcnow w2 = w_utcnow w
    /\ w_calls w2 = (w_calls w ++ cs)%list
    /\ Forall (fun c => c = CallCohere (query_text_of query_request)
                       \/ c = CallOpenAI (query_text_of query_request)) cs.
Proof.
  intros Hmiss.
  destruct (cache_get_run (query query_request) (selected_text query_request) w)
    as (w1 & Hget & Hc1 & Hq1 & Hcalls1 & Hu1 & Hn1).
  rewrite Hget in Hmiss. simpl in Hmiss. injection Hmiss as Hmiss.
  rewrite Hmiss in Hget.
  destruct (generate_embedding_run (query_text_of query_request) w1)
    as (v & w2 & cs & Hgen & Hc2 & Hq2 & _ & Hu2 & Hn2 & Hcalls2 & Hcs).
  exists w1, v, w2, cs. split; [exact Hget |]. split; [exact Hgen |].
  repeat split; first [congruence | exact Hcs].
Qed.

(** The body raises when the embedding is [None] or empty. *)
Lemma body_embedding_nothing (query_request : QueryRequest) (start_time : Q)
      (w : World) (v : Embedding) :
  fst (run_cache_get (query query_request) (selected_text query_request) w)
  = Ok None ->
  (forall w1, fst (run_embedding (query_text_of query_request) w1) = Ok v) ->
  truthy_embedding v = false ->
  exists w2 cs,
    run_body query_request start_time w
    = (Raise (Exception "Failed to generate query embedding"), w2)
    /\ w_cache w2
       = snd (SimpleCache.get md5_hexdigest (time_time (w_clock w)) (w_cache w)
                              (query query_request)
                              (Passed (selected_text query_request)))
    /\ w_quality w2 = w_quality w
    /\ w_uuid w2 = w_uuid w
    /\ w_utcnow w2 = w_utcnow w
    /\ w_calls w2 = (w_calls w ++ cs)%list
    /\ Forall (fun c => c = CallCohere (query_text_of query_request)
                       \/ c = CallOpenAI (query_text_of query_request)) cs.
Proof.
  intros Hmiss Hemb Hfalsy.
  destruct (body_reaches_embedding query_request w Hmiss)
    as (w1 & v' & w2 & cs & Hget & Hgen & Hrest).
  specialize (Hemb w1). rewrite Hgen in Hemb. simpl in Hemb.
  injection Hemb as ->.
  exists w2, cs. split; [| exact Hrest].
  unfold query_body. unfold bind at 1. rewrite Hget.
  unfold bind at 1. rewrite Hgen.
  destruct v as [[| x v] |]; [reflexivity | discriminate | reflexivity].
Qed.

(** The body returns the fixed answer when the search finds nothing. *)
Lemma body_no_documents (query_request : QueryRequest) (start_time : Q)
      (w : World) (x : Q) (v : list Q) :
  fst (run_cache_get (query query_request) (selected_text query_request) w)
  = Ok None ->
  (forall w1, fst (run_embedding (query_text_of query_request) w1)
              = Ok (Some (x :: v))) ->
  search_documents (x :: v) 5 = Ok [] ->
  let response :=
    {| answer := no_docs_answer; citations := [];
       query_id := uuid4 (w_uuid w);
       timestamp := utcnow_isoformat (w_utcnow w) +:+ "Z";
       metadata := None |} in
  exists w' q,
    run_body query_request start_time w = (Ok response, w')
    /\ w_cache w'
       = snd (SimpleCache.get md5_hexdigest (time_time (w_clock w)) (w_cache w)
                              (query query_request)
                              (Passed (selected_text query_request)))
    /\ w_quality w' = q
    /\ (exists t_end,
          ResponseQualityMetrics.log_query_end
            t_end (w_quality w) start_time false (Some response) = Ok q)
    /\ w_uuid w' = S (w_uuid w)
    /\ w_utcnow w' = S (w_utcnow w)
    /\ (exists cs,
          w_calls w' = (w_calls w ++ cs ++ [CallSearch (x :: v) 5])%list
          /\ Forall (fun c => c = CallCohere (query_text_of query_request)
                             \/ c = CallOpenAI (query_text_of query_request))
                    cs).
Proof.
  intros Hmiss Hemb Hsearch response.
  destruct (body_reaches_embedding query_request w Hmiss)
    as (w1 & v' & w2 & cs & Hget & Hgen & Hc & Hq & Hu & Hn & Hcalls & Hcs).
  specialize (Hemb w1). rewrite Hgen in Hemb. simpl in Hemb.
  injection Hemb as ->.
  set (w3 := tick_utcnow (tick_uuid (record_call (CallSearch (x :: v) 5) w2))).
  assert (Hresp : {| answer := no_docs_answer; citations := [];
                     query_id := uuid4 (w_uuid w2);
                     timestamp := utcnow_isoformat (w_utcnow w2) +:+ "Z";
                     metadata := None |} = response).
  { unfold response. rewrite Hu, Hn. reflexivity. }
  destruct (log_query_end_run start_time false (Some response) w3)
    as (q & Hrun & Hlog).
  exists (set_quality q (tick_clock w3)), q. split.
  { unfold query_body. unfold bind at 1. rewrite Hget.
    unfold bind at 1. rewrite Hgen.
    unfold bind at 1. rewrite Hsearch.
    unfold bind, new_uuid, now_stamp, lift, ret. cbv beta iota.
    rewrite QueryResponse_new_fixed by reflexivity. cbv beta iota.
    cbn [w_uuid w_utcnow record_call tick_uuid or_default].
    rewrite Hresp. fold w3. rewrite Hrun. reflexivity. }
  cbn [w_cache w_quality w_uuid w_utcnow w_calls set_quality tick_clock
       tick_utcnow tick_uuid record_call w3].
  split; [exact Hc |]. split; [reflexivity |]. split.
  { eexists. cbn [w_quality w3 tick_utcnow tick_uuid record_call] in Hlog.
    rewrite Hq in Hlog. exact Hlog. }
  split; [congruence |]. split; [congruence |].
  exists cs. split; [| exact Hcs]. rewrite Hcalls, <- app_assoc. reflexivity.
Qed.

(** After a cache miss and a non-empty embedding the search is called with
    that embedding, however the request ends. *)
Lemma body_calls_search (query_request : QueryRequest) (start_time : Q)
      (w : World) (x : Q) (v : list Q) :
  fst (run_cache_get (query query_request) (selected_text query_request) w)
  = Ok None ->
  (forall w1, fst (run_embedding (query_text_of query_request) w1)
              = Ok (Some (x :: v))) ->
  In (CallSearch (x :: v) 5)
     (w_calls (snd (run_body query_request start_time w))).
Proof.
  intros Hmiss Hemb.
  destruct (body_reaches_embedding query_request w Hmiss)
    as (w1 & v' & w2 & cs & Hget & Hgen & _).
  specialize (Hemb w1). rewrite Hgen in Hemb. simpl in Hemb.
  injection Hemb as ->.
  assert (Hin : In (CallSearch (x :: v) 5)
                   (w_calls w2 ++ [CallSearch (x :: v) 5])%list).
  { apply in_or_app. right. left. reflexivity. }
  assert (Hin4 : forall c, In (CallSearch (x :: v) 5)
                              ((w_calls w2 ++ [CallSearch (x :: v) 5]) ++ [c])%list).
  { intros c. apply in_or_app. left. exact Hin. }
  unfold query_body. unfold bind at 1. rewrite Hget.
  unfold bind at 1. rewrite Hgen.
  unfold bind at 1.
  destruct (search_documents (x :: v) 5) as [[| doc docs] | e];
    [| | exact Hin].
  - unfold bind, new_uuid, now_stamp, lift, ret. cbv beta iota.
    rewrite QueryResponse_new_fixed by reflexivity. cbv beta iota.
    match goal with
    | |- context [log_query_end ?t ?s ?b ?r ?w0] =>
        destruct (log_query_end_run s b r w0) as (q' & Hrun & _);
        rewrite Hrun
    end.
    exact Hin.
  - unfold bind at 1.
    destruct (generate_response _ _ _) as [agent | e]; [| apply Hin4].
    unfold bind at 1. unfold lift at 1.
    destruct (raw_citations_of (doc :: docs)) as [raw | e]; [| apply Hin4].
    unfold bind at 1. unfold new_uuid at 1.
    unfold bind at 1. unfold lift at 1.
    destruct (getitem_answer agent) as [ans | e]; [| apply Hin4].
    unfold bind at 1. unfold now_stamp at 1.
    unfold bind at 1. unfold lift at 1.
    destruct (QueryResponse_new _ _ _ _ _) as [response | e]; [| apply Hin4].
    cbv zeta. unfold bind at 1.
    destruct (negb (String.eqb (answer response) "")
              && (0 <? len (strip (answer response)))%Z).
    + unfold cache_set, bind, read_clock, ret.
      match goal with
      | |- context [log_query_end ?t ?s ?b ?r ?w0] =>
          destruct (log_query_end_run s b r w0) as (q' & Hrun & _);
          rewrite Hrun
      end.
      apply Hin4.
    + unfold bind, ret.
      match goal with
      | |- context [log_query_end ?t ?s ?b ?r ?w0] =>
          destruct (log_query_end_run s b r w0) as (q' & Hrun & _);
          rewrite Hrun
      end.
      apply Hin4.
Qed.

(** C8.  When the cache misses, the embedding is a non-empty vector and the
    search returns no document, [query_documentation] returns the fixed
    answer with no citations and a newly drawn identifier and timestamp;
    the tracker counts one more query, as failed; the cache is the one
    [cache.get] left, so no entry was written; after the search no
    collaborator is called. *)
Theorem no_documents_response (query_request : QueryRequest) (w : World)
        (x : Q) (v : list Q) :
  fst (run_cache_get (query query_request) (selected_text query_request)
                     (tick_clock w)) = Ok None ->
  (forall w1, fst (run_embedding (query_text_of query_request) w1)
              = Ok (Some (x :: v))) ->
  search_documents (x :: v) 5 = Ok [] ->
  exists w',
    run_query query_request w
    = (Ok {| answer := no_docs_answer; citations := [];
             query_id := uuid4 (w_uuid w);
             timestamp := utcnow_isoformat (w_utcnow w) +:+ "Z";
             metadata := None |}, w')
    /\ w_uuid w' = S (w_uuid w)
    /\ w_utcnow w' = S (w_utcnow w)
    /\ ResponseQualityMetrics.total_queries
         (ResponseQualityMetrics.metrics (w_quality w'))
       = (ResponseQualityMetrics.total_queries
            (ResponseQualityMetrics.metrics (w_quality w)) + 1)%Z
    /\ ResponseQualityMetrics.failed_queries
         (ResponseQualityMetrics.metrics (w_quality w'))
       = (ResponseQualityMetrics.failed_queries
            (ResponseQualityMetrics.metrics (w_quality w)) + 1)%Z
    /\ ResponseQualityMetrics.successful_queries
         (ResponseQualityMetrics.metrics (w_quality w'))
       = ResponseQualityMetrics.successful_queries
           (ResponseQualityMetrics.metrics (w_quality w))
    /\ w_cache w'
       = snd (SimpleCache.get md5_hexdigest (time_time (S (w_clock w)))
                              (w_cache w) (query query_request)
                              (Passed (selected_text query_request)))
    /\ (forall k e, SimpleCache.cache (w_cache w') !! k = Some e ->
                    SimpleCache.cache (w_cache w) !! k = Some e)
    /\ (exists cs,
          w_calls w' = (w_calls w ++ cs ++ [CallSearch (x :: v) 5])%list
          /\ Forall (fun c => c = CallCohere (query_text_of query_request)
                             \/ c = CallOpenAI (query_text_of query_request))
                    cs).
Proof.
  intros Hmiss Hemb Hsearch.
  destruct (body_no_documents query_request (time_time (w_clock w))
                              (tick_clock w) x v Hmiss Hemb Hsearch)
    as (w' & q & Hbody & Hc & Hq & (t_end & Hlog) & Hu & Hn & Hcalls).
  exists w'. split.
  { unfold query_documentation, bind, log_query_start, read_clock, try_except.
    cbv beta iota. rewrite Hbody. reflexivity. }
  destruct (log_failed_counters _ _ _ _ _ Hlog) as (Ht & Hf & Hs & _).
  rewrite Hq. cbn [w_quality tick_clock] in Ht, Hf, Hs.
  split; [exact Hu |]. split; [exact Hn |]. split; [exact Ht |].
  split; [exact Hf |]. split; [exact Hs |]. split; [exact Hc |].
  split; [| exact Hcalls].
  intros k e Hk. rewrite Hc in Hk. cbn [w_cache tick_clock] in Hk.
  apply (get_writes_nothing _ _ _ _ _ _ Hk).
Qed.

(** C2, on the code.  On a cache miss, when [generate_embedding] returns
    nothing ([None] or an empty vector), the request ends in the error
    state: no search and no generation is called, the response is the
    apology with no citations, the tracker counts one more query, as
    failed, and nothing is raised or cached; so far the code does what the
    claim says.  When the embedding clients fail it does not:
    [generate_embedding] catches the exception of each client, and when
    every client it has raises it returns the mock embedding of 1024 zeros,
    a non-empty vector, so the guard of [query_documentation] lets the
    request through and the search is called with the zero vector. *)
Theorem embedding_nothing_is_fatal (query_request : QueryRequest) (w : World) :
  (forall v : Embedding,
      fst (run_cache_get (query query_request) (selected_text query_request)
                         (tick_clock w)) = Ok None ->
      (forall w1, fst (run_embedding (query_text_of query_request) w1) = Ok v) ->
      truthy_embedding v = false ->
      exists w',
        run_query query_request w
        = (Ok {| answer := error_answer; citations := [];
                 query_id := uuid4 (w_uuid w);
                 timestamp := utcnow_isoformat (w_utcnow w) +:+ "Z";
                 metadata :=
                   Some [("error", "Failed to generate query embedding")] |},
           w')
        /\ ResponseQualityMetrics.total_queries
             (ResponseQualityMetrics.metrics (w_quality w'))
           = (ResponseQualityMetrics.total_queries
                (ResponseQualityMetrics.metrics (w_quality w)) + 1)%Z
        /\ ResponseQualityMetrics.failed_queries
             (ResponseQualityMetrics.metrics (w_quality w'))
           = (ResponseQualityMetrics.failed_queries
                (ResponseQualityMetrics.metrics (w_quality w)) + 1)%Z
        /\ ResponseQualityMetrics.successful_queries
             (ResponseQualityMetrics.metrics (w_quality w'))
           = ResponseQualityMetrics.successful_queries
               (ResponseQualityMetrics.metrics (w_quality w))
        /\ (forall k e, SimpleCache.cache (w_cache w') !! k = Some e ->
                        SimpleCache.cache (w_cache w) !! k = Some e)
        /\ (exists cs,
              w_calls w' = (w_calls w ++ cs)%list
              /\ Forall (fun c => c = CallCohere (query_text_of query_request)
                                 \/ c = CallOpenAI (query_text_of query_request))
                        cs))
  /\ ((forall embed, cohere_client = Some embed ->
                     exists e, embed (query_text_of query_request) = Raise e) ->
      (forall create, openai_client = Some create ->
                      exists e, create (query_text_of query_request) = Raise e) ->
      (forall w1,
          fst (run_embedding (query_text_of query_request) w1)
          = Ok mock_embedding)
      /\ (fst (run_cache_get (query query_request) (selected_text query_request)
                             (tick_clock w)) = Ok None ->
          In (CallSearch (repeat 0%Q 1024) 5)
             (w_calls (snd (run_query query_request w)))))
  /\ truthy_embedding mock_embedding = true.
Proof.
  split; [| split].
  - intros v Hmiss Hemb Hfalsy.
    destruct (body_embedding_nothing query_request (time_time (w_clock w))
                                     (tick_clock w) v Hmiss Hemb Hfalsy)
      as (w2 & cs & Hbody & Hc & Hq & Hu & Hn & Hcalls & Hcs).
    destruct (query_handler_run
                (time_time (w_clock w))
                (Exception "Failed to generate query embedding") w2)
      as (q & Hh & Hlog).
    eexists. split.
    { unfold query_documentation, bind, log_query_start, read_clock, try_except.
      cbv beta iota. rewrite Hbody, Hh.
      cbn [w_uuid w_utcnow tick_clock] in Hu, Hn. rewrite Hu, Hn. reflexivity. }
    destruct (log_failed_counters _ _ _ _ _ Hlog) as (Ht & Hf & Hs & _).
    rewrite Hq in Ht, Hf, Hs. cbn [w_quality tick_clock] in Ht, Hf, Hs.
    cbn [w_quality w_cache w_calls set_quality tick_clock tick_utcnow tick_uuid].
    split; [exact Ht |]. split; [exact Hf |]. split; [exact Hs |]. split.
    + intros k e Hk. rewrite Hc in Hk. cbn [w_cache tick_clock] in Hk.
      apply (get_writes_nothing _ _ _ _ _ _ Hk).
    + exists cs. split; [exact Hcalls | exact Hcs].
  - intros Hcohere Hopenai.
    assert (Hmock : forall w1,
               fst (run_embedding (query_text_of query_request) w1)
               = Ok mock_embedding).
    { intros w1. unfold generate_embedding.
      destruct cohere_client as [embed |].
      - destruct (Hcohere embed eq_refl) as (e & ->).
        destruct openai_client as [create |]; [| reflexivity].
        destruct (Hopenai create eq_refl) as (e' & ->). reflexivity.
      - destruct openai_client as [create |]; [| reflexivity].
        destruct (Hopenai create eq_refl) as (e' & ->). reflexivity. }
    split; [exact Hmock |]. intros Hmiss.
    pose proof (body_calls_search query_request (time_time (w_clock w))
                                  (tick_clock w) 0%Q (repeat 0%Q 1023)
                                  Hmiss Hmock) as Hin.
    unfold query_documentation, bind, log_query_start, read_clock, try_except.
    cbv beta iota.
    destruct (run_body query_request (time_time (w_clock w)) (tick_clock w))
      as [[response | e] w1]; [exact Hin |].
    destruct (query_handler_run (time_time (w_clock w)) e w1) as (q & Hh & _).
    rewrite Hh. exact Hin.
  - reflexivity.
Qed.

End ServiceFacts.

(** ** Citation links *)

Section CitationLinkFacts.
Import Models RAGService.

(** [s[:n]] has at most [n] characters. *)
Lemma slice_to_length (n : nat) (s : string) :
  (String.length (slice_to n s) <= n)%nat.
Proof.
  unfold slice_to. revert s. induction n as [| n IH]; intros s.
  - destruct s; simpl; lia.
  - destruct s as [| c s]; simpl; [lia |]. specialize (IH s). lia.
Qed.

Lemma strip_prefix_Some (p s rest : string) :
  strip_prefix p s = Some rest -> s = p +:+ rest.
Proof.
  revert s. induction p as [| a p IH]; intros s H; simpl in *.
  - injection H as ->. reflexivity.
  - destruct s as [| b s]; [discriminate |].
    destruct (Ascii.eqb_spec a b) as [-> | Hne]; [| discriminate].
    rewrite (IH s H). reflexivity.
Qed.

(** A url that matches the pattern of [Citation.url] is not empty and
    starts with [http] or [/]. *)
Lemma url_pattern_link (u : string) :
  url_pattern u = true ->
  truthy_str (Some u) && (startswith u "http" || startswith u "/") = true.
Proof.
  unfold url_pattern.
  destruct (strip_prefix "http://" u) as [rest |] eqn:H1.
  { intros _. rewrite (strip_prefix_Some _ _ _ H1). reflexivity. }
  destruct (strip_prefix "https://" u) as [rest |] eqn:H2.
  { intros _. rewrite (strip_prefix_Some _ _ _ H2). reflexivity. }
  destruct (strip_prefix "/" u) as [rest |] eqn:H3; [| discriminate].
  intros _. rewrite (strip_prefix_Some _ _ _ H3). simpl.
  destruct rest; reflexivity.
Qed.

(** [validate_citation_links] keeps exactly the citations with a non-empty
    url that starts with [http] or [/], in their order. *)
Lemma validate_citation_links_In (c : Citation) (cs : list Citation) :
  In c (validate_citation_links cs)
  <-> In c cs
      /\ url c <> ""
      /\ (startswith (url c) "http" = true \/ startswith (url c) "/" = true).
Proof.
  unfold validate_citation_links. rewrite filter_In.
  split; intros (Hin & H); (split; [exact Hin |]).
  - apply andb_prop in H as (Hne & Hst). apply orb_prop in Hst.
    split; [| exact Hst]. intros Heq. rewrite Heq in Hne. discriminate.
  - destruct H as (Hne & Hst). apply andb_true_intro. split.
    + destruct (url c); [contradiction | reflexivity].
    + apply orb_true_intro. exact Hst.
Qed.

(** Every citation that [Citation(...)] accepts passes the link check, so
    the check never drops a citation of a list that could be built. *)
Lemma validate_citation_links_keeps_valid (cs : list Citation) :
  forallb Citation_ok cs = true -> validate_citation_links cs = cs.
Proof.
  intros H. apply filter_keeps_all. intros c Hc.
  rewrite forallb_forall in H. specialize (H c Hc).
  unfold Citation_ok in H.
  apply andb_prop in H as (H & _). apply andb_prop in H as (H & _).
  apply andb_prop in H as (H & _). apply url_pattern_link. exact H.
Qed.

End CitationLinkFacts.

(** ** The fingerprint and the request *)

(** C9.  The fingerprint is the hash of the query, the separator and the
    selected text and of nothing else; leaving [selected_text] out gives the
    fingerprint of the empty string, so [get], [set] and [delete] without it
    address the entry of the empty string; a [QueryRequest] built without
    [selected_text] carries the empty string, and the orchestrator's cache
    lookup for it is the lookup for the empty string. *)
Theorem key_absent_selected_text_is_empty
        (md5_hexdigest : string -> string) (q : string) :
  (forall s : arg (option string),
      SimpleCache._generate_key md5_hexdigest q s
      = md5_hexdigest (q +:+ "::" +:+ fmt (or_default (Some "") s)))
  /\ SimpleCache._generate_key md5_hexdigest q Omitted
     = SimpleCache._generate_key md5_hexdigest q (Passed (Some ""))
  /\ (forall (V : Type) (now : Q) (c : SimpleCache.t V),
      SimpleCache.get md5_hexdigest now c q Omitted
      = SimpleCache.get md5_hexdigest now c q (Passed (Some "")))
  /\ (forall (V : Type) (now : Q) (c : SimpleCache.t V) (v : V)
             (ttl : arg (option Z)),
      SimpleCache.set md5_hexdigest now c q v Omitted ttl
      = SimpleCache.set md5_hexdigest now c q v (Passed (Some "")) ttl)
  /\ (forall (V : Type) (c : SimpleCache.t V),
      SimpleCache.delete md5_hexdigest c q Omitted
      = SimpleCache.delete md5_hexdigest c q (Passed (Some "")))
  /\ (forall (session_id : arg (option string)) (metadata : arg (option pydict))
             (r : Models.QueryRequest),
      Models.QueryRequest_new q Omitted session_id metadata = Ok r ->
      Models.query r = q
      /\ Models.selected_text r = Some ""
      /\ SimpleCache._generate_key md5_hexdigest (Models.query r)
                                  (Passed (Models.selected_text r))
         = SimpleCache._generate_key md5_hexdigest q (Passed (Some ""))
      /\ forall (time_time : nat -> Q) (w : RAGService.World),
          RAGService.cache_get md5_hexdigest time_time (Models.query r)
                               (Models.selected_text r) w
          = RAGService.cache_get md5_hexdigest time_time q (Some "") w).
Proof.
  split; [reflexivity |]. split; [reflexivity |]. split; [reflexivity |].
  split; [reflexivity |]. split; [reflexivity |].
  intros session_id metadata r H. unfold Models.QueryRequest_new in H.
  destruct (Models.QueryRequest_ok _); [| discriminate].
  injection H as <-. simpl. repeat split.
Qed.

Lemma key_absent_selected_text_is_empty_witness :
  Models.selected_text
    {| Models.query := "What is ROS 2?"; Models.selected_text := Some "";
       Models.session_id := None; Models.rq_metadata := None |}
  = Some "".
Proof.
  apply (proj2 (proj2 (proj2 (proj2 (proj2
           (key_absent_selected_text_is_empty hash "What is ROS 2?")))))
           Omitted Omitted).
  reflexivity.
Defined.

(** ** Runs on the sample inputs *)

Section SampleRuns.
Import Models RAGService.

Lemma averages_after_successes_witness :
  (exists self',
      ResponseQualityMetrics.log_all
        ResponseQualityMetrics.init
        (map ResponseQualityMetrics.success_call
             [(0%Q, 1%Q, Samples.first_response);
              (1%Q, 4%Q,
               {| answer := "No citation here."; citations := [];
                  query_id := "uuid-1"; timestamp := "2025-12-15T10:30:01Z";
                  metadata := None |})])
      = Ok self'
      /\ ResponseQualityMetrics.successful_queries
           (ResponseQualityMetrics.metrics self') = 2%Z
      /\ ResponseQualityMetrics.avg_response_time
           (ResponseQualityMetrics.metrics self')
         = (ResponseQualityMetrics.sumQ [(1 - 0)%Q; (4 - 1)%Q] / inject_Z 2)%Q
      /\ ResponseQualityMetrics.avg_citations_per_response
           (ResponseQualityMetrics.metrics self')
         = (inject_Z (ResponseQualityMetrics.sumZ [1%Z; 0%Z]) / inject_Z 2)%Q)
  /\ (exists failed,
        ResponseQualityMetrics.log_query_end
          2%Q ResponseQualityMetrics.init 0%Q false None = Ok failed
        /\ ResponseQualityMetrics.total_queries
             (ResponseQualityMetrics.metrics failed) = 1%Z
        /\ ResponseQualityMetrics.failed_queries
             (ResponseQualityMetrics.metrics failed) = 1%Z
        /\ ResponseQualityMetrics.total_response_time
             (ResponseQualityMetrics.metrics failed) = (0 + (2 - 0))%Q
        /\ ResponseQualityMetrics.avg_response_time
             (ResponseQualityMetrics.metrics failed) = 0%Q
        /\ ResponseQualityMetrics.avg_citations_per_response
             (ResponseQualityMetrics.metrics failed) = 0%Q).
Proof.
  split.
  - destruct (proj1 (averages_after_successes
                       (0%Q, 1%Q, Samples.first_response)
                       [(1%Q, 4%Q,
                         {| answer := "No citation here."; citations := [];
                            query_id := "uuid-1";
                            timestamp := "2025-12-15T10:30:01Z";
                            metadata := None |})]))
      as (self' & Hrun & Hk & Htime & Hcit).
    exists self'. exact (conj Hrun (conj Hk (conj Htime Hcit))).
  - eexists. split; [reflexivity |]. split; [reflexivity |].
    split; [reflexivity |]. split; [reflexivity |].
    apply (proj1 (proj2 (averages_after_successes
                           (0%Q, 1%Q, Samples.first_response) []))).
    + apply (ResponseQualityMetrics.reach_log
               ResponseQualityMetrics.init _ 2%Q 0%Q false None
               ResponseQualityMetrics.reach_init eq_refl).
    + reflexivity.
Defined.

Lemma query_documentation_never_raises_witness :
  exists response w',
    run (Some embed_none) [] = (Ok response, w')
    /\ answer response = error_answer
    /\ citations response = []
    /\ ResponseQualityMetrics.failed_queries
         (ResponseQualityMetrics.metrics (w_quality w')) = 1%Z.
Proof.
  destruct (query_documentation_never_raises
              hash clock uuid utcnow (Some embed_none) None (search [])
              generate request world)
    as (response & w' & Hrun & _ & Hraise).
  destruct (Hraise (Exception "Failed to generate query embedding")
                   (record_call (CallCohere "What is ROS 2?") (tick_clock world))
                   eq_refl)
    as (Hresp & _ & _ & _ & Hfailed & _).
  exists response, w'. split; [exact Hrun |].
  rewrite Hresp. split; [reflexivity |]. split; [reflexivity |]. exact Hfailed.
Defined.

Lemma no_documents_response_witness :
  exists w',
    run (Some embed_ok) []
    = (Ok {| answer := no_docs_answer; citations := []; query_id := "uuid-0";
             timestamp := "2025-12-15T10:30:00Z"; metadata := None |}, w').
Proof.
  destruct (no_documents_response
              hash clock uuid utcnow (Some embed_ok) None (search [])
              generate request world 1%Q [0%Q]
              eq_refl (fun _ => eq_refl) eq_refl)
    as (w' & Hrun & _).
  exists w'. exact Hrun.
Defined.

Lemma embedding_nothing_is_fatal_witness :
  (exists w',
      run (Some embed_none) []
      = (Ok {| answer := error_answer; citations := []; query_id := "uuid-0";
               timestamp := "2025-12-15T10:30:00Z";
               metadata :=
                 Some [("error", "Failed to generate query embedding")] |}, w'))
  /\ fst (generate_embedding (Some embed_down) None "What is ROS 2?" world)
     = Ok mock_embedding
  /\ In (CallSearch (repeat 0%Q 1024) 5)
        (w_calls (snd (run (Some embed_down) []))).
Proof.
  pose proof (embedding_nothing_is_fatal
                hash clock uuid utcnow (Some embed_none) None (search [])
                generate request world) as (Hfatal & _).
  pose proof (embedding_nothing_is_fatal
                hash clock uuid utcnow (Some embed_down) None (search [])
                generate request world) as (_ & Hmock & _).
  split.
  - destruct (Hfatal None eq_refl (fun _ => eq_refl) eq_refl) as (w' & Hrun & _).
    exists w'. exact Hrun.
  - destruct Hmock as (Hgen & Hsearch).
    + intros embed [= <-]. eexists. reflexivity.
    + intros create H. discriminate.
    + split; [apply Hgen | apply Hsearch; reflexivity].
Defined.

(** C2, the failing input.  On a cache miss with an embedding client that
    raises, the request is not ended with the failure response: the search
    is called with the mock embedding.  When the search finds nothing the
    response is the one of the no-results branch; when it returns a
    document the generation is called and the request ends as a successful
    one, with the generated answer and the citation of that document. *)
Lemma embedding_client_failure_is_not_fatal :
  fst (cache_get hash clock (query request) (selected_text request)
                 (tick_clock world)) = Ok None
  /\ embed_down (query_text_of request)
     = Raise (Exception "503 Service Unavailable")
  /\ exists response w',
      run (Some embed_down) [] = (Ok response, w')
      /\ answer response = no_docs_answer
      /\ answer response <> error_answer
      /\ metadata response = None
      /\ w_calls w' = [CallCohere "What is ROS 2?";
                       CallSearch (repeat 0%Q 1024) 5]
      /\ exists response2 w2,
          run (Some embed_down) [Samples.ros_doc] = (Ok response2, w2)
          /\ answer response2 = "ROS 2 is a robotics middleware."
          /\ citations response2 = [Samples.ros_citation]
          /\ ResponseQualityMetrics.successful_queries
               (ResponseQualityMetrics.metrics (w_quality w2)) = 1%Z
          /\ ResponseQualityMetrics.failed_queries
               (ResponseQualityMetrics.metrics (w_quality w2)) = 0%Z
          /\ w_calls w2
             = [CallCohere "What is ROS 2?";
                CallSearch (repeat 0%Q 1024) 5;
                CallGenerate (query request) [Samples.ros_doc]
                             (selected_text request)].
Proof.
  split; [reflexivity |]. split; [reflexivity |].
  eexists _, _. split; [vm_compute; reflexivity |].
  split; [reflexivity |]. split; [discriminate |]. split; [reflexivity |].
  split; [reflexivity |].
  eexists _, _. split; [vm_compute; reflexivity |].
  split; [reflexivity |]. split; [reflexivity |]. split; [reflexivity |].
  split; reflexivity.
Qed.

(** C3, on the code.  The snippet of a citation is cut to at most 500
    characters.  A retrieved document without a [url] (or with the empty
    one), or without a [text_snippet], makes the construction of its
    citation raise: the
    defaults are rejected by the constraints of [Citation], the exception
    reaches the [except] branch of [query_documentation], and the request
    ends with the apology, no citations and a failed query in the tracker.
    The same document with a url and a snippet gives a response with its
    citation. *)
Theorem citation_defaults_escalate :
  (forall d : Doc,
      (String.length (slice_to 500 (dict_get (d_text_snippet d) "")) <= 500)%nat)
  /\ citation_of_doc (doc "doc1" None) = Raise (ValidationError "Citation" "url")
  /\ citation_of_doc (doc "doc1" (Some ""))
     = Raise (ValidationError "Citation" "url")
  /\ citation_of_doc doc_without_snippet
     = Raise (ValidationError "Citation" "text_snippet")
  /\ (exists response w' note,
        run (Some embed_ok) [doc "doc1" None] = (Ok response, w')
        /\ answer response = error_answer
        /\ citations response = []
        /\ metadata response = Some [("error", note)]
        /\ ResponseQualityMetrics.failed_queries
             (ResponseQualityMetrics.metrics (w_quality w')) = 1%Z)
  /\ (exists response w' note,
        run (Some embed_ok) [doc_without_snippet] = (Ok response, w')
        /\ answer response = error_answer
        /\ citations response = []
        /\ metadata response = Some [("error", note)]
        /\ ResponseQualityMetrics.failed_queries
             (ResponseQualityMetrics.metrics (w_quality w')) = 1%Z)
  /\ (exists response w',
        run (Some embed_ok) [doc "doc1" (Some "/docs/ros2")] = (Ok response, w')
        /\ map document_id (citations response) = ["doc1"]).
Proof.
  split; [intros d; apply slice_to_length |].
  split; [reflexivity |]. split; [reflexivity |]. split; [reflexivity |].
  split; [| split].
  - eexists _, _, _. split; [vm_compute; reflexivity |].
    repeat split; reflexivity.
  - eexists _, _, _. split; [vm_compute; reflexivity |].
    repeat split; reflexivity.
  - eexists _, _. split; [vm_compute; reflexivity |]. reflexivity.
Qed.

(** C7, on the code.  [validate_citation_links] drops the citation with url
    [ftp://bad] and keeps those with [/docs/x] and [https://x]; a retrieval
    with the two good documents alone returns both citations; but a
    retrieval that also holds the [ftp://bad] document never reaches the
    link check: the citation of that document cannot be built, and the
    response is the apology with no citation at all. *)
Theorem invalid_url_fails_whole_request :
  validate_citation_links
    [citation "ftp://bad"; citation "/docs/x"; citation "https://x"]
  = [citation "/docs/x"; citation "https://x"]
  /\ (exists response w',
        run (Some embed_ok)
            [doc "doc2" (Some "/docs/x"); doc "doc3" (Some "https://x")]
        = (Ok response, w')
        /\ map url (citations response) = ["/docs/x"; "https://x"])
  /\ (exists response w',
        run (Some embed_ok)
            [doc "doc1" (Some "ftp://bad"); doc "doc2" (Some "/docs/x");
             doc "doc3" (Some "https://x")]
        = (Ok response, w')
        /\ answer response = error_answer
        /\ citations response = []
        /\ ResponseQualityMetrics.failed_queries
             (ResponseQualityMetrics.metrics (w_quality w')) = 1%Z).
Proof.
  split; [reflexivity |]. split.
  - eexists _, _. split; [vm_compute; reflexivity |]. reflexivity.
  - eexists _, _. split; [vm_compute; reflexivity |].
    repeat split; reflexivity.
Qed.

End SampleRuns.

(** * Further properties *)

(** ** The cache: sweep, delete, size *)

Section CacheSweepFacts.

Variable md5_hexdigest : string -> string.
Variable V : Type.

Abbreviation ckey := (SimpleCache._generate_key md5_hexdigest).
Abbreviation cget := (SimpleCache.get md5_hexdigest).
Abbreviation cset := (SimpleCache.set md5_hexdigest).
Abbreviation cdelete := (SimpleCache.delete md5_hexdigest).

Lemma fold_delete_lookup (ks : list string) :
  forall (m : gmap string (SimpleCache.CacheEntry V)) (k : string),
    fold_left (fun m key => delete key m) ks m !! k
    = if decide (k ∈ ks) then None else m !! k.
Proof.
  induction ks as [| a ks IH]; intros m k; simpl.
  - destruct (decide (k ∈ [])) as [Hin | _]; [| reflexivity].
    apply elem_of_nil in Hin. contradiction.
  - rewrite IH. destruct (decide (k ∈ ks)) as [Hin | Hnin].
    + destruct (decide (k ∈ a :: ks)) as [_ | Hn]; [reflexivity |].
      exfalso. apply Hn. right. exact Hin.
    + destruct (decide (a = k)) as [-> | Hne].
      * rewrite lookup_delete_eq.
        destruct (decide (k ∈ k :: ks)) as [_ | Hn]; [reflexivity |].
        exfalso. apply Hn. left.
      * rewrite lookup_delete_ne by exact Hne.
        destruct (decide (k ∈ a :: ks)) as [Hin | _]; [| reflexivity].
        apply elem_of_cons in Hin as [-> | Hin]; contradiction.
Qed.

Lemma expired_key_In (now : Q) (m : gmap string (SimpleCache.CacheEntry V))
      (k : string) :
  k ∈ map fst (List.filter
                 (fun entry => Qgtb now (SimpleCache.expiry (snd entry)))
                 (map_to_list m))
  <-> exists e, m !! k = Some e /\ Qgtb now (SimpleCache.expiry e) = true.
Proof.
  rewrite list_elem_of_In, in_map_iff. split.
  - intros ([k' e] & Hk & Hin). simpl in Hk. subst k'.
    apply filter_In in Hin as (Hin & Hexp). simpl in Hexp.
    apply list_elem_of_In, elem_of_map_to_list in Hin. eauto.
  - intros (e & Hm & Hexp). exists (k, e). split; [reflexivity |].
    apply filter_In. split; [| exact Hexp].
    apply list_elem_of_In, elem_of_map_to_list. exact Hm.
Qed.

(** The entries the sweep leaves. *)
Lemma cleanup_expired_lookup (now : Q) (c : SimpleCache.t V) (k : string) :
  SimpleCache.cache (snd (SimpleCache.cleanup_expired now c)) !! k
  = match SimpleCache.cache c !! k with
    | Some e => if Qgtb now (SimpleCache.expiry e) then None else Some e
    | None => None
    end.
Proof.
  unfold SimpleCache.cleanup_expired. simpl. rewrite fold_delete_lookup.
  destruct (decide (k ∈ _)) as [Hin | Hnin].
  - apply expired_key_In in Hin as (e & -> & ->). reflexivity.
  - destruct (SimpleCache.cache c !! k) as [e |] eqn:Hk; [| reflexivity].
    destruct (Qgtb now (SimpleCache.expiry e)) eqn:Hexp; [| reflexivity].
    exfalso. apply Hnin. apply expired_key_In. eauto.
Qed.

Lemma cleanup_expired_is_filter (now : Q) (c : SimpleCache.t V) :
  SimpleCache.cache (snd (SimpleCache.cleanup_expired now c))
  = filter (fun kv => Qgtb now (SimpleCache.expiry (snd kv)) <> true)
           (SimpleCache.cache c).
Proof.
  apply map_eq. intros k. rewrite cleanup_expired_lookup.
  destruct (SimpleCache.cache c !! k) as [e |] eqn:Hk.
  - destruct (Qgtb now (SimpleCache.expiry e)) eqn:Hexp.
    + symmetry. apply map_lookup_filter_None. right. intros e' He' Hn.
      rewrite Hk in He'. injection He' as <-. simpl in Hn. congruence.
    + symmetry. apply map_lookup_filter_Some. split; [exact Hk |].
      simpl. congruence.
  - symmetry. apply map_lookup_filter_None. left. exact Hk.
Qed.

Lemma size_filter_split (P : string * SimpleCache.CacheEntry V -> Prop)
      `{!forall kv, Decision (P kv)}
      (m : gmap string (SimpleCache.CacheEntry V)) :
  size m = (size (filter P m) + size (filter (fun kv => ~ P kv) m))%nat.
Proof.
  rewrite <- map_size_disj_union by apply map_disjoint_filter_complement.
  rewrite map_filter_union_complement. reflexivity.
Qed.

Lemma cache_record_eq (c c' : SimpleCache.t V) :
  SimpleCache.cache c = SimpleCache.cache c' ->
  SimpleCache.default_ttl c = SimpleCache.default_ttl c' -> c = c'.
Proof. destruct c, c'. simpl. intros -> ->. reflexivity. Qed.

(** X1.  [cleanup_expired] removes exactly the entries whose expiry lies
    strictly before the current time and keeps every other entry as it
    is; the number it returns is the number of entries removed, between 0
    and the size; a [get] made at the time of the sweep or later returns
    what it would have returned without the sweep; a second sweep at the
    same time removes nothing. *)
Theorem cleanup_expired_sweeps (now : Q) (c : SimpleCache.t V) :
  let swept := snd (SimpleCache.cleanup_expired now c) in
  let removed := fst (SimpleCache.cleanup_expired now c) in
  (forall k e,
      SimpleCache.cache swept !! k = Some e
      <-> SimpleCache.cache c !! k = Some e /\ (now <= SimpleCache.expiry e)%Q)
  /\ removed
     = Z.of_nat (size (filter (fun kv => Qgtb now (SimpleCache.expiry (snd kv))
                                         = true)
                              (SimpleCache.cache c)))
  /\ (0 <= removed <= Z.of_nat (SimpleCache.size c))%Z
  /\ Z.of_nat (SimpleCache.size swept)
     = (Z.of_nat (SimpleCache.size c) - removed)%Z
  /\ SimpleCache.default_ttl swept = SimpleCache.default_ttl c
  /\ (forall (t : Q) (q : string) (s : arg (option string)),
        (now <= t)%Q -> fst (cget t swept q s) = fst (cget t c q s))
  /\ SimpleCache.cleanup_expired now swept = (0%Z, swept).
Proof.
  intros swept removed.
  assert (Hlook : forall k,
             SimpleCache.cache swept !! k
             = match SimpleCache.cache c !! k with
               | Some e => if Qgtb now (SimpleCache.expiry e) then None
                           else Some e
               | None => None
               end).
  { intros k. apply cleanup_expired_lookup. }
  assert (Hsize : size (SimpleCache.cache c)
                  = (size (filter (fun kv => Qgtb now (SimpleCache.expiry (snd kv))
                                             = true) (SimpleCache.cache c))
                     + size (SimpleCache.cache swept))%nat).
  { unfold swept. rewrite cleanup_expired_is_filter.
    apply (size_filter_split
             (fun kv => Qgtb now (SimpleCache.expiry (snd kv)) = true)). }
  assert (Hremoved : removed
                     = (Z.of_nat (size (SimpleCache.cache c))
                        - Z.of_nat (size (SimpleCache.cache swept)))%Z).
  { reflexivity. }
  split.
  { intros k e. rewrite Hlook.
    destruct (SimpleCache.cache c !! k) as [e' |]; [| split; [discriminate |]].
    - destruct (Qgtb now (SimpleCache.expiry e')) eqn:Hexp.
      + split; [discriminate |]. intros ([= ->] & Hle).
        apply Qgtb_false_iff in Hle. congruence.
      + split.
        * intros [= ->]. split; [reflexivity |].
          apply Qgtb_false_iff. exact Hexp.
        * intros ([= ->] & _). reflexivity.
    - intros (H & _). discriminate. }
  split; [rewrite Hremoved, Hsize; lia |].
  split; [unfold SimpleCache.size; rewrite Hremoved, Hsize; lia |].
  split; [unfold SimpleCache.size; rewrite Hremoved; lia |].
  split; [reflexivity |].
  split.
  { intros t q s Ht. unfold SimpleCache.get. rewrite Hlook.
    destruct (SimpleCache.cache c !! _) as [e |]; [| reflexivity].
    destruct (Qgtb now (SimpleCache.expiry e)) eqn:Hexp.
    - apply Qgtb_true_iff in Hexp.
      assert (Hexp' : Qgtb t (SimpleCache.expiry e) = true).
      { apply Qgtb_true_iff. lra. }
      rewrite Hexp'. reflexivity.
    - destruct (Qgtb t (SimpleCache.expiry e)); reflexivity. }
  assert (Hsame : snd (SimpleCache.cleanup_expired now swept) = swept).
  { apply cache_record_eq; [| reflexivity].
    apply map_eq. intros k. rewrite cleanup_expired_lookup, Hlook.
    destruct (SimpleCache.cache c !! k) as [e |]; [| reflexivity].
    destruct (Qgtb now (SimpleCache.expiry e)) eqn:Hexp; [reflexivity |].
    rewrite Hexp. reflexivity. }
  rewrite (surjective_pairing (SimpleCache.cleanup_expired now swept)).
  rewrite Hsame. f_equal.
  change (fst (SimpleCache.cleanup_expired now swept))
    with (Z.of_nat (size (SimpleCache.cache swept))
          - Z.of_nat (size (SimpleCache.cache
                              (snd (SimpleCache.cleanup_expired now swept)))))%Z.
  rewrite Hsame. lia.
Qed.

(** X2.  [delete] reports whether an entry was stored under the
    fingerprint, expired or not, and removes it: afterwards [get] reports
    absent at any time, a second [delete] reports [False], and the entries
    of other fingerprints are untouched.  For an expired entry [get]
    reports absent while [delete] still reports a removal. *)
Theorem delete_reports_presence (q : string) (s : arg (option string))
        (c : SimpleCache.t V) :
  (fst (cdelete c q s) = true <-> is_Some (SimpleCache.cache c !! ckey q s))
  /\ (forall now : Q,
        cget now (snd (cdelete c q s)) q s = (None, snd (cdelete c q s)))
  /\ fst (cdelete (snd (cdelete c q s)) q s) = false
  /\ (forall k, k <> ckey q s ->
                SimpleCache.cache (snd (cdelete c q s)) !! k
                = SimpleCache.cache c !! k)
  /\ (forall (t : Q) (v : V) (ttl : arg (option Z)),
        fst (cdelete (cset t c q v s ttl) q s) = true
        /\ SimpleCache.cache (snd (cdelete (cset t c q v s ttl) q s))
           = delete (ckey q s) (SimpleCache.cache c))
  /\ (forall (e : SimpleCache.CacheEntry V) (now : Q),
        SimpleCache.cache c !! ckey q s = Some e ->
        (SimpleCache.expiry e < now)%Q ->
        fst (cget now c q s) = None /\ fst (cdelete c q s) = true).
Proof.
  assert (Hdel : SimpleCache.cache (snd (cdelete c q s)) !! ckey q s = None).
  { unfold SimpleCache.delete. rewrite key_default.
    destruct (SimpleCache.cache c !! ckey q s) eqn:Hk; simpl;
      [apply lookup_delete_eq | exact Hk]. }
  split.
  { unfold SimpleCache.delete. rewrite key_default.
    destruct (SimpleCache.cache c !! ckey q s) as [e |]; simpl.
    - split; [eauto | reflexivity].
    - split; [discriminate | intros [x Hx]; discriminate]. }
  split; [intros now; apply get_missing; exact Hdel |].
  split.
  { unfold SimpleCache.delete at 1. rewrite key_default, Hdel. reflexivity. }
  split.
  { intros k Hne. unfold SimpleCache.delete. rewrite key_default.
    destruct (SimpleCache.cache c !! ckey q s); simpl; [| reflexivity].
    apply lookup_delete_ne. congruence. }
  split.
  { intros t v ttl. unfold SimpleCache.delete, SimpleCache.set. simpl.
    rewrite !key_default, lookup_insert_eq. simpl.
    split; [reflexivity | apply delete_insert_eq]. }
  intros e now He Hlt. rewrite (get_expired _ _ now c q s e He Hlt).
  split; [reflexivity |].
  unfold SimpleCache.delete. rewrite key_default, He. reflexivity.
Qed.

(** X3.  [size] counts every stored entry, expired ones included: a [set]
    adds one unless the fingerprint is already stored; a [get] takes one
    off exactly when it finds an expired entry; a [delete] takes one off
    exactly when the fingerprint is stored; after [clear] the size is 0
    and every [get] reports absent. *)
Theorem size_accounting (q : string) (s : arg (option string))
        (c : SimpleCache.t V) :
  (forall (t : Q) (v : V) (ttl : arg (option Z)),
      SimpleCache.size (cset t c q v s ttl)
      = match SimpleCache.cache c !! ckey q s with
        | Some _ => SimpleCache.size c
        | None => S (SimpleCache.size c)
        end)
  /\ (forall now : Q,
        SimpleCache.size (snd (cget now c q s))
        = match SimpleCache.cache c !! ckey q s with
          | Some e => if Qgtb now (SimpleCache.expiry e)
                      then pred (SimpleCache.size c) else SimpleCache.size c
          | None => SimpleCache.size c
          end)
  /\ SimpleCache.size (snd (cdelete c q s))
     = match SimpleCache.cache c !! ckey q s with
       | Some _ => pred (SimpleCache.size c)
       | None => SimpleCache.size c
       end
  /\ SimpleCache.size (SimpleCache.clear c) = 0%nat
  /\ (forall (now : Q) (q' : string) (s' : arg (option string)),
        fst (cget now (SimpleCache.clear c) q' s') = None).
Proof.
  split.
  { intros t v ttl. unfold SimpleCache.size, SimpleCache.set. simpl.
    rewrite key_default, map_size_insert.
    destruct (SimpleCache.cache c !! ckey q s); reflexivity. }
  split.
  { intros now. unfold SimpleCache.size, SimpleCache.get.
    rewrite key_default.
    destruct (SimpleCache.cache c !! ckey q s) as [e |] eqn:Hk; [| reflexivity].
    destruct (Qgtb now (SimpleCache.expiry e)); [| reflexivity].
    simpl. rewrite map_size_delete, Hk. reflexivity. }
  split.
  { unfold SimpleCache.size, SimpleCache.delete. rewrite key_default.
    destruct (SimpleCache.cache c !! ckey q s) as [e |] eqn:Hk; [| reflexivity].
    simpl. rewrite map_size_delete, Hk. reflexivity. }
  split; [apply map_size_empty |].
  intros now q' s'. rewrite get_missing; [reflexivity |]. apply lookup_empty.
Qed.

(** X4.  Writes: a [set] replaces whatever was stored under the
    fingerprint, so after two writes a [get] before expiry returns the
    second payload; entries of other fingerprints are not touched; a
    [set] without [ttl], or with [ttl=None], expires [default_ttl]
    seconds after the write, 3600 for a cache built without arguments. *)
Theorem set_overwrites_and_frames (q : string) (s : arg (option string))
        (c : SimpleCache.t V) :
  (forall (t1 t2 t' : Q) (v1 v2 : V) (ttl1 : arg (option Z)) (ttl2 : Z),
      (t' <= t2 + inject_Z ttl2)%Q ->
      fst (cget t' (cset t2 (cset t1 c q v1 s ttl1) q v2 s (Passed (Some ttl2)))
                q s)
      = Some v2)
  /\ (forall (t t' : Q) (v : V) (ttl : arg (option Z)) (q' : string)
             (s' : arg (option string)),
        ckey q' s' <> ckey q s ->
        fst (cget t' (cset t c q v s ttl) q' s') = fst (cget t' c q' s'))
  /\ (forall (t : Q) (v : V),
        cset t c q v s Omitted = cset t c q v s (Passed None)
        /\ SimpleCache.cache (cset t c q v s Omitted) !! ckey q s
           = Some {| SimpleCache.value := v;
                     SimpleCache.expiry :=
                       (t + inject_Z (SimpleCache.default_ttl c))%Q |})
  /\ SimpleCache.default_ttl (SimpleCache.init (V := V) Omitted) = 3600%Z.
Proof.
  split.
  { intros t1 t2 t' v1 v2 ttl1 ttl2 Hle.
    rewrite (get_set_before_expiry _ _ t2 t' _ q v2 s ttl2 Hle). reflexivity. }
  split.
  { intros t t' v ttl q' s' Hne. unfold SimpleCache.get, SimpleCache.set.
    simpl. rewrite !key_default. rewrite lookup_insert_ne by congruence.
    destruct (SimpleCache.cache c !! ckey q' s') as [e |]; [| reflexivity].
    destruct (Qgtb t' (SimpleCache.expiry e)); reflexivity. }
  split; [| reflexivity].
  intros t v. split; [reflexivity |].
  unfold SimpleCache.set. simpl. rewrite key_default. apply lookup_insert_eq.
Qed.

End CacheSweepFacts.

(** ** The metrics tracker: invariants and mixed runs *)

Section TrackerFacts.
Import Models ResponseQualityMetrics.

Lemma log_query_end_times (end_time : Q) (self self' : t) (start_time : Q)
      (success : bool) (response : option QueryResponse) :
  log_query_end end_time self start_time success response = Ok self' ->
  response_times self' = (response_times self ++ [(end_time - start_time)%Q])%list.
Proof.
  unfold log_query_end. rewrite !guarded_avg_ok. intros [= <-]. reflexivity.
Qed.

(** The citations a call adds to [total_citations]. *)
Lemma log_all_snoc (calls : list EndCall) (c : EndCall) (self s1 : t) :
  log_all self calls = Ok s1 ->
  log_all self (calls ++ [c])%list
  = log_query_end (ec_end c) s1 (ec_start c) (ec_success c) (ec_response c).
Proof.
  intros H. rewrite log_all_app, H. simpl.
  destruct (log_query_end _ _ _ _ _); reflexivity.
Qed.

(** A run of [log_query_end] calls leads from a reachable state to a
    reachable state. *)
Lemma log_all_reachable (calls : list EndCall) :
  forall self self' : t,
    reachable self -> log_all self calls = Ok self' -> reachable self'.
Proof.
  induction calls as [| c calls IH]; intros self self' Hreach Hrun.
  - injection Hrun as <-. exact Hreach.
  - simpl in Hrun.
    destruct (log_query_end (ec_end c) self (ec_start c) (ec_success c)
                            (ec_response c)) as [s1 | e] eqn:Hlog;
      [| discriminate].
    apply (IH s1 self'); [| exact Hrun].
    apply (reach_log self s1 _ _ _ _ Hreach Hlog).
Qed.

(** X5.  In every state the tracker can reach, [total_queries] is the sum
    of [successful_queries] and [failed_queries], no counter is negative,
    [response_times] has one entry per query and [total_response_time] is
    their sum, and each average is its total divided by
    [successful_queries], or 0 when there is no successful query. *)
Theorem tracker_invariants (self : t) :
  reachable self ->
  total_queries (metrics self)
  = (successful_queries (metrics self) + failed_queries (metrics self))%Z
  /\ (0 <= successful_queries (metrics self))%Z
  /\ (0 <= failed_queries (metrics self))%Z
  /\ (0 <= total_citations (metrics self))%Z
  /\ Z.of_nat (length (response_times self)) = total_queries (metrics self)
  /\ total_response_time (metrics self) = sumQ (response_times self)
  /\ avg_response_time (metrics self)
     = (if (0 <? successful_queries (metrics self))%Z
        then (total_response_time (metrics self)
              / inject_Z (successful_queries (metrics self)))%Q
        else 0%Q)
  /\ avg_citations_per_response (metrics self)
     = (if (0 <? successful_queries (metrics self))%Z
        then (inject_Z (total_citations (metrics self))
              / inject_Z (successful_queries (metrics self)))%Q
        else 0%Q).
Proof.
  intros Hreach.
  induction Hreach as [| s _ _ | s s' e st b r _ IH Hlog].
  - repeat split; try reflexivity; simpl; lia.
  - repeat split; try reflexivity; simpl; lia.
  - destruct IH as (Ht & Hs & Hf & Hc & Hlen & Hsum & _ & _).
    pose proof (log_query_end_times _ _ _ _ _ _ Hlog) as Htimes.
    destruct (log_query_end_ok e s st b r)
      as (s'' & Hlog' & Ht' & Hs' & Hf' & Htime' & Hc' & Hat & Hac).
    rewrite Hlog in Hlog'. injection Hlog' as <-.
    split; [destruct b; lia |]. split; [destruct b; lia |].
    split; [destruct b; lia |].
    split; [destruct b; [destruct r |]; lia |].
    split; [rewrite Htimes, length_app; simpl; lia |].
    split.
    { rewrite Htime', Htimes, Hsum. unfold sumQ.
      rewrite fold_left_Qplus_snoc. reflexivity. }
    split; [exact Hat | exact Hac].
Qed.

Lemma tracker_invariants_witness :
  exists first self,
    log_query_end 1 init 0 true (Some Samples.first_response) = Ok first
    /\ log_all (reset_metrics first) Samples.mixed_calls = Ok self
    /\ successful_queries (metrics self) = 1%Z
    /\ failed_queries (metrics self) = 1%Z
    /\ total_queries (metrics self)
       = (successful_queries (metrics self) + failed_queries (metrics self))%Z
    /\ Z.of_nat (length (response_times self)) = total_queries (metrics self)
    /\ total_response_time (metrics self) = sumQ (response_times self)
    /\ avg_response_time (metrics self)
       = (total_response_time (metrics self) / inject_Z 1)%Q
    /\ avg_citations_per_response (metrics self)
       = (inject_Z (total_citations (metrics self)) / inject_Z 1)%Q.
Proof.
  destruct (log_query_end_ok 1 init 0 true (Some Samples.first_response))
    as (first & Hfirst & _).
  pose proof (reach_reset first
                (reach_log init first _ _ _ _ reach_init Hfirst)) as Hreset.
  exists first. eexists. split; [exact Hfirst |]. split; [reflexivity |].
  split; [reflexivity |]. split; [reflexivity |].
  match goal with
  | |- total_queries (metrics ?s) = _ /\ _ =>
      assert (Hreach : reachable s)
        by exact (log_all_reachable Samples.mixed_calls (reset_metrics first)
                                    s Hreset eq_refl)
  end.
  destruct (tracker_invariants _ Hreach)
    as (Ht & _ & _ & _ & Hlen & Hsum & Hat & Hac).
  exact (conj Ht (conj Hlen (conj Hsum (conj Hat Hac)))).
Defined.

(** The counters after any run of calls. *)
Lemma log_all_run (calls : list EndCall) :
  forall self : t,
  exists self',
    log_all self calls = Ok self'
    /\ successful_queries (metrics self')
       = (successful_queries (metrics self)
          + Z.of_nat (length (List.filter ec_success calls)))%Z
    /\ failed_queries (metrics self')
       = (failed_queries (metrics self)
          + Z.of_nat (length (List.filter (fun c => negb (ec_success c)) calls)))%Z
    /\ total_response_time (metrics self')
       = fold_left Qplus (map (fun c => (ec_end c - ec_start c)%Q) calls)
                   (total_response_time (metrics self))
    /\ (calls <> [] ->
        avg_response_time (metrics self')
        = (if (0 <? successful_queries (metrics self'))%Z
           then (total_response_time (metrics self')
                 / inject_Z (successful_queries (metrics self')))%Q
           else 0%Q)).
Proof.
  induction calls as [| c calls IH] using rev_ind; intros self.
  - exists self. simpl. split; [reflexivity |]. split; [lia |].
    split; [lia |]. split; [reflexivity |]. intros Hnil. contradiction.
  - destruct (IH self) as (s1 & Hrun & Hsucc & Hfail & Htime & _).
    destruct (log_query_end_ok (ec_end c) s1 (ec_start c) (ec_success c)
                               (ec_response c))
      as (s2 & Hlog & _ & Hsucc2 & Hfail2 & Htime2 & _ & Havg & _).
    exists s2. split; [rewrite (log_all_snoc _ _ _ _ Hrun); exact Hlog |].
    rewrite !List.filter_app, !length_app, map_app. cbn [map].
    rewrite fold_left_Qplus_snoc. cbn [List.filter].
    rewrite Hsucc2, Hfail2, Htime2, Hsucc, Hfail, Htime.
    split; [destruct (ec_success c); simpl; lia |].
    split; [destruct (ec_success c); simpl; lia |].
    split; [reflexivity |].
    intros _. rewrite Havg, Hsucc2, Htime2, Hsucc, Htime. reflexivity.
Qed.

(** X6.  After any run of [log_query_end] calls from the initial tracker,
    successful and failed mixed, that holds a successful call,
    [avg_response_time] is the sum of the durations of all the calls, the
    failed ones included, divided by the number of successful calls; after
    a run of failed calls only it is 0. *)
Theorem average_time_counts_failed_queries (calls : list EndCall) :
  exists self',
    log_all init calls = Ok self'
    /\ successful_queries (metrics self')
       = Z.of_nat (length (List.filter ec_success calls))
    /\ failed_queries (metrics self')
       = Z.of_nat (length (List.filter (fun c => negb (ec_success c)) calls))
    /\ ((exists c, In c calls /\ ec_success c = true) ->
        avg_response_time (metrics self')
        = (sumQ (map (fun c => (ec_end c - ec_start c)%Q) calls)
           / inject_Z (Z.of_nat (length (List.filter ec_success calls))))%Q)
    /\ ((forall c, In c calls -> ec_success c = false) ->
        avg_response_time (metrics self') = 0%Q).
Proof.
  destruct (log_all_run calls init) as (s & Hrun & Hsucc & Hfail & Htime & Havg).
  exists s. split; [exact Hrun |]. simpl in Hsucc, Hfail, Htime.
  rewrite Z.add_0_l in Hsucc, Hfail.
  split; [exact Hsucc |]. split; [exact Hfail |]. split.
  - intros (c & Hin & Hc).
    assert (Hne : calls <> []) by (intros ->; contradiction).
    assert (Hpos : (0 < length (List.filter ec_success calls))%nat).
    { assert (Hf : In c (List.filter ec_success calls))
        by (apply filter_In; auto).
      destruct (List.filter ec_success calls); [contradiction | simpl; lia]. }
    rewrite (Havg Hne), Hsucc, Htime.
    destruct (Z.ltb_spec 0 (Z.of_nat (length (List.filter ec_success calls))));
      [reflexivity | lia].
  - intros Hall.
    assert (Hnone : List.filter ec_success calls = []).
    { apply filter_drops_all. exact Hall. }
    destruct calls as [| c calls]; [simpl in Hrun; injection Hrun as <-; reflexivity |].
    rewrite (Havg ltac:(discriminate)), Hsucc, Hnone. reflexivity.
Qed.

End TrackerFacts.

(** ** The accuracy check *)

Section ValidationFacts.
Import Models ResponseQualityMetrics.

(** The document ids the check accepts: those of the source documents that
    are present and not empty. *)
Lemma available_source (x : string) (source_context : list Doc) :
  x ∈ (list_to_set
         (omap (fun doc => if truthy_str (d_document_id doc)
                           then d_document_id doc else None)
               source_context) : gset string)
  <-> exists d, In d source_context /\ d_document_id d = Some x /\ x <> "".
Proof.
  rewrite elem_of_list_to_set, list_elem_of_omap. split.
  - intros (d & Hd & Hf). exists d. apply list_elem_of_In in Hd.
    split; [exact Hd |].
    destruct (d_document_id d) as [[| a i] |]; simpl in Hf;
      try discriminate.
    injection Hf as <-. split; [reflexivity | discriminate].
  - intros (d & Hd & Hid & Hne). exists d. apply list_elem_of_In in Hd.
    split; [exact Hd |]. rewrite Hid.
    destruct x; [contradiction | reflexivity].
Qed.

Lemma cited_subset (cs : list Citation) (source_context : list Doc) :
  (list_to_set (map document_id cs) : gset string)
  ⊆ list_to_set
      (omap (fun doc => if truthy_str (d_document_id doc)
                        then d_document_id doc else None)
            source_context)
  <-> forall c, In c cs ->
                exists d, In d source_context
                          /\ d_document_id d = Some (document_id c)
                          /\ document_id c <> "".
Proof.
  split.
  - intros Hsub c Hc. apply available_source. apply Hsub.
    apply elem_of_list_to_set, list_elem_of_In, in_map. exact Hc.
  - intros H x Hx.
    apply elem_of_list_to_set, list_elem_of_In, in_map_iff in Hx
      as (c & <- & Hc).
    apply available_source. apply H. exact Hc.
Qed.

(** When the cited ids are not all accepted, some citation has an id that
    is not. *)
Lemma uncited_source (cs : list Citation) (source_context : list Doc) :
  ~ (list_to_set (map document_id cs) : gset string)
    ⊆ list_to_set
        (omap (fun doc => if truthy_str (d_document_id doc)
                          then d_document_id doc else None)
              source_context) ->
  exists c, In c cs
            /\ document_id c
               ∉ (list_to_set
                    (omap (fun doc => if truthy_str (d_document_id doc)
                                      then d_document_id doc else None)
                          source_context) : gset string).
Proof.
  induction cs as [| c cs IH]; intros Hn.
  - exfalso. apply Hn. simpl. apply empty_subseteq.
  - destruct (decide (document_id c
                      ∈ (list_to_set
                           (omap (fun doc => if truthy_str (d_document_id doc)
                                             then d_document_id doc else None)
                                 source_context) : gset string)))
      as [Hin | Hnin].
    + destruct IH as (c' & Hc' & Hn').
      * intros Hsub. apply Hn. simpl. intros x Hx.
        apply elem_of_union in Hx as [Hx | Hx]; [| apply Hsub; exact Hx].
        apply elem_of_singleton in Hx. subst x. exact Hin.
      * exists c'. split; [right; exact Hc' | exact Hn'].
    + exists c. split; [left; reflexivity | exact Hnin].
Qed.

(** X7.  [validate_response_accuracy] reports a response as inaccurate in
    two cases only, both with citations present: the answer is blank
    (confidence 0), or there are source documents and some cited
    [document_id] is not the non-empty id of one of them (confidence 0.5).
    A response without citations is always reported accurate, and so is a
    non-blank response checked against an empty list of sources, whatever
    it cites.  [citations_validated] is [True] in every report. *)
Theorem validation_report (response : QueryResponse) (source_context : list Doc) :
  let report := validate_response_accuracy response source_context in
  let blank := strip (answer response) = "" in
  let unknown_source :=
    exists c, In c (citations response)
              /\ ~ exists d, In d source_context
                             /\ d_document_id d = Some (document_id c)
                             /\ document_id c <> "" in
  (is_accurate report = false
   <-> citations response <> []
       /\ (blank \/ (source_context <> [] /\ unknown_source)))
  /\ (confidence_score report = 0%Q <-> citations response <> [] /\ blank)
  /\ (confidence_score report = (1 # 2)%Q
      <-> citations response <> [] /\ ~ blank
          /\ source_context <> [] /\ unknown_source)
  /\ (confidence_score report = 1%Q <-> is_accurate report = true)
  /\ citations_validated report = true
  /\ (citations response = [] ->
      report = {| is_accurate := true; confidence_score := 1;
                  citations_validated := true; sources_used := ∅;
                  validation_notes := [] |})
  /\ (source_context = [] -> ~ blank -> is_accurate report = true).
Proof.
  intros report blank unknown_source. subst report.
  unfold validate_response_accuracy.
  assert (Hunknown :
            unknown_source
            <-> ~ (list_to_set (map document_id (citations response)) : gset string)
                  ⊆ list_to_set
                      (omap (fun doc => if truthy_str (d_document_id doc)
                                        then d_document_id doc else None)
                            source_context)).
  { unfold unknown_source. split.
    - intros (c & Hc & Hn) Hsub. apply Hn.
      apply (proj1 (cited_subset _ _) Hsub). exact Hc.
    - intros Hn. destruct (uncited_source _ _ Hn) as (c & Hc & Hnin).
      exists c. split; [exact Hc |]. intros Hex. apply Hnin.
      apply available_source. exact Hex. }
  assert (Hblank : String.eqb (strip (answer response)) "" = true <-> blank).
  { apply String.eqb_eq. }
  destruct (citations response) as [| c cs] eqn:Hcs.
  { simpl. repeat split; try discriminate; try congruence;
      try (intros (H & _); congruence); try (intros H; exfalso; apply H; reflexivity).
    all: try (intros; reflexivity). }
  destruct source_context as [| d ds] eqn:Hctx.
  { cbn [andb].
    destruct (String.eqb (strip (answer response)) "") eqn:Hb; simpl.
    - assert (blank) by (apply Hblank; reflexivity).
      repeat split; try discriminate; try tauto; try congruence;
        try (intros (_ & Hn & _); tauto); intros; try tauto; try discriminate.
    - assert (~ blank) by (intros Hbl; apply Hblank in Hbl; discriminate).
      repeat split; try discriminate; try tauto; try congruence;
        try (intros (_ & [Hbl | (Hn & _)]); tauto);
        try (intros (_ & _ & Hn & _); congruence);
        try (intros (_ & Hbl); tauto); intros; try tauto; try discriminate. }
  cbn [andb].
  destruct (decide (_ ⊆ _)) as [Hsub | Hnsub];
    destruct (String.eqb (strip (answer response)) "") eqn:Hb; simpl.
  - assert (blank) by (apply Hblank; reflexivity).
    assert (~ unknown_source) by (rewrite Hunknown; tauto).
    repeat split; try discriminate; try tauto; try congruence;
      try (intros (_ & Hn & _); tauto); intros; try tauto; try discriminate.
  - assert (~ blank) by (intros Hbl; apply Hblank in Hbl; discriminate).
    assert (~ unknown_source) by (rewrite Hunknown; tauto).
    repeat split; try discriminate; try tauto; try congruence;
      try (intros (_ & [Hbl | (_ & Hu)]); tauto);
      try (intros (_ & _ & _ & Hu); tauto);
      try (intros (_ & Hbl); tauto); intros; try tauto; try discriminate.
  - assert (blank) by (apply Hblank; reflexivity).
    repeat split; try discriminate; try tauto; try congruence;
      try (intros (_ & Hn & _); tauto); intros; try tauto; try discriminate.
  - assert (~ blank) by (intros Hbl; apply Hblank in Hbl; discriminate).
    assert (unknown_source) by (rewrite Hunknown; exact Hnsub).
    assert (d :: ds <> []) by discriminate.
    repeat split; try discriminate; try tauto; try congruence;
      try (intros (_ & Hbl); tauto); intros; try tauto; try discriminate.
Qed.

End ValidationFacts.

(** ** The cached payload and the response *)

Section PayloadFacts.
Import Models RAGService.

Lemma Citation_of_dump (c : Citation) :
  Citation_ok c = true -> Citation_of_dict (Citation_dump c) = Ok c.
Proof.
  unfold Citation_ok, Citation_of_dict, Citation_new. simpl. intros H.
  apply andb_prop in H as (H & H1). apply andb_prop in H as (H & H0).
  apply andb_prop in H as (Hu & Hs). rewrite Hu, Hs, H0, H1. simpl.
  destruct c. reflexivity.
Qed.

Lemma Citations_of_dumps (cs : list Citation) :
  forallb Citation_ok cs = true ->
  Citations_of_dicts (map Citation_dump cs) = Ok cs.
Proof.
  induction cs as [| c cs IH]; simpl; [reflexivity |]. intros H.
  apply andb_prop in H as (Hc & Hcs).
  rewrite (Citation_of_dump c Hc), (IH Hcs). reflexivity.
Qed.

Lemma Citation_dump_of_dict (d : CitationDict) (c : Citation) :
  Citation_of_dict d = Ok c -> Citation_dump c = d.
Proof.
  unfold Citation_of_dict. intros H.
  destruct (Citation_new_ok _ _ _ _ _ _ H) as (_ & ->). destruct d. reflexivity.
Qed.

Lemma Citation_dumps_of_dicts (ds : list CitationDict) :
  forall cs, Citations_of_dicts ds = Ok cs -> map Citation_dump cs = ds.
Proof.
  induction ds as [| d ds IH]; simpl; intros cs H.
  - injection H as <-. reflexivity.
  - destruct (Citation_of_dict d) as [c | e] eqn:Hc; [| discriminate].
    destruct (Citations_of_dicts ds) as [cs' | e]; [| discriminate].
    injection H as <-. simpl.
    rewrite (Citation_dump_of_dict _ _ Hc), (IH cs' eq_refl). reflexivity.
Qed.

(** The response that a re-stamped payload of a valid response gives. *)
Lemma restamped_payload_response (r : QueryResponse) (qid ts : string) :
  QueryResponse_ok r = true ->
  QueryResponse_of_payload (set_timestamp ts (set_query_id qid (model_dump r)))
  = Ok {| answer := answer r; citations := citations r; query_id := qid;
          timestamp := ts; metadata := metadata r |}.
Proof.
  unfold QueryResponse_ok. intros H.
  apply andb_prop in H as (H & Hcs). apply andb_prop in H as (Ha & Hn).
  unfold QueryResponse_of_payload. simpl.
  rewrite (Citations_of_dumps _ Hcs). unfold QueryResponse_new.
  rewrite Ha, Hn. reflexivity.
Qed.

(** X8.  [model_dump] and the constructor are inverse on valid data: the
    payload dumped from a response that meets the constraints of
    [QueryResponse] is accepted again and gives back the same response;
    with a new [query_id] and [timestamp] written into the payload it
    gives the response with these two fields replaced and every other
    field as it was; and a payload that the constructor accepts is the
    dump of the response it gives. *)
Theorem model_dump_round_trip (r : QueryResponse) (p : Payload) :
  (QueryResponse_ok r = true -> QueryResponse_of_payload (model_dump r) = Ok r)
  /\ (forall qid ts : string,
        QueryResponse_ok r = true ->
        QueryResponse_of_payload
          (set_timestamp ts (set_query_id qid (model_dump r)))
        = Ok {| answer := answer r; citations := citations r; query_id := qid;
                timestamp := ts; metadata := metadata r |})
  /\ (QueryResponse_of_payload p = Ok r ->
      model_dump r = p /\ QueryResponse_ok r = true).
Proof.
  split; [| split].
  - intros H.
    pose proof (restamped_payload_response r (query_id r) (timestamp r) H) as Hr.
    destruct r. exact Hr.
  - intros qid ts H. apply restamped_payload_response. exact H.
  - intros H. split; [| apply (QueryResponse_of_payload_ok _ _ H)].
    unfold QueryResponse_of_payload in H.
    destruct (Citations_of_dicts (p_citations p)) as [cs | e] eqn:Hcs.
    + destruct (QueryResponse_new_ok _ _ _ _ _ _ H) as (-> & _).
      unfold model_dump. simpl.
      rewrite (Citation_dumps_of_dicts _ _ Hcs). destruct p. reflexivity.
    + destruct e; discriminate.
Qed.

End PayloadFacts.

(** ** The orchestrator: the successful request and the cache hit *)

Section ServicePathFacts.
Import Models RAGService.

Variable md5_hexdigest : string -> string.
Variable time_time : nat -> Q.
Variable uuid4 : nat -> string.
Variable utcnow_isoformat : nat -> string.
Variable cohere_client : option (string -> result Embedding).
Variable openai_client : option (string -> result Embedding).
Variable search_documents : list Q -> Z -> result (list Doc).
Variable generate_response :
  string -> list Doc -> option string -> result AgentResponse.

Abbreviation the_query :=
  (query_documentation md5_hexdigest time_time uuid4 utcnow_isoformat
                       cohere_client openai_client search_documents
                       generate_response).
Abbreviation the_body :=
  (query_body md5_hexdigest time_time uuid4 utcnow_isoformat
              cohere_client openai_client search_documents generate_response).
Abbreviation the_embedding := (generate_embedding cohere_client openai_client).
Abbreviation the_cache_get := (cache_get md5_hexdigest time_time).
Abbreviation request_key :=
  (fun query_request : QueryRequest =>
     SimpleCache._generate_key md5_hexdigest (query query_request)
                               (Passed (selected_text query_request))).

Lemma set_cache_same (w : World) : set_cache (w_cache w) w = w.
Proof. destruct w. reflexivity. Qed.

Lemma cache_get_absent (q : string) (sel : option string) (w : World) :
  SimpleCache.cache (w_cache w)
    !! SimpleCache._generate_key md5_hexdigest q (Passed sel) = None ->
  the_cache_get q sel w = (Ok None, w).
Proof.
  intros H. unfold cache_get. rewrite H.
  rewrite (get_missing _ _ _ _ _ _ H). rewrite set_cache_same. reflexivity.
Qed.

Lemma cache_get_live (q : string) (sel : option string) (w : World)
      (e : SimpleCache.CacheEntry Payload) :
  SimpleCache.cache (w_cache w)
    !! SimpleCache._generate_key md5_hexdigest q (Passed sel) = Some e ->
  (time_time (w_clock w) <= SimpleCache.expiry e)%Q ->
  the_cache_get q sel w = (Ok (Some (SimpleCache.value e)), tick_clock w).
Proof.
  intros H Hle. unfold cache_get. rewrite H.
  rewrite (get_live _ _ _ _ _ _ _ H Hle). rewrite set_cache_same. reflexivity.
Qed.

(** The two assignments to the cached dict, as one write to the entry. *)
Lemma restamp_entry (m : gmap string (SimpleCache.CacheEntry Payload))
      (k : string) (e : SimpleCache.CacheEntry Payload) (qid ts : string) :
  m !! k = Some e ->
  alter (fun e => {| SimpleCache.value := set_timestamp ts (SimpleCache.value e);
                     SimpleCache.expiry := SimpleCache.expiry e |}) k
        (alter (fun e => {| SimpleCache.value :=
                              set_query_id qid (SimpleCache.value e);
                            SimpleCache.expiry := SimpleCache.expiry e |}) k m)
  = <[k := {| SimpleCache.value :=
                set_timestamp ts (set_query_id qid (SimpleCache.value e));
              SimpleCache.expiry := SimpleCache.expiry e |}]> m.
Proof.
  intros H. apply map_eq. intros k'.
  destruct (decide (k = k')) as [<- | Hne].
  - rewrite lookup_alter_eq, lookup_alter_eq, H, lookup_insert_eq. reflexivity.
  - rewrite !lookup_alter_ne, lookup_insert_ne by exact Hne. reflexivity.
Qed.

(** A request that finds a live entry whose re-stamped payload is accepted. *)
Lemma run_query_hit (query_request : QueryRequest) (w : World)
      (e : SimpleCache.CacheEntry Payload) (response : QueryResponse) :
  SimpleCache.cache (w_cache w) !! request_key query_request = Some e ->
  (time_time (S (w_clock w)) <= SimpleCache.expiry e)%Q ->
  QueryResponse_of_payload
    (set_timestamp (utcnow_isoformat (w_utcnow w) +:+ "Z")
                   (set_query_id (uuid4 (w_uuid w)) (SimpleCache.value e)))
  = Ok response ->
  exists q,
    the_query query_request w
    = (Ok response,
       {| w_cache :=
            {| SimpleCache.cache :=
                 <[request_key query_request :=
                     {| SimpleCache.value :=
                          set_timestamp
                            (utcnow_isoformat (w_utcnow w) +:+ "Z")
                            (set_query_id (uuid4 (w_uuid w))
                                          (SimpleCache.value e));
                        SimpleCache.expiry := SimpleCache.expiry e |}]>
                   (SimpleCache.cache (w_cache w));
               SimpleCache.default_ttl := SimpleCache.default_ttl (w_cache w) |};
          w_quality := q;
          w_clock := 3 + w_clock w;
          w_uuid := S (w_uuid w);
          w_utcnow := S (w_utcnow w);
          w_calls := w_calls w |})
    /\ ResponseQualityMetrics.log_query_end
         (time_time (2 + w_clock w)) (w_quality w) (time_time (w_clock w))
         true (Some response) = Ok q.
Proof.
  intros He Hle Hresp.
  unfold query_documentation, bind at 1, log_query_start, read_clock, try_except.
  cbv beta iota.
  unfold query_body. unfold bind at 1.
  rewrite (cache_get_live _ _ (tick_clock w) e He Hle).
  unfold bind, new_uuid, update_cached, now_stamp, lift, ret. cbv beta iota.
  cbn [w_uuid w_utcnow w_cache set_cache tick_clock tick_uuid tick_utcnow
       SimpleCache.cache SimpleCache.default_ttl].
  rewrite Hresp.
  match goal with
  | |- context [log_query_end ?t ?s ?b ?r ?w0] =>
      destruct (log_query_end_run t s b r w0) as (q' & Hrun & Hq);
      rewrite Hrun
  end.
  exists q'. split; [| exact Hq].
  f_equal. unfold set_quality, tick_clock. simpl.
  rewrite (restamp_entry _ _ e _ _ He). reflexivity.
Qed.

Lemma raw_citations_of_ids (docs : list Doc) :
  forall raw, raw_citations_of docs = Ok raw ->
              map document_id raw
              = map (fun d => dict_get (d_document_id d) "") docs
              /\ map url raw = map (fun d => dict_get (d_url d) "") docs.
Proof.
  induction docs as [| d docs IH]; simpl; intros raw H.
  - injection H as <-. auto.
  - unfold citation_of_doc in H.
    destruct (Citation_new _ _ _ _ _) as [c | e] eqn:Hc; [| discriminate].
    destruct (raw_citations_of docs) as [cs | e]; [| discriminate].
    injection H as <-. destruct (Citation_new_ok _ _ _ _ _ _ Hc) as (_ & ->).
    destruct (IH cs eq_refl) as (Hid & Hurl). cbn [map document_id url].
    rewrite Hid, Hurl. auto.
Qed.

(** A request that misses the cache (no entry under its fingerprint) and
    for which every step returns. *)
Lemma run_query_success (query_request : QueryRequest) (w : World)
      (x : Q) (v : list Q) (doc : Doc) (docs : list Doc)
      (agent : AgentResponse) (ans : string) (raw : list Citation) :
  SimpleCache.cache (w_cache w) !! request_key query_request = None ->
  (forall w1, fst (the_embedding (query_text_of query_request) w1)
              = Ok (Some (x :: v))) ->
  search_documents (x :: v) 5 = Ok (doc :: docs) ->
  generate_response (query query_request) (doc :: docs)
                    (selected_text query_request) = Ok agent ->
  a_answer agent = Some ans ->
  len_between 1 10000 ans = true ->
  (0 <? len (strip ans))%Z = true ->
  raw_citations_of (doc :: docs) = Ok raw ->
  (length (doc :: docs) <= 20)%nat ->
  let response :=
    {| answer := ans; citations := raw; query_id := uuid4 (w_uuid w);
       timestamp := utcnow_isoformat (w_utcnow w) +:+ "Z";
       metadata := Some (dict_get (a_metadata agent) []) |} in
  exists q cs,
    the_query query_request w
    = (Ok response,
       {| w_cache :=
            SimpleCache.set md5_hexdigest (time_time (S (w_clock w)))
                            (w_cache w) (query query_request)
                            (model_dump response)
                            (Passed (selected_text query_request))
                            (Passed (Some 7200%Z));
          w_quality := q;
          w_clock := 3 + w_clock w;
          w_uuid := S (w_uuid w);
          w_utcnow := S (w_utcnow w);
          w_calls :=
            (w_calls w ++ cs
             ++ [CallSearch (x :: v) 5;
                 CallGenerate (query query_request) (doc :: docs)
                              (selected_text query_request)])%list |})
    /\ ResponseQualityMetrics.log_query_end
         (time_time (2 + w_clock w)) (w_quality w) (time_time (w_clock w))
         true (Some response) = Ok q
    /\ Forall (fun c => c = CallCohere (query_text_of query_request)
                       \/ c = CallOpenAI (query_text_of query_request)) cs
    /\ QueryResponse_ok response = true.
Proof.
  intros Habsent Hemb Hsearch Hgen Hans Hlen Hstrip Hraw Hcount response.
  pose proof (raw_citations_of_ok _ _ Hraw) as Hvalid.
  assert (Hrawlen : length raw = length (doc :: docs)).
  { rewrite <- (length_map document_id raw),
      (proj1 (raw_citations_of_ids _ _ Hraw)), length_map. reflexivity. }
  assert (Hnew : forall qid ts m,
             QueryResponse_new ans (validate_citation_links raw) qid ts m
             = Ok {| answer := ans; citations := raw; query_id := qid;
                     timestamp := ts; metadata := or_default None m |}).
  { intros qid ts m. rewrite (validate_citation_links_keeps_valid _ Hvalid).
    unfold QueryResponse_new. rewrite Hlen.
    assert (Hn : (length raw <=? 20)%nat = true)
      by (apply Nat.leb_le; rewrite Hrawlen; exact Hcount).
    rewrite Hn. reflexivity. }
  assert (Hnonempty : negb (String.eqb ans "") = true).
  { destruct ans; [discriminate | reflexivity]. }
  destruct (generate_embedding_run cohere_client openai_client
                                   (query_text_of query_request) (tick_clock w))
    as (v' & w2 & cs & Hrun & Hc2 & Hq2 & Hclk2 & Hu2 & Hn2 & Hcalls2 & Hcs).
  pose proof (Hemb (tick_clock w)) as Hv. rewrite Hrun in Hv. simpl in Hv.
  injection Hv as ->.
  set (w3 := record_call
               (CallGenerate (query query_request) (doc :: docs)
                             (selected_text query_request))
               (record_call (CallSearch (x :: v) 5) w2)).
  set (w4 := tick_utcnow (tick_uuid w3)).
  set (w5 := set_cache
               (SimpleCache.set md5_hexdigest (time_time (w_clock w4))
                                (w_cache (tick_clock w4)) (query query_request)
                                (model_dump response)
                                (Passed (selected_text query_request))
                                (Passed (Some 7200%Z)))
               (tick_clock w4)).
  destruct (log_query_end_run time_time (time_time (w_clock w)) true
                              (Some response) w5) as (q & Hlog & Hq).
  exists q, cs.
  assert (Hresp : {| answer := ans; citations := raw;
                     query_id := uuid4 (w_uuid w3);
                     timestamp := utcnow_isoformat (w_utcnow (tick_uuid w3)) +:+ "Z";
                     metadata := or_default None
                                   (Passed (Some (dict_get (a_metadata agent) []))) |}
                  = response).
  { unfold response. simpl. rewrite Hu2, Hn2. reflexivity. }
  split.
  { unfold query_documentation, bind at 1, log_query_start, read_clock,
      try_except. cbv beta iota.
    unfold query_body. unfold bind at 1.
    rewrite (cache_get_absent _ _ (tick_clock w) Habsent).
    unfold bind at 1. rewrite Hrun.
    unfold bind at 1. rewrite Hsearch.
    unfold bind at 1. rewrite Hgen.
    unfold bind at 1. unfold lift at 1. rewrite Hraw.
    unfold bind at 1. unfold new_uuid at 1.
    unfold bind at 1. unfold lift at 1. unfold getitem_answer. rewrite Hans.
    unfold bind at 1. unfold now_stamp at 1.
    unfold bind at 1. unfold lift at 1.
    unfold enhance_citation_relevance. rewrite Hnew. fold w3.
    rewrite Hresp. cbv zeta.
    change (answer response) with ans. rewrite Hnonempty, Hstrip.
    cbn [andb]. unfold bind at 1. unfold cache_set, bind at 1, read_clock.
    cbv beta iota. fold w4. fold w5.
    unfold bind. rewrite Hlog. unfold ret. f_equal.
    unfold w5, w4, w3. unfold set_quality, tick_clock, set_cache, tick_utcnow,
      tick_uuid, record_call. simpl.
    rewrite Hc2, Hclk2, Hu2, Hn2, Hcalls2. simpl.
    rewrite <- !app_assoc. reflexivity. }
  split.
  { unfold w5, w4, w3 in Hq. simpl in Hq. rewrite Hq2, Hclk2 in Hq.
    exact Hq. }
  split; [exact Hcs |].
  unfold QueryResponse_ok. simpl. rewrite Hlen, Hvalid.
  assert (Hn : (length raw <=? 20)%nat = true)
    by (apply Nat.leb_le; rewrite Hrawlen; exact Hcount).
  rewrite Hn. reflexivity.
Qed.

(** What one call of [log_query_end] for a successful query with a
    response does to the counters. *)
Lemma log_success_counters (end_time start_time : Q) (response : QueryResponse)
      (s s' : ResponseQualityMetrics.t) :
  ResponseQualityMetrics.log_query_end end_time s start_time true (Some response)
  = Ok s' ->
  ResponseQualityMetrics.total_queries (ResponseQualityMetrics.metrics s')
  = (ResponseQualityMetrics.total_queries (ResponseQualityMetrics.metrics s) + 1)%Z
  /\ ResponseQualityMetrics.successful_queries (ResponseQualityMetrics.metrics s')
     = (ResponseQualityMetrics.successful_queries
          (ResponseQualityMetrics.metrics s) + 1)%Z
  /\ ResponseQualityMetrics.failed_queries (ResponseQualityMetrics.metrics s')
     = ResponseQualityMetrics.failed_queries (ResponseQualityMetrics.metrics s)
  /\ ResponseQualityMetrics.total_citations (ResponseQualityMetrics.metrics s')
     = (ResponseQualityMetrics.total_citations (ResponseQualityMetrics.metrics s)
        + Z.of_nat (length (citations response)))%Z.
Proof.
  intros H.
  destruct (log_query_end_ok end_time s start_time true (Some response))
    as (s'' & H' & Ht & Hs & Hf & _ & Hc & _).
  rewrite H in H'. injection H' as <-. auto.
Qed.

Lemma dump_of_accepted_payload (p : Payload) (r : QueryResponse) :
  QueryResponse_of_payload p = Ok r -> model_dump r = p.
Proof.
  intros H. unfold QueryResponse_of_payload in H.
  destruct (Citations_of_dicts (p_citations p)) as [cs | e] eqn:Hcs.
  - destruct (QueryResponse_new_ok _ _ _ _ _ _ H) as (-> & _).
    unfold model_dump. simpl.
    rewrite (Citation_dumps_of_dicts _ _ Hcs). destruct p. reflexivity.
  - destruct e; discriminate.
Qed.

(** X9.  A request that finds no entry under its fingerprint, gets a
    non-empty embedding, at least one and at most 20 documents whose
    citations can all be built, and a non-blank answer of at most 10000
    characters, returns that answer with one citation per retrieved
    document, in retrieval order, and a newly drawn identifier and
    timestamp; the dumped response is stored under the fingerprint with
    expiry 7200 seconds after the write and no other entry changes; the
    tracker counts one more successful query and the citations; the search
    and then the generation are each called once. *)
Theorem successful_query_is_cached (query_request : QueryRequest) (w : World)
        (x : Q) (v : list Q) (doc : Doc) (docs : list Doc)
        (agent : AgentResponse) (ans : string) (raw : list Citation) :
  SimpleCache.cache (w_cache w) !! request_key query_request = None ->
  (forall w1, fst (the_embedding (query_text_of query_request) w1)
              = Ok (Some (x :: v))) ->
  search_documents (x :: v) 5 = Ok (doc :: docs) ->
  generate_response (query query_request) (doc :: docs)
                    (selected_text query_request) = Ok agent ->
  a_answer agent = Some ans ->
  len_between 1 10000 ans = true ->
  (0 <? len (strip ans))%Z = true ->
  raw_citations_of (doc :: docs) = Ok raw ->
  (length (doc :: docs) <= 20)%nat ->
  let response :=
    {| answer := ans; citations := raw; query_id := uuid4 (w_uuid w);
       timestamp := utcnow_isoformat (w_utcnow w) +:+ "Z";
       metadata := Some (dict_get (a_metadata agent) []) |} in
  exists w',
    the_query query_request w = (Ok response, w')
    /\ QueryResponse_ok response = true
    /\ map document_id raw
       = map (fun d => dict_get (d_document_id d) "") (doc :: docs)
    /\ map url raw = map (fun d => dict_get (d_url d) "") (doc :: docs)
    /\ SimpleCache.cache (w_cache w') !! request_key query_request
       = Some {| SimpleCache.value := model_dump response;
                 SimpleCache.expiry :=
                   (time_time (S (w_clock w)) + inject_Z 7200)%Q |}
    /\ (forall k, k <> request_key query_request ->
                  SimpleCache.cache (w_cache w') !! k
                  = SimpleCache.cache (w_cache w) !! k)
    /\ ResponseQualityMetrics.successful_queries
         (ResponseQualityMetrics.metrics (w_quality w'))
       = (ResponseQualityMetrics.successful_queries
            (ResponseQualityMetrics.metrics (w_quality w)) + 1)%Z
    /\ ResponseQualityMetrics.failed_queries
         (ResponseQualityMetrics.metrics (w_quality w'))
       = ResponseQualityMetrics.failed_queries
           (ResponseQualityMetrics.metrics (w_quality w))
    /\ ResponseQualityMetrics.total_citations
         (ResponseQualityMetrics.metrics (w_quality w'))
       = (ResponseQualityMetrics.total_citations
            (ResponseQualityMetrics.metrics (w_quality w))
          + Z.of_nat (length (doc :: docs)))%Z
    /\ (exists cs,
          w_calls w'
          = (w_calls w ++ cs
             ++ [CallSearch (x :: v) 5;
                 CallGenerate (query query_request) (doc :: docs)
                              (selected_text query_request)])%list
          /\ Forall (fun c => c = CallCohere (query_text_of query_request)
                             \/ c = CallOpenAI (query_text_of query_request))
                    cs).
Proof.
  intros Habsent Hemb Hsearch Hgen Hans Hlen Hstrip Hraw Hcount response.
  destruct (run_query_success query_request w x v doc docs agent ans raw
              Habsent Hemb Hsearch Hgen Hans Hlen Hstrip Hraw Hcount)
    as (q & cs & Hrun & Hlog & Hcs & Hok).
  destruct (raw_citations_of_ids _ _ Hraw) as (Hids & Hurls).
  destruct (log_success_counters _ _ _ _ _ Hlog) as (_ & Hs & Hf & Hc).
  eexists. split; [exact Hrun |]. cbn [w_cache w_quality w_calls].
  split; [exact Hok |]. split; [exact Hids |]. split; [exact Hurls |].
  split.
  { unfold SimpleCache.set. simpl. apply lookup_insert_eq. }
  split.
  { intros k Hne. unfold SimpleCache.set. simpl.
    apply lookup_insert_ne. congruence. }
  split; [exact Hs |]. split; [exact Hf |]. split.
  { rewrite Hc. simpl citations.
    rewrite <- (length_map document_id raw), Hids, length_map. reflexivity. }
  exists cs. split; [reflexivity | exact Hcs].
Qed.

(** X10.  A request that finds a live entry under its fingerprint whose
    payload, stamped with a new identifier and timestamp, is accepted by
    [QueryResponse], returns the cached answer, citations and metadata with
    the new identifier and timestamp and calls no collaborator; the
    tracker counts one more successful query; the stamps are written into
    the cached payload itself, every other field and the expiry of the
    entry stay, so a hit does not extend the life of the entry. *)
Theorem cache_hit_replays (query_request : QueryRequest) (w : World)
        (e : SimpleCache.CacheEntry Payload) (response : QueryResponse) :
  SimpleCache.cache (w_cache w) !! request_key query_request = Some e ->
  (time_time (S (w_clock w)) <= SimpleCache.expiry e)%Q ->
  QueryResponse_of_payload
    (set_timestamp (utcnow_isoformat (w_utcnow w) +:+ "Z")
                   (set_query_id (uuid4 (w_uuid w)) (SimpleCache.value e)))
  = Ok response ->
  exists w',
    the_query query_request w = (Ok response, w')
    /\ answer response = p_answer (SimpleCache.value e)
    /\ map Citation_dump (citations response) = p_citations (SimpleCache.value e)
    /\ metadata response = p_metadata (SimpleCache.value e)
    /\ query_id response = uuid4 (w_uuid w)
    /\ timestamp response = utcnow_isoformat (w_utcnow w) +:+ "Z"
    /\ w_calls w' = w_calls w
    /\ SimpleCache.cache (w_cache w') !! request_key query_request
       = Some {| SimpleCache.value := model_dump response;
                 SimpleCache.expiry := SimpleCache.expiry e |}
    /\ (forall k, k <> request_key query_request ->
                  SimpleCache.cache (w_cache w') !! k
                  = SimpleCache.cache (w_cache w) !! k)
    /\ ResponseQualityMetrics.successful_queries
         (ResponseQualityMetrics.metrics (w_quality w'))
       = (ResponseQualityMetrics.successful_queries
            (ResponseQualityMetrics.metrics (w_quality w)) + 1)%Z
    /\ ResponseQualityMetrics.failed_queries
         (ResponseQualityMetrics.metrics (w_quality w'))
       = ResponseQualityMetrics.failed_queries
           (ResponseQualityMetrics.metrics (w_quality w))
    /\ ResponseQualityMetrics.total_citations
         (ResponseQualityMetrics.metrics (w_quality w'))
       = (ResponseQualityMetrics.total_citations
            (ResponseQualityMetrics.metrics (w_quality w))
          + Z.of_nat (length (p_citations (SimpleCache.value e))))%Z.
Proof.
  intros He Hle Hresp.
  destruct (run_query_hit query_request w e response He Hle Hresp)
    as (q & Hrun & Hlog).
  pose proof (dump_of_accepted_payload _ _ Hresp) as Hdump.
  destruct (log_success_counters _ _ _ _ _ Hlog) as (_ & Hs & Hf & Hc).
  assert (Hfields : answer response = p_answer (SimpleCache.value e)
                    /\ map Citation_dump (citations response)
                       = p_citations (SimpleCache.value e)
                    /\ metadata response = p_metadata (SimpleCache.value e)
                    /\ query_id response = uuid4 (w_uuid w)
                    /\ timestamp response
                       = utcnow_isoformat (w_utcnow w) +:+ "Z").
  { pose proof (f_equal p_answer Hdump) as H1.
    pose proof (f_equal p_citations Hdump) as H2.
    pose proof (f_equal p_metadata Hdump) as H3.
    pose proof (f_equal p_query_id Hdump) as H4.
    pose proof (f_equal p_timestamp Hdump) as H5.
    simpl in H1, H2, H3, H4, H5. auto. }
  destruct Hfields as (H1 & H2 & H3 & H4 & H5).
  eexists. split; [exact Hrun |]. cbn [w_cache w_quality w_calls SimpleCache.cache].
  split; [exact H1 |]. split; [exact H2 |]. split; [exact H3 |].
  split; [exact H4 |]. split; [exact H5 |]. split; [reflexivity |].
  split; [rewrite lookup_insert_eq, Hdump; reflexivity |].
  split; [intros k Hne; apply lookup_insert_ne; congruence |].
  split; [exact Hs |]. split; [exact Hf |].
  rewrite Hc, <- H2, length_map. reflexivity.
Qed.

(** X11.  Two identical requests in a row: when the first one succeeds as
    in X9 and the second reads the cache no later than 7200 seconds after
    the first wrote it, the second returns the same answer, citations and
    metadata, with the next identifier and timestamp, without calling any
    collaborator; both are counted as successful; afterwards the cached
    payload carries the identifier and timestamp of the second response. *)
Theorem repeated_query_is_served_from_cache
        (query_request : QueryRequest) (w : World)
        (x : Q) (v : list Q) (doc : Doc) (docs : list Doc)
        (agent : AgentResponse) (ans : string) (raw : list Citation) :
  SimpleCache.cache (w_cache w) !! request_key query_request = None ->
  (forall w1, fst (the_embedding (query_text_of query_request) w1)
              = Ok (Some (x :: v))) ->
  search_documents (x :: v) 5 = Ok (doc :: docs) ->
  generate_response (query query_request) (doc :: docs)
                    (selected_text query_request) = Ok agent ->
  a_answer agent = Some ans ->
  len_between 1 10000 ans = true ->
  (0 <? len (strip ans))%Z = true ->
  raw_citations_of (doc :: docs) = Ok raw ->
  (length (doc :: docs) <= 20)%nat ->
  (time_time (4 + w_clock w) <= time_time (1 + w_clock w) + inject_Z 7200)%Q ->
  exists r1 w1 r2 w2,
    the_query query_request w = (Ok r1, w1)
    /\ the_query query_request w1 = (Ok r2, w2)
    /\ answer r2 = answer r1
    /\ citations r2 = citations r1
    /\ metadata r2 = metadata r1
    /\ query_id r1 = uuid4 (w_uuid w)
    /\ query_id r2 = uuid4 (S (w_uuid w))
    /\ timestamp r2 = utcnow_isoformat (S (w_utcnow w)) +:+ "Z"
    /\ w_calls w2 = w_calls w1
    /\ ResponseQualityMetrics.successful_queries
         (ResponseQualityMetrics.metrics (w_quality w2))
       = (ResponseQualityMetrics.successful_queries
            (ResponseQualityMetrics.metrics (w_quality w)) + 2)%Z
    /\ SimpleCache.cache (w_cache w2) !! request_key query_request
       = Some {| SimpleCache.value := model_dump r2;
                 SimpleCache.expiry :=
                   (time_time (1 + w_clock w) + inject_Z 7200)%Q |}.
Proof.
  intros Habsent Hemb Hsearch Hgen Hans Hlen Hstrip Hraw Hcount Hfresh.
  destruct (run_query_success query_request w x v doc docs agent ans raw
              Habsent Hemb Hsearch Hgen Hans Hlen Hstrip Hraw Hcount)
    as (q1 & cs & Hrun1 & Hlog1 & _ & Hok).
  set (r1 := {| answer := ans; citations := raw; query_id := uuid4 (w_uuid w);
                timestamp := utcnow_isoformat (w_utcnow w) +:+ "Z";
                metadata := Some (dict_get (a_metadata agent) []) |}) in *.
  match type of Hrun1 with _ = (_, ?w1') => set (w1 := w1') in * end.
  set (e := {| SimpleCache.value := model_dump r1;
               SimpleCache.expiry := (time_time (S (w_clock w)) + inject_Z 7200)%Q |}).
  set (r2 := {| answer := answer r1; citations := citations r1;
                query_id := uuid4 (w_uuid w1);
                timestamp := utcnow_isoformat (w_utcnow w1) +:+ "Z";
                metadata := metadata r1 |}).
  assert (He : SimpleCache.cache (w_cache w1) !! request_key query_request
               = Some e).
  { unfold w1, SimpleCache.set. simpl. apply lookup_insert_eq. }
  assert (Hle : (time_time (S (w_clock w1)) <= SimpleCache.expiry e)%Q).
  { exact Hfresh. }
  assert (Hresp : QueryResponse_of_payload
                    (set_timestamp (utcnow_isoformat (w_utcnow w1) +:+ "Z")
                                   (set_query_id (uuid4 (w_uuid w1))
                                                 (SimpleCache.value e)))
                  = Ok r2).
  { apply restamped_payload_response. exact Hok. }
  destruct (run_query_hit query_request w1 e r2 He Hle Hresp)
    as (q2 & Hrun2 & Hlog2).
  destruct (log_success_counters _ _ _ _ _ Hlog1) as (_ & Hs1 & _).
  destruct (log_success_counters _ _ _ _ _ Hlog2) as (_ & Hs2 & _).
  exists r1, w1, r2. eexists.
  split; [exact Hrun1 |]. split; [exact Hrun2 |].
  cbn [w_cache w_quality w_calls SimpleCache.cache].
  split; [reflexivity |]. split; [reflexivity |]. split; [reflexivity |].
  split; [reflexivity |]. split; [reflexivity |]. split; [reflexivity |].
  split; [reflexivity |]. split.
  { rewrite Hs2. unfold w1 at 1. cbn [w_quality]. rewrite Hs1. lia. }
  rewrite lookup_insert_eq.
  rewrite (dump_of_accepted_payload _ _ Hresp). reflexivity.
Qed.

End ServicePathFacts.

(** ** The rate limiter: never more than the limit in a window *)

Section RateLimiterSafety.
Import RateLimiter.

Variable api_key : string.

Lemma calls_app (l1 l2 : list Q) :
  forall self : t,
    calls self api_key (l1 ++ l2)%list
    = ((fst (calls self api_key l1)
        ++ fst (calls (snd (calls self api_key l1)) api_key l2))%list,
       snd (calls (snd (calls self api_key l1)) api_key l2)).
Proof.
  induction l1 as [| a l1 IH]; intros self.
  - simpl. destruct (calls self api_key l2). reflexivity.
  - rewrite <- app_comm_cons, !calls_cons. simpl. rewrite IH. reflexivity.
Qed.

Lemma calls_length (times : list Q) :
  forall self : t, length (fst (calls self api_key times)) = length times.
Proof.
  induction times as [| a times IH]; intros self; [reflexivity |].
  rewrite calls_cons. simpl. rewrite IH. reflexivity.
Qed.

Lemma allowed_times_app (b1 b2 : list bool) (t1 t2 : list Q) :
  length b1 = length t1 ->
  allowed_times (b1 ++ b2) (t1 ++ t2)
  = (allowed_times b1 t1 ++ allowed_times b2 t2)%list.
Proof.
  revert t1. induction b1 as [| b b1 IH]; intros [| a t1] H;
    try discriminate; [reflexivity |].
  simpl in *. injection H as H. rewrite (IH t1 H).
  destruct b; reflexivity.
Qed.

Lemma filter_length_le {A : Type} (f : A -> bool) (l : list A) :
  (length (List.filter f l) <= length l)%nat.
Proof.
  induction l as [| a l IH]; simpl; [lia |]. destruct (f a); simpl; lia.
Qed.

(** Pruning at a later time makes an earlier pruning redundant. *)
Lemma within_later (t0 t : Q) (l : list Q) :
  (t0 <= t)%Q ->
  List.filter (within t) (List.filter (within t0) l) = List.filter (within t) l.
Proof.
  intros Hle. induction l as [| a l IH]; simpl; [reflexivity |].
  destruct (within t0 a) eqn:H0; simpl.
  - rewrite IH. reflexivity.
  - assert (Hf : within t a = false).
    { unfold within in *. apply Qltb_false_iff. apply Qltb_false_iff in H0. lra. }
    rewrite Hf. exact IH.
Qed.

Lemma strongly_sorted_snoc (l : list Q) (a : Q) :
  StronglySorted Qle (l ++ [a]) ->
  StronglySorted Qle l /\ forall b, In b l -> (b <= a)%Q.
Proof.
  induction l as [| x l IH]; simpl; intros H.
  - split; [constructor | intros b []].
  - inversion H as [| ? ? Hs Hall]; subst.
    destruct (IH Hs) as (Hl & Hle). split.
    + constructor; [exact Hl |].
      rewrite List.Forall_forall in Hall |- *. intros y Hy. apply Hall.
      apply in_or_app. left. exact Hy.
    + intros b [<- | Hb]; [| apply Hle; exact Hb].
      rewrite List.Forall_forall in Hall. apply Hall.
      apply in_or_app. right. left. reflexivity.
Qed.

(** The state after a run with a clock that does not go back: what a
    pruning at the current time or later keeps is what it keeps of the
    allowed timestamps, and the list never exceeds the limit. *)
Lemma calls_window_invariant (times : list Q) :
  forall self : t,
    requests_of self api_key = [] ->
    StronglySorted Qle times ->
    (forall now, (forall a, In a times -> (a <= now)%Q) ->
                 List.filter (within now)
                             (requests_of (snd (calls self api_key times)) api_key)
                 = List.filter (within now)
                               (allowed_times (fst (calls self api_key times))
                                              times))
    /\ (Z.of_nat (length (requests_of (snd (calls self api_key times)) api_key))
        <= Z.max 0 (requests_per_minute self))%Z
    /\ requests_per_minute (snd (calls self api_key times))
       = requests_per_minute self.
Proof.
  induction times as [| t0 times IH] using rev_ind; intros self Hempty Hsorted.
  - simpl. rewrite Hempty. split; [reflexivity |]. split; [simpl; lia | reflexivity].
  - destruct (strongly_sorted_snoc _ _ Hsorted) as (Hs & Hle).
    destruct (IH self Hempty Hs) as (Hinv & Hbound & Hlim).
    rewrite calls_app. cbn [fst snd].
    set (s1 := snd (calls self api_key times)) in *.
    set (b1 := fst (calls self api_key times)) in *.
    rewrite calls_cons. cbn [calls fst snd].
    rewrite allowed_times_app by (unfold b1; apply calls_length).
    pose proof (is_allowed_spec api_key t0 s1) as Hspec. cbn zeta in Hspec.
    fold (within t0) in Hspec.
    pose proof (Hinv t0 Hle) as Hkept.
    assert (Hkeptlen :
              (Z.of_nat (length (List.filter (within t0) (requests_of s1 api_key)))
               <= Z.max 0 (requests_per_minute self))%Z).
    { pose proof (filter_length_le (within t0) (requests_of s1 api_key)). lia. }
    destruct Hspec as [(Hlt & -> & -> & ->) | (Hge & -> & -> & ->)].
    + split.
      * intros now Hnow.
        assert (Ht0 : (t0 <= now)%Q)
          by (apply Hnow; apply in_or_app; right; left; reflexivity).
        rewrite !List.filter_app, within_later by exact Ht0.
        rewrite <- (within_later t0 now (allowed_times b1 times) Ht0).
        rewrite <- Hkept, within_later by exact Ht0. reflexivity.
      * split; [rewrite length_app; simpl; lia | exact Hlim].
    + split.
      * intros now Hnow.
        assert (Ht0 : (t0 <= now)%Q)
          by (apply Hnow; apply in_or_app; right; left; reflexivity).
        simpl. rewrite app_nil_r, within_later by exact Ht0.
        rewrite <- (within_later t0 now (allowed_times b1 times) Ht0).
        rewrite <- Hkept, within_later by exact Ht0. reflexivity.
      * split; [exact Hkeptlen | exact Hlim].
Qed.

Lemma filter_idempotent {A : Type} (f : A -> bool) (l : list A) :
  List.filter f (List.filter f l) = List.filter f l.
Proof.
  apply filter_keeps_all. intros x Hx. apply filter_In in Hx. tauto.
Qed.

Lemma within_self (t0 : Q) : within t0 t0 = true.
Proof. unfold within. apply Qltb_true_iff. lra. Qed.

(** X12.  With a clock that does not go back and no timestamps recorded
    at the start, after any run of calls for a key the allowed calls whose
    timestamps lie less than 60 seconds before the last call (that call
    included when it was allowed) are at most the limit, and they are
    exactly the timestamps the limiter holds for the key; the last call is
    allowed exactly when fewer than the limit of the earlier allowed calls
    lie in that window. *)
Theorem at_most_limit_per_window (self : RateLimiter.t) (times : list Q)
        (now : Q) :
  requests_of self api_key = [] ->
  StronglySorted Qle (times ++ [now]) ->
  let run := calls self api_key (times ++ [now]) in
  let earlier := calls self api_key times in
  (Z.of_nat (length (List.filter (within now)
                                 (allowed_times (fst run) (times ++ [now]))))
   <= Z.max 0 (requests_per_minute self))%Z
  /\ requests_of (snd run) api_key
     = List.filter (within now) (allowed_times (fst run) (times ++ [now]))
  /\ (fst (is_allowed now (snd earlier) api_key) = true
      <-> (Z.of_nat (length (List.filter (within now)
                                         (allowed_times (fst earlier) times)))
           < requests_per_minute self)%Z).
Proof.
  intros Hempty Hsorted run earlier.
  destruct (strongly_sorted_snoc _ _ Hsorted) as (Hs & Hle).
  destruct (calls_window_invariant (times ++ [now]) self Hempty Hsorted)
    as (Hinv & Hbound & _).
  destruct (calls_window_invariant times self Hempty Hs) as (Hinv1 & _ & Hlim1).
  fold run in Hinv, Hbound. fold earlier in Hinv1, Hlim1.
  assert (Hnow : forall a, In a (times ++ [now])%list -> (a <= now)%Q).
  { intros a Ha. apply in_app_or in Ha as [Ha | [<- | []]];
      [apply Hle; exact Ha | lra]. }
  pose proof (Hinv now Hnow) as Hfinal.
  pose proof (Hinv1 now Hle) as Hkept.
  pose proof (is_allowed_spec api_key now (snd earlier)) as Hspec.
  cbn zeta in Hspec. fold (within now) in Hspec.
  assert (Hrun : requests_of (snd run) api_key
                 = requests_of (snd (is_allowed now (snd earlier) api_key))
                               api_key).
  { unfold run, earlier. rewrite calls_app. cbn [snd]. rewrite calls_cons.
    reflexivity. }
  assert (Hpruned : List.filter (within now) (requests_of (snd run) api_key)
                    = requests_of (snd run) api_key).
  { rewrite Hrun.
    destruct Hspec as [(_ & _ & -> & _) | (_ & _ & -> & _)].
    - rewrite List.filter_app, filter_idempotent. simpl.
      rewrite within_self. reflexivity.
    - apply filter_idempotent. }
  split; [rewrite <- Hfinal, Hpruned; exact Hbound |].
  split; [rewrite <- Hfinal, Hpruned; reflexivity |].
  rewrite <- Hkept, <- Hlim1.
  destruct Hspec as [(Hlt & -> & _) | (Hge & -> & _)].
  - split; [intros _; exact Hlt | reflexivity].
  - split; [discriminate | intros Hlt; lia].
Qed.

End RateLimiterSafety.

(** ** Ingestion *)

Section IngestionFacts.
Import Models RAGService Ingestion.

Variable uuid4 : nat -> string.
Variable cohere_client : option (string -> result Embedding).
Variable openai_client : option (string -> result Embedding).
Variable add_document :
  string -> string -> string -> string -> Embedding -> option pydict ->
  result bool.

(** X13.  [add_document_to_index] never raises and touches neither the
    cache nor the tracker.  When the embedding of the content is [None] or
    empty it returns [False] without drawing an identifier or calling the
    store; otherwise it draws one new identifier, calls the store with it,
    the content, the title, the url, the embedding and the metadata
    ([None] when left out), and returns [True] exactly when the store
    returned [True]: an exception of the store gives [False]. *)
Theorem add_document_to_index_outcome (content title url : string)
        (metadata : arg (option pydict)) (w : World) :
  exists (b : bool) (w' : World),
    add_document_to_index uuid4 cohere_client openai_client add_document
                          content title url metadata w
    = (Ok b, w')
    /\ w_cache w' = w_cache w
    /\ w_quality w' = w_quality w
    /\ forall v : Embedding,
        (forall w1, fst (generate_embedding cohere_client openai_client
                                            content w1) = Ok v) ->
        (truthy_embedding v = false -> b = false /\ w_uuid w' = w_uuid w)
        /\ (truthy_embedding v = true ->
            w_uuid w' = S (w_uuid w)
            /\ (b = true
                <-> add_document (uuid4 (w_uuid w)) content title url v
                                 (or_default None metadata) = Ok true)).
Proof.
  destruct (generate_embedding_run cohere_client openai_client content w)
    as (v & w1 & cs & Hrun & Hc & Hq & _ & Hu & _).
  unfold add_document_to_index, try_except. unfold bind at 1. rewrite Hrun.
  destruct (truthy_embedding v) eqn:Htruthy; cbn [negb].
  - unfold bind, new_uuid, lift, ret. cbv beta iota.
    destruct (add_document (uuid4 (w_uuid w1)) content title url v
                           (or_default None metadata)) as [b | e] eqn:Hadd.
    + exists b. eexists. split; [reflexivity |]. cbn [w_cache w_quality tick_uuid].
      split; [exact Hc |]. split; [exact Hq |].
      intros v' Hv'. specialize (Hv' w). rewrite Hrun in Hv'. simpl in Hv'.
      injection Hv' as <-. split; [congruence |]. intros _.
      cbn [w_uuid tick_uuid]. rewrite Hu in *. split; [reflexivity |].
      rewrite Hadd. split; [intros ->; reflexivity | intros [= ->]; reflexivity].
    + exists false. eexists. split; [reflexivity |].
      cbn [w_cache w_quality tick_uuid].
      split; [exact Hc |]. split; [exact Hq |].
      intros v' Hv'. specialize (Hv' w). rewrite Hrun in Hv'. simpl in Hv'.
      injection Hv' as <-. split; [congruence |]. intros _.
      cbn [w_uuid tick_uuid]. rewrite Hu in *. split; [reflexivity |].
      rewrite Hadd. split; discriminate.
  - exists false, w1. split; [reflexivity |].
    split; [exact Hc |]. split; [exact Hq |].
    intros v' Hv'. specialize (Hv' w). rewrite Hrun in Hv'. simpl in Hv'.
    injection Hv' as <-. split; [intros _; auto | congruence].
Qed.

End IngestionFacts.

(** ** The route *)

Section EndpointFacts.
Import Models RAGService Http.

Variable md5_hexdigest : string -> string.
Variable time_time : nat -> Q.
Variable uuid4 : nat -> string.
Variable utcnow_isoformat : nat -> string.
Variable cohere_client : option (string -> result Embedding).
Variable openai_client : option (string -> result Embedding).
Variable search_documents : list Q -> Z -> result (list Doc).
Variable generate_response :
  string -> list Doc -> option string -> result AgentResponse.

Abbreviation the_route :=
  (QueryEndpoint.query_documentation
     md5_hexdigest time_time uuid4 utcnow_isoformat cohere_client
     openai_client search_documents generate_response).
Abbreviation the_service :=
  (RAGService.query_documentation
     md5_hexdigest time_time uuid4 utcnow_isoformat cohere_client
     openai_client search_documents generate_response).

(** The service returns a response that meets the constraints. *)
Lemma service_returns (query_request : QueryRequest) (w : World) :
  exists response w',
    the_service query_request w = (Ok response, w')
    /\ QueryResponse_ok response = true.
Proof.
  unfold RAGService.query_documentation, bind, log_query_start, read_clock,
    try_except. cbv beta iota.
  pose proof (query_body_post md5_hexdigest time_time uuid4 utcnow_isoformat
                              cohere_client openai_client search_documents
                              generate_response query_request
                              (time_time (w_clock w)) (tick_clock w)) as Hpost.
  destruct (query_body _ _ _ _ _ _ _ _ _ _ _) as [[response | e] w1].
  - exists response, w1. auto.
  - destruct (query_handler_run time_time uuid4 utcnow_isoformat
                                (time_time (w_clock w)) e w1) as (q & Hh & _).
    rewrite Hh. eexists _, _. split; reflexivity.
Qed.

(** X14.  The route rejects a request with status 400 exactly when
    [validate_query] rejects its query, that is when the query is blank or
    longer than 2000 characters, and then neither the cache nor the
    tracker nor any collaborator is touched; every other request gets the
    response of the service, so the route never answers 500.  For a
    request that meets the constraints of [QueryRequest] the only possible
    rejection is a query of whitespace only. *)
Theorem route_outcomes (request : QueryRequest) (w : World) :
  (AgentService.validate_query (query request) = false ->
   exists detail,
     the_route request w
     = (Rejected {| status_code := 400; detail := detail |}, w))
  /\ (AgentService.validate_query (query request) = true ->
      exists response w',
        the_route request w = (Returned response, w')
        /\ the_service request w = (Ok response, w')
        /\ QueryResponse_ok response = true)
  /\ (forall e w', the_route request w = (Rejected e, w') ->
                   status_code e = 400%Z /\ w' = w)
  /\ (AgentService.validate_query (query request) = false
      <-> strip (query request) = "" \/ (2000 < len (query request))%Z)
  /\ (QueryRequest_ok request = true ->
      (AgentService.validate_query (query request) = false
       <-> strip (query request) = "")).
Proof.
  assert (Hblank : negb (truthy_str (Some (query request)))
                   || (len (strip (query request)) =? 0)%Z = true
                   <-> strip (query request) = "").
  { split.
    - intros H. apply orb_prop in H as [H | H].
      + destruct (query request); [reflexivity | discriminate].
      + apply Z.eqb_eq in H. unfold len in H.
        destruct (strip (query request)); [reflexivity | simpl in H; lia].
    - intros H. apply orb_true_intro. right. rewrite H. reflexivity. }
  assert (Hvalid : AgentService.validate_query (query request) = false
                   <-> strip (query request) = ""
                       \/ (2000 < len (query request))%Z).
  { unfold AgentService.validate_query.
    destruct (negb (truthy_str (Some (query request)))
              || (len (strip (query request)) =? 0)%Z) eqn:Hb.
    - split; [intros _; left; apply Hblank; reflexivity | reflexivity].
    - destruct (Z.ltb_spec 2000 (len (query request))) as [Hlt | Hge].
      + split; [intros _; right; exact Hlt | reflexivity].
      + split; [discriminate |].
        intros [H | H]; [apply Hblank in H; congruence | lia]. }
  assert (Hroute : AgentService.validate_query (query request) = false ->
                   exists detail,
                     the_route request w
                     = (Rejected {| status_code := 400; detail := detail |}, w)).
  { unfold AgentService.validate_query, QueryEndpoint.query_documentation.
    destruct (negb (truthy_str (Some (query request)))
              || (len (strip (query request)) =? 0)%Z); [eauto |].
    destruct (2000 <? len (query request))%Z; [eauto | discriminate]. }
  assert (Haccept : AgentService.validate_query (query request) = true ->
                    exists response w',
                      the_route request w = (Returned response, w')
                      /\ the_service request w = (Ok response, w')
                      /\ QueryResponse_ok response = true).
  { unfold AgentService.validate_query, QueryEndpoint.query_documentation.
    destruct (negb (truthy_str (Some (query request)))
              || (len (strip (query request)) =? 0)%Z); [discriminate |].
    destruct (2000 <? len (query request))%Z; [discriminate |]. intros _.
    destruct (service_returns request w) as (response & w' & Hrun & Hok).
    exists response, w'. rewrite Hrun. auto. }
  split; [exact Hroute |]. split; [exact Haccept |]. split.
  { intros e w' H.
    destruct (AgentService.validate_query (query request)) eqn:Hv.
    - destruct (Haccept eq_refl) as (r & w'' & Hr & _). congruence.
    - destruct (Hroute eq_refl) as (d & Hd). rewrite Hd in H.
      injection H as <- <-. auto. }
  split; [exact Hvalid |].
  intros Hok. rewrite Hvalid. split; [| auto].
  intros [H | H]; [exact H |].
  unfold QueryRequest_ok, len_between in Hok.
  apply andb_prop in Hok as (Hok & _). apply andb_prop in Hok as (_ & Hok).
  apply Z.leb_le in Hok. lia.
Qed.

End EndpointFacts.

(** ** The API key check *)

Section AuthFacts.
Import Http Auth.

Variable settings_api_key : string.

Lemma verify_api_key_rejects (now : Q) (limiter : RateLimiter.t)
      (auth : option string) :
  carries_key settings_api_key auth = false \/ settings_api_key = "" ->
  exists detail,
    verify_api_key settings_api_key now limiter auth
    = (Rejected {| status_code := 401; detail := detail |}, limiter).
Proof.
  unfold verify_api_key, carries_key. intros H.
  destruct auth as [credentials |]; [| eauto].
  destruct credentials as [| a credentials]; [simpl; eauto |].
  cbn [truthy_str negb].
  destruct (String.eqb (String a credentials) settings_api_key) eqn:Heq;
    [| simpl; eauto].
  destruct H as [H | H]; [discriminate |].
  apply String.eqb_eq in Heq. congruence.
Qed.

Lemma verify_api_key_checks_limit (now : Q) (limiter : RateLimiter.t)
      (auth : option string) :
  carries_key settings_api_key auth = true -> settings_api_key <> "" ->
  verify_api_key settings_api_key now limiter auth
  = (if fst (RateLimiter.is_allowed now limiter settings_api_key)
     then Returned settings_api_key
     else Rejected {| status_code := 429; detail := "Rate limit exceeded" |},
     snd (RateLimiter.is_allowed now limiter settings_api_key)).
Proof.
  unfold verify_api_key, carries_key, check_rate_limit. intros H Hne.
  destruct auth as [credentials |]; [| discriminate].
  apply String.eqb_eq in H. subst credentials.
  destruct settings_api_key as [| a k]; [contradiction |].
  cbn [truthy_str negb]. rewrite String.eqb_refl. cbn [negb].
  destruct (RateLimiter.is_allowed now limiter (String a k)) as [[|] l'];
    reflexivity.
Qed.

(** X15.  [verify_api_key] answers 401 and leaves the rate limiter
    untouched when the credentials are missing, empty or not the
    configured key, and always when the configured key is empty; with the
    configured key it returns the key or answers 429 as [is_allowed]
    decides for that key.  So over any run of requests the limiter is in
    the state that the requests carrying the configured key alone would
    have produced: rejected keys never use up the limit. *)
Theorem verify_api_key_outcomes (limiter : RateLimiter.t)
        (calls : list (Q * option string)) :
  (forall (now : Q) (auth : option string),
      carries_key settings_api_key auth = false \/ settings_api_key = "" ->
      exists detail,
        verify_api_key settings_api_key now limiter auth
        = (Rejected {| status_code := 401; detail := detail |}, limiter))
  /\ (forall (now : Q) (auth : option string),
        carries_key settings_api_key auth = true -> settings_api_key <> "" ->
        verify_api_key settings_api_key now limiter auth
        = (if fst (RateLimiter.is_allowed now limiter settings_api_key)
           then Returned settings_api_key
           else Rejected {| status_code := 429;
                            detail := "Rate limit exceeded" |},
           snd (RateLimiter.is_allowed now limiter settings_api_key)))
  /\ (settings_api_key <> "" ->
      snd (requests settings_api_key limiter calls)
      = snd (RateLimiter.calls
               limiter settings_api_key
               (map fst (List.filter
                           (fun c => carries_key settings_api_key (snd c))
                           calls))))
  /\ (settings_api_key = "" ->
      snd (requests settings_api_key limiter calls) = limiter).
Proof.
  split; [intros now auth; apply verify_api_key_rejects |].
  split; [intros now auth; apply verify_api_key_checks_limit |].
  split.
  - intros Hne. revert limiter.
    induction calls as [| [now auth] calls' IH]; intros limiter;
      [reflexivity |].
    cbn [requests List.filter snd].
    destruct (carries_key settings_api_key auth) eqn:Hk.
    + rewrite (verify_api_key_checks_limit now limiter auth Hk Hne).
      cbn [map fst]. rewrite calls_cons. cbn [snd].
      specialize (IH (snd (RateLimiter.is_allowed now limiter settings_api_key))).
      destruct (requests settings_api_key _ calls') as [os l']. exact IH.
    + destruct (verify_api_key_rejects now limiter auth (or_introl Hk))
        as (d & ->).
      specialize (IH limiter).
      destruct (requests settings_api_key limiter calls') as [os l']. exact IH.
  - intros Hempty. revert limiter.
    induction calls as [| [now auth] calls' IH]; intros limiter;
      [reflexivity |].
    cbn [requests].
    destruct (verify_api_key_rejects now limiter auth (or_intror Hempty))
      as (d & ->).
    specialize (IH limiter).
    destruct (requests settings_api_key limiter calls') as [os l']. exact IH.
Qed.

End AuthFacts.

(** ** The request monitor *)

Section MonitoringFacts.
Import MonitoringService.

Lemma log_requests_snoc (self : t) (codes : list Z) (code : Z) :
  log_requests self (codes ++ [code])
  = log_request (log_requests self codes) code 0%Q.
Proof. unfold log_requests. rewrite fold_left_app. reflexivity. Qed.

(** A response counts as an error when its status is outside 200..399. *)
Lemma log_requests_counts (start : Q) (codes : list Z) :
  request_count (log_requests (init start) codes) = Z.of_nat (length codes)
  /\ error_count (log_requests (init start) codes)
     = Z.of_nat (length (List.filter
                           (fun code => negb ((200 <=? code)%Z && (code <? 400)%Z))
                           codes))
  /\ start_time (log_requests (init start) codes) = start.
Proof.
  induction codes as [| code codes IH] using rev_ind; [auto |].
  destruct IH as (Hr & He & Hs).
  rewrite log_requests_snoc, List.filter_app, !length_app. cbn [List.filter].
  unfold log_request.
  destruct ((200 <=? code)%Z && (code <? 400)%Z); simpl;
    rewrite ?Hr, ?He; repeat split; try lia; exact Hs.
Qed.

(** X16.  After any run of [log_request] calls on a new monitor,
    [request_count] is the number of requests and [error_count] the number
    of those whose status is outside 200..399, so it never exceeds
    [request_count]; [get_system_metrics] always returns, reports these
    two counts and the uptime since construction, and its [error_rate] is
    their quotient, between 0 and 1, or 0 when no request was logged. *)
Theorem monitor_error_rate (start now : Q) (codes : list Z)
        (quality : ResponseQualityMetrics.t) :
  let self := log_requests (init start) codes in
  let errors :=
    Z.of_nat (length (List.filter
                        (fun code => negb ((200 <=? code)%Z && (code <? 400)%Z))
                        codes)) in
  request_count self = Z.of_nat (length codes)
  /\ error_count self = errors
  /\ (0 <= error_count self <= request_count self)%Z
  /\ exists m,
      get_system_metrics now self quality = Ok m
      /\ total_requests m = Z.of_nat (length codes)
      /\ total_errors m = errors
      /\ uptime_seconds m = (now - start)%Q
      /\ response_quality m = ResponseQualityMetrics.metrics quality
      /\ error_rate m
         = (if (0 <? Z.of_nat (length codes))%Z
            then (inject_Z errors / inject_Z (Z.of_nat (length codes)))%Q
            else 0%Q)
      /\ (0 <= error_rate m)%Q /\ (error_rate m <= 1)%Q.
Proof.
  intros self errors.
  destruct (log_requests_counts start codes) as (Hr & He & Hs).
  fold self in Hr, He, Hs. fold errors in He.
  assert (Hle : (0 <= errors <= Z.of_nat (length codes))%Z).
  { unfold errors. split; [lia |].
    pose proof (filter_length_le
                  (fun code => negb ((200 <=? code)%Z && (code <? 400)%Z))
                  codes). lia. }
  split; [exact Hr |]. split; [exact He |]. split; [rewrite He, Hr; exact Hle |].
  unfold get_system_metrics. rewrite guarded_avg_ok, Hr, He, Hs.
  eexists. split; [reflexivity |]. cbn.
  split; [reflexivity |]. split; [reflexivity |]. split; [reflexivity |].
  split; [reflexivity |]. split; [reflexivity |].
  destruct (Z.ltb_spec 0 (Z.of_nat (length codes))) as [Hpos | Hzero].
  - assert (Hq : (0 < inject_Z (Z.of_nat (length codes)))%Q)
      by (unfold Qlt; simpl; lia).
    split.
    + apply Qle_shift_div_l; [exact Hq |]. rewrite Qmult_0_l.
      apply inject_Z_nonneg. lia.
    + apply Qle_shift_div_r; [exact Hq |]. rewrite Qmult_1_l.
      rewrite <- Zle_Qle. lia.
  - split; [apply Qle_refl | unfold Qle; simpl; lia].
Qed.

End MonitoringFacts.

(** ** Further runs on the sample inputs *)

Section FurtherSampleRuns.
Import Models RAGService.

Lemma cleanup_expired_sweeps_witness :
  fst (SimpleCache.cleanup_expired 5 example_cache) = 1%Z
  /\ fst (SimpleCache.get hash 6 (snd (SimpleCache.cleanup_expired 5 example_cache))
                          "q" Omitted)
     = fst (SimpleCache.get hash 6 example_cache "q" Omitted).
Proof.
  pose proof (cleanup_expired_sweeps hash string 5 example_cache) as H.
  cbn zeta in H. destruct H as (_ & _ & _ & _ & _ & Hget & _).
  split; [reflexivity |].
  apply (Hget 6%Q "q" Omitted). unfold Qle. simpl. lia.
Defined.

Lemma delete_reports_presence_witness :
  fst (SimpleCache.get hash 5 example_cache "q" Omitted) = None
  /\ fst (SimpleCache.delete hash example_cache "q" Omitted) = true.
Proof.
  apply (proj2 (proj2 (proj2 (proj2 (proj2
           (delete_reports_presence hash string "q" Omitted example_cache)))))
           {| SimpleCache.value := "v";
              SimpleCache.expiry := (0 + inject_Z 1)%Q |} 5%Q).
  - reflexivity.
  - unfold Qlt. simpl. lia.
Defined.

Lemma set_overwrites_and_frames_witness :
  fst (SimpleCache.get hash 2
         (SimpleCache.set hash 1 example_cache "q" "second" Omitted
                          (Passed (Some 1%Z)))
         "q" Omitted)
  = Some "second"
  /\ fst (SimpleCache.get hash 1
            (SimpleCache.set hash 1 example_cache "other" "w" Omitted Omitted)
            "q" Omitted)
     = fst (SimpleCache.get hash 1 example_cache "q" Omitted).
Proof.
  split.
  - apply (proj1 (set_overwrites_and_frames hash string "q" Omitted
                    (SimpleCache.init Omitted))
                 0%Q 1%Q 2%Q "v" "second" (Passed (Some 1%Z)) 1%Z).
    unfold Qle. simpl. lia.
  - apply (proj1 (proj2 (set_overwrites_and_frames hash string "other" Omitted
                           example_cache))
                 1%Q 1%Q "w" Omitted "q" Omitted).
    discriminate.
Defined.

Lemma average_time_counts_failed_queries_witness :
  exists self',
    ResponseQualityMetrics.log_all ResponseQualityMetrics.init
                                   Samples.mixed_calls = Ok self'
    /\ ResponseQualityMetrics.avg_response_time
         (ResponseQualityMetrics.metrics self')
       = (ResponseQualityMetrics.sumQ [(1 - 0)%Q; (3 - 1)%Q]
          / inject_Z (Z.of_nat 1))%Q.
Proof.
  destruct (average_time_counts_failed_queries Samples.mixed_calls)
    as (s & Hrun & _ & _ & Havg & _).
  exists s. split; [exact Hrun |]. apply Havg.
  eexists. split; [right; left; reflexivity | reflexivity].
Defined.

Lemma validation_report_witness :
  ResponseQualityMetrics.is_accurate
    (ResponseQualityMetrics.validate_response_accuracy
       Samples.first_response []) = true.
Proof.
  pose proof (validation_report Samples.first_response []) as H.
  cbn zeta in H. destruct H as (_ & _ & _ & _ & _ & _ & Hempty).
  apply Hempty; [reflexivity | discriminate].
Defined.

Lemma model_dump_round_trip_witness :
  QueryResponse_of_payload (model_dump Samples.first_response)
  = Ok Samples.first_response.
Proof.
  apply (proj1 (model_dump_round_trip Samples.first_response
                                      (model_dump Samples.first_response))).
  reflexivity.
Defined.

Lemma successful_query_is_cached_witness :
  exists w',
    run (Some embed_ok) [Samples.ros_doc] = (Ok Samples.first_response, w')
    /\ SimpleCache.cache (w_cache w') !! Samples.the_key
       = Some Samples.first_entry.
Proof.
  destruct (successful_query_is_cached
              hash clock uuid utcnow (Some embed_ok) None
              (search [Samples.ros_doc]) generate request world
              1%Q [0%Q] Samples.ros_doc [] Samples.ros_agent
              "ROS 2 is a robotics middleware." [Samples.ros_citation]
              eq_refl (fun _ => eq_refl) eq_refl eq_refl eq_refl eq_refl
              eq_refl eq_refl ltac:(simpl; lia))
    as (w' & Hrun & _ & _ & _ & Hentry & _).
  exists w'. split; [exact Hrun | exact Hentry].
Defined.

Lemma cache_hit_replays_witness :
  exists w',
    query_documentation hash clock uuid utcnow (Some embed_ok) None
                        (search [Samples.ros_doc]) generate request
                        Samples.world_after_first
    = (Ok Samples.second_response, w')
    /\ w_calls w' = w_calls Samples.world_after_first.
Proof.
  assert (He : SimpleCache.cache (w_cache Samples.world_after_first)
                 !! Samples.the_key = Some Samples.first_entry)
    by (vm_compute; reflexivity).
  assert (Hle : (clock (S (w_clock Samples.world_after_first))
                 <= SimpleCache.expiry Samples.first_entry)%Q)
    by (vm_compute; discriminate).
  assert (Hresp : QueryResponse_of_payload
                    (set_timestamp
                       (utcnow (w_utcnow Samples.world_after_first) +:+ "Z")
                       (set_query_id
                          (uuid (w_uuid Samples.world_after_first))
                          (SimpleCache.value Samples.first_entry)))
                  = Ok Samples.second_response)
    by (vm_compute; reflexivity).
  destruct (cache_hit_replays
              hash clock uuid utcnow (Some embed_ok) None
              (search [Samples.ros_doc]) generate request
              Samples.world_after_first Samples.first_entry
              Samples.second_response He Hle Hresp)
    as (w' & Hrun & _ & _ & _ & _ & _ & Hcalls & _).
  exists w'. split; [exact Hrun | exact Hcalls].
Defined.

Lemma repeated_query_is_served_from_cache_witness :
  exists r1 w1 r2 w2,
    run (Some embed_ok) [Samples.ros_doc] = (Ok r1, w1)
    /\ query_documentation hash clock uuid utcnow (Some embed_ok) None
                           (search [Samples.ros_doc]) generate request w1
       = (Ok r2, w2)
    /\ answer r2 = answer r1
    /\ citations r2 = citations r1
    /\ query_id r1 = "uuid-0"
    /\ query_id r2 = "uuid-1".
Proof.
  destruct (repeated_query_is_served_from_cache
              hash clock uuid utcnow (Some embed_ok) None
              (search [Samples.ros_doc]) generate request world
              1%Q [0%Q] Samples.ros_doc [] Samples.ros_agent
              "ROS 2 is a robotics middleware." [Samples.ros_citation]
              eq_refl (fun _ => eq_refl) eq_refl eq_refl eq_refl eq_refl
              eq_refl eq_refl ltac:(simpl; lia)
              ltac:(unfold Qle; simpl; lia))
    as (r1 & w1 & r2 & w2 & H1 & H2 & Ha & Hc & _ & Hq1 & Hq2 & _).
  exists r1, w1, r2, w2.
  split; [exact H1 |]. split; [exact H2 |]. split; [exact Ha |].
  split; [exact Hc |]. split; [exact Hq1 | exact Hq2].
Defined.

Lemma at_most_limit_per_window_witness :
  RateLimiter.requests_of
    (snd (RateLimiter.calls (RateLimiter.init 2) "k" ([0%Q; 10%Q] ++ [20%Q])))
    "k"
  = List.filter (RateLimiter.within 20)
                (RateLimiter.allowed_times
                   (fst (RateLimiter.calls (RateLimiter.init 2) "k"
                                           ([0%Q; 10%Q] ++ [20%Q])))
                   ([0%Q; 10%Q] ++ [20%Q])).
Proof.
  assert (Hsorted : StronglySorted Qle ([0%Q; 10%Q] ++ [20%Q])).
  { simpl. repeat constructor; unfold Qle; simpl; lia. }
  pose proof (at_most_limit_per_window "k" (RateLimiter.init 2) [0%Q; 10%Q]
                                       20%Q eq_refl Hsorted) as H.
  cbn zeta in H. destruct H as (_ & Hreq & _). exact Hreq.
Defined.

Lemma add_document_to_index_outcome_witness :
  exists w',
    Ingestion.add_document_to_index
      uuid (Some embed_ok) None Samples.store_ok
      "ROS 2 is a set of software libraries and tools." "ROS 2 overview"
      "/docs/ros2" Omitted world
    = (Ok true, w').
Proof.
  destruct (add_document_to_index_outcome
              uuid (Some embed_ok) None Samples.store_ok
              "ROS 2 is a set of software libraries and tools."
              "ROS 2 overview" "/docs/ros2" Omitted world)
    as (b & w' & Hrun & _ & _ & Hb).
  destruct (Hb (Some [1%Q; 0%Q]) (fun _ => eq_refl)) as (_ & Htrue).
  destruct (Htrue eq_refl) as (_ & Hiff).
  assert (Hbt : b = true) by (apply Hiff; reflexivity).
  exists w'. subst b. exact Hrun.
Defined.

Lemma route_outcomes_witness :
  (exists detail,
      QueryEndpoint.query_documentation
        hash clock uuid utcnow (Some embed_ok) None (search [Samples.ros_doc])
        generate Samples.blank_request world
      = (Http.Rejected {| Http.status_code := 400; Http.detail := detail |},
         world))
  /\ exists response w',
      QueryEndpoint.query_documentation
        hash clock uuid utcnow (Some embed_ok) None (search [Samples.ros_doc])
        generate request world
      = (Http.Returned response, w').
Proof.
  split.
  - apply (proj1 (route_outcomes
                    hash clock uuid utcnow (Some embed_ok) None
                    (search [Samples.ros_doc]) generate
                    Samples.blank_request world)).
    reflexivity.
  - destruct (proj1 (proj2 (route_outcomes
                              hash clock uuid utcnow (Some embed_ok) None
                              (search [Samples.ros_doc]) generate
                              request world)) eq_refl)
      as (response & w' & Hroute & _).
    exists response, w'. exact Hroute.
Defined.

Lemma verify_api_key_outcomes_witness :
  (exists detail,
      Auth.verify_api_key "secret" 0 (RateLimiter.init 2) (Some "guess")
      = (Http.Rejected {| Http.status_code := 401; Http.detail := detail |},
         RateLimiter.init 2))
  /\ snd (Auth.requests "secret" (RateLimiter.init 2)
                        [(0%Q, Some "guess"); (1%Q, Some "secret");
                         (2%Q, None)])
     = snd (RateLimiter.calls (RateLimiter.init 2) "secret" [1%Q]).
Proof.
  pose proof (verify_api_key_outcomes
                "secret" (RateLimiter.init 2)
                [(0%Q, Some "guess"); (1%Q, Some "secret"); (2%Q, None)])
    as (H401 & _ & Hrun & _).
  split.
  - apply H401. left. reflexivity.
  - apply Hrun. discriminate.
Defined.

End FurtherSampleRuns.
